(** * ai_scientist/lab_notebook.py: a shallow embedding of [create_lab_notebook]

    The script gathers file inputs, asks a vision model for figure
    descriptions, sends one large prompt to a language model, extracts the
    fenced markdown block of the answer, saves it, and runs a bounded
    reflection loop.  The embedding keeps the source's names.

    - Python [str] values are [string]s whose characters are code points
      below 256.
    - The filesystem is a finite map from path strings (as [os.path.join]
      builds them on POSIX) to nodes; files are opened in text mode, so a
      read applies Python's universal-newline translation.
    - The collaborators that are not part of the file ([json], the LLM
      client, the VLM client) are fields of a record of oracles; each oracle
      also receives the number of events recorded so far, so that it may
      answer the same question differently at different times.
    - Exceptions are values: a computation returns [Ok a] or [Raise e]
      together with the world it leaves behind. *)

From Stdlib Require Import ZArith Lia Ascii DecimalString.
From stdpp Require Import gmap strings list fin_maps.

(** ** Python [str] operations *)

Module PyStr.

Definition LF : ascii := ascii_of_nat 10.
Definition CR : ascii := ascii_of_nat 13.
Definition DQUOTE : ascii := ascii_of_nat 34.

(** [s.startswith(p)] *)
Fixpoint startswith (s p : string) {struct p} : bool :=
  match p, s with
  | EmptyString, _ => true
  | String a p', String b s' => Ascii.eqb a b && startswith s' p'
  | String _ _, EmptyString => false
  end.

(** the rest of [s] after the prefix [p], when [s] starts with [p] *)
Fixpoint strip_prefix (p s : string) {struct p} : option string :=
  match p, s with
  | EmptyString, _ => Some s
  | String a p', String b s' =>
      if Ascii.eqb a b then strip_prefix p' s' else None
  | String _ _, EmptyString => None
  end.

(** [s.endswith(suffix)]: [s] is the suffix, or its tail ends with it *)
Fixpoint endswith (s suffix : string) : bool :=
  String.eqb s suffix
  || match s with
     | EmptyString => false
     | String _ s' => endswith s' suffix
     end.

(** [needle in s] *)
Fixpoint contains (needle s : string) : bool :=
  startswith s needle
  || match s with
     | EmptyString => false
     | String _ s' => contains needle s'
     end.

(** [str.lower] on code points below 256: A-Z and the Latin-1 capitals
    (0xC0-0xDE except the multiplication sign 0xD7) move up by 32. *)
Definition lower_char (c : ascii) : ascii :=
  let n := nat_of_ascii c in
  if (((65 <=? n) && (n <=? 90))
      || ((192 <=? n) && (n <=? 222) && negb (n =? 215)))%nat
  then ascii_of_nat (n + 32) else c.

Fixpoint lower (s : string) : string :=
  match s with
  | EmptyString => EmptyString
  | String c s' => String (lower_char c) (lower s')
  end.

(** [str.isspace] for one code point below 256 *)
Definition is_space (c : ascii) : bool :=
  let n := nat_of_ascii c in
  (((9 <=? n) && (n <=? 13)) || ((28 <=? n) && (n <=? 32))
   || (n =? 133) || (n =? 160))%nat.

Fixpoint lstrip (s : string) : string :=
  match s with
  | EmptyString => EmptyString
  | String c s' => if is_space c then lstrip s' else s
  end.

(** [rstrip] drops a character exactly when it is a space and everything
    after it has been dropped too. *)
Fixpoint rstrip (s : string) : string :=
  match s with
  | EmptyString => EmptyString
  | String c s' =>
      match rstrip s' with
      | EmptyString => if is_space c then EmptyString else String c EmptyString
      | r => String c r
      end
  end.

(** [s.strip()] *)
Definition strip (s : string) : string := rstrip (lstrip s).

(** [sep.join(l)] *)
Fixpoint join (sep : string) (l : list string) : string :=
  match l with
  | [] => EmptyString
  | [x] => x
  | x :: rest => x +:+ sep +:+ join sep rest
  end.

(** What a text-mode [read()] returns for stored text: with the default
    [newline=None] both "\r\n" and a lone "\r" come back as "\n".
    [after_cr] remembers that the previous character was a "\r". *)
Fixpoint universal_newlines_from (after_cr : bool) (s : string) : string :=
  match s with
  | EmptyString => EmptyString
  | String c s' =>
      if Ascii.eqb c CR then String LF (universal_newlines_from true s')
      else if after_cr && Ascii.eqb c LF then universal_newlines_from false s'
      else String c (universal_newlines_from false s')
  end.

Definition universal_newlines (s : string) : string :=
  universal_newlines_from false s.

End PyStr.

(** ** The regular expression [r"```markdown(.*?)```"] with [re.DOTALL] *)

Module Regex.
Import PyStr.

Definition FENCE_OPEN : string := "```markdown".
Definition FENCE_CLOSE : string := "```".

(** The lazy group [(.*?)] followed by the literal [closer], tried at the
    head of [s]: the group grows by one character (any character, the
    flag is DOTALL) each time the closer fails to match. *)
Fixpoint lazy_group_until (closer s : string) : option string :=
  if startswith s closer then Some EmptyString
  else match s with
       | EmptyString => None
       | String c s' =>
           match lazy_group_until closer s' with
           | Some g => Some (String c g)
           | None => None
           end
       end.

(** One attempt of the whole pattern at the head of [s]; the result is
    [group(1)]. *)
Definition match_here (s : string) : option string :=
  match strip_prefix FENCE_OPEN s with
  | Some rest => lazy_group_until FENCE_CLOSE rest
  | None => None
  end.

(** [re.search]: the pattern is tried at every start position from left
    to right, and the first success wins. *)
Fixpoint re_search (s : string) : option string :=
  match match_here s with
  | Some g => Some g
  | None =>
      match s with
      | EmptyString => None
      | String _ s' => re_search s'
      end
  end.

End Regex.

(** ** Exceptions, the filesystem and the world *)

(** The exception classes the script can meet; all are subclasses of
    [Exception].  [JSONDecodeError] is the one [json.load] raises on text
    that is not valid JSON; [OtherError] stands for whatever else a
    collaborator raises. *)
Inductive exn : Type :=
| FileNotFoundError
| FileExistsError
| NotADirectoryError
| IsADirectoryError
| JSONDecodeError
| OtherError (what : string).

Inductive outcome (A : Type) : Type :=
| Ok (a : A)
| Raise (e : exn).
Arguments Ok {A} a.
Arguments Raise {A} e.

Inductive node : Type :=
| File (content : string)
| Dir.

(** What a run leaves visible from outside, newest first. *)
Inductive event : Type :=
| EvPrint (text : string)
| EvTraceback (e : exn)
| EvWrite (path content : string)
| EvVLM (image : string)
| EvLLM (prompt : string) (reply : option string).

Record world : Type := World {
  fs : gmap string node;
  trace : list event
}.

Definition init_world (files : gmap string node) : world :=
  {| fs := files; trace := [] |}.

Definition log (e : event) (w : world) : world :=
  {| fs := fs w; trace := e :: trace w |}.

Definition set_fs (m : gmap string node) (w : world) : world :=
  {| fs := m; trace := trace w |}.

(** The number of events so far: the time an oracle is asked at. *)
Definition now (w : world) : nat := length (trace w).

(** *** A state-and-exception monad *)

Definition M (A : Type) : Type := world -> outcome A * world.

Definition ret {A} (a : A) : M A := fun w => (Ok a, w).

Definition raise {A} (e : exn) : M A := fun w => (Raise e, w).

Definition bind {A B} (m : M A) (k : A -> M B) : M B :=
  fun w =>
    match m w with
    | (Ok a, w') => k a w'
    | (Raise e, w') => (Raise e, w')
    end.

Notation "'let*' x ':=' m 'in' k" := (bind m (fun x => k))
  (at level 10, x pattern, m at level 100, k at level 200).
Notation "m ';;' k" := (bind m (fun _ => k))
  (at level 100, k at level 200, right associativity).

(** [try: body except <classes>: handler]; an exception outside
    [catches] passes through. *)
Definition try_except {A} (body : M A) (catches : exn -> bool)
    (handler : exn -> M A) : M A :=
  fun w =>
    match body w with
    | (Ok a, w') => (Ok a, w')
    | (Raise e, w') => if catches e then handler e w' else (Raise e, w')
    end.

(** [except Exception] *)
Definition any_exception (e : exn) : bool := true.

(** [except json.JSONDecodeError] *)
Definition is_JSONDecodeError (e : exn) : bool :=
  match e with JSONDecodeError => true | _ => false end.

Definition lift_outcome {A} (o : outcome A) : M A := fun w => (o, w).

Definition print (text : string) : M unit :=
  fun w => (Ok tt, log (EvPrint text) w).

(** [print(traceback.format_exc())] while [e] is being handled *)
Definition print_traceback (e : exn) : M unit :=
  fun w => (Ok tt, log (EvTraceback e) w).

(** *** Paths *)

Module Path.
Import PyStr.

(** [posixpath.join(a, b)] *)
Definition join (a b : string) : string :=
  if startswith b "/" then b
  else if String.eqb a EmptyString || endswith a "/" then a +:+ b
  else a +:+ "/" +:+ b.

(** The directories above a path, outermost first: every non-empty
    prefix that is followed by a slash and does not itself end in one.
    [seen] is the part of the path already passed. *)
Fixpoint parents_from (seen rest : string) : list string :=
  match rest with
  | EmptyString => []
  | String c rest' =>
      (if Ascii.eqb c "/" && negb (String.eqb seen EmptyString)
          && negb (endswith seen "/")
       then [seen] else [])
      ++ parents_from (seen +:+ String c EmptyString) rest'
  end.

Definition parents (p : string) : list string := parents_from EmptyString p.

(** The part of [k] below directory [d], when [k] lies below it. *)
Definition below (d k : string) : option string :=
  strip_prefix (d +:+ "/") k.

(** A single path component: non-empty and without a slash. *)
Definition is_name (s : string) : bool :=
  negb (String.eqb s EmptyString) && negb (contains "/" s).

End Path.

(** *** Filesystem operations ([os], [os.path], [shutil], [open]) *)

Module FS.
Import PyStr.

(** [os.path.exists(p)] *)
Definition path_exists (p : string) : M bool :=
  fun w => (Ok (bool_decide (is_Some (fs w !! p))), w).

(** [with open(p, "r") as f: f.read()] *)
Definition read_text (p : string) : M string :=
  fun w =>
    match fs w !! p with
    | Some (File content) => (Ok (universal_newlines content), w)
    | Some Dir => (Raise IsADirectoryError, w)
    | None => (Raise FileNotFoundError, w)
    end.

(** [with open(p, "w") as f: f.write(content)]: the file is truncated
    or created, then holds exactly [content]; the directory above it
    must exist. *)
Definition write_text (p content : string) : M unit :=
  fun w =>
    match fs w !! p with
    | Some Dir => (Raise IsADirectoryError, w)
    | _ =>
        match last (Path.parents p) with
        | None =>
            (Ok tt,
             log (EvWrite p content) (set_fs (<[p := File content]> (fs w)) w))
        | Some d =>
            match fs w !! d with
            | Some Dir =>
                (Ok tt,
                 log (EvWrite p content)
                   (set_fs (<[p := File content]> (fs w)) w))
            | Some (File _) => (Raise NotADirectoryError, w)
            | None => (Raise FileNotFoundError, w)
            end
        end
    end.

(** Create each directory of the list that is missing, in order. *)
Fixpoint mkdir_each (dirs : list string) (target : string)
    (m : gmap string node) : outcome (gmap string node) :=
  match dirs with
  | [] => Ok m
  | d :: rest =>
      match m !! d with
      | Some Dir => mkdir_each rest target m
      | Some (File _) =>
          Raise (if String.eqb d target then FileExistsError
                 else NotADirectoryError)
      | None => mkdir_each rest target (<[d := Dir]> m)
      end
  end.

(** [os.makedirs(p, exist_ok=True)] *)
Definition makedirs (p : string) : M unit :=
  fun w =>
    match mkdir_each (Path.parents p ++ [p]) p (fs w) with
    | Ok m => (Ok tt, set_fs m w)
    | Raise e => (Raise e, w)
    end.

(** [shutil.rmtree(p)]: [p] and everything below it disappear. *)
Definition rmtree (p : string) : M unit :=
  fun w =>
    match fs w !! p with
    | Some Dir =>
        (Ok tt,
         set_fs
           (filter (fun kv => kv.1 <> p /\ Path.below p kv.1 = None) (fs w))
           w)
    | Some (File _) => (Raise NotADirectoryError, w)
    | None => (Raise FileNotFoundError, w)
    end.

(** The entries of [src] re-rooted at [dst] and added to [acc]. *)
Definition copy_entries (src dst : string) (entries : list (string * node))
    (acc : gmap string node) : gmap string node :=
  foldr (fun kv acc' =>
           match Path.below src kv.1 with
           | Some rel => <[dst +:+ "/" +:+ rel := kv.2]> acc'
           | None => acc'
           end) acc entries.

(** [shutil.copytree(src, dst)] with [dirs_exist_ok=False]: [src] must
    be a directory and [dst] must not exist. *)
Definition copytree (src dst : string) : M unit :=
  fun w =>
    match fs w !! src with
    | None => (Raise FileNotFoundError, w)
    | Some (File _) => (Raise NotADirectoryError, w)
    | Some Dir =>
        match fs w !! dst with
        | Some _ => (Raise FileExistsError, w)
        | None =>
            match mkdir_each (Path.parents dst ++ [dst]) dst (fs w) with
            | Raise e => (Raise e, w)
            | Ok m =>
                (Ok tt, set_fs (copy_entries src dst (map_to_list (fs w)) m) w)
            end
        end
    end.

(** The names directly inside [d], in the map's order. *)
Definition entry_names (d : string) (m : gmap string node) : list string :=
  omap (fun kv : string * node =>
          match Path.below d kv.1 with
          | Some rel => if Path.is_name rel then Some rel else None
          | None => None
          end) (map_to_list m).

(** [os.listdir(d)] *)
Definition listdir (d : string) : M (list string) :=
  fun w =>
    match fs w !! d with
    | Some Dir => (Ok (entry_names d (fs w)), w)
    | Some (File _) => (Raise NotADirectoryError, w)
    | None => (Raise FileNotFoundError, w)
    end.

End FS.

(** ** The prompt templates (module-level constants of the script) *)

Definition notebook_system_message_template : string :=
"You are a ambitious AI researcher trying to create a lab notebook 
summarizing your experiments. Your supervisor will use this notebook to understand your experimental 
work, track progress, assess results, give feedback, and potentially guide future research directions. 
The notebook must be clear, experiments should be explicit, and enable the supervisor to understand everything 
without overloading him with too much information.

Your lab notebook should follow a structured format that enables quick comprehension and easy navigation:

## **General Guidelines**:
- Use clear, concise language that balances technical precision with readability
- Maintain consistent formatting and organization throughout
- Highlight key insights, breakthroughs, and decision points

## **Structure for Each Experiment Entry**:

- **Experiment Title**:
  - Clear, descriptive title that captures the experiment's purpose

- **Motivation & Hypothesis**:
  - Briefly explain why this experiment was conducted
  - State clear hypotheses or research questions being tested
  - Connect to broader research goals and previous experiments
  
- **Experimental Setup**:
  - Describe the methodology concisely but completely
  - Include key parameters, datasets, models, and configurations
  - Note any changes from previous experiments
  - Specify evaluation metrics and success criteria
  
- **Results**:
  - Present findings objectively with appropriate visualizations
  - Include quantitative results (tables, metrics) and qualitative observations
  - Report both positive and negative results honestly
  - Highlight unexpected findings or anomalies
  
- **Analysis & Interpretation**:
  - Interpret results in context of the original hypothesis
  - Compare with baseline methods or previous experiments
  - Identify potential causes for unexpected outcomes
  - Assess statistical significance and practical importance

- **Key Insights & Lessons Learned**:
  - Summarize the main takeaways from the experiment
  - Note methodological insights or technical discoveries
  - Document what worked well and what didn't
  - Identify potential improvements or alternative approaches

- **Next Steps**:
  - Outline immediate follow-up experiments or investigations
  - Suggest modifications based on current results
  - Note questions that emerged from this work
  
## **Best Practices**:
- Use clear headings and consistent formatting for easy scanning
- Include relevant plots, tables, and figures with proper captions
- Cross-reference related experiments and build narrative connections
- Balance detail with brevity - include essential information without overwhelming
- Use bullet points and numbered lists for clarity
- Maintain a running glossary of key terms and abbreviations
- Regular backup and version control of notebook entries

Remember: Your supervisor should be able to quickly understand your progress, assess the quality of your work, and provide meaningful guidance based on your documentation. The notebook should tell a coherent story of your research journey while serving as a reliable reference for future work.
".

(** [notebook_prompt.format(...)]: the template has six fields and no
    other brace, so formatting splices the six values between the seven
    literal pieces. *)
Definition notebook_prompt_format
    (idea_text summaries aggregator_code plot_list plot_descriptions
     current_notebook : string) : string :=
  String.concat EmptyString
    ["Your primary goal is to create or update a lab notebook entry. This notebook is a critical 
tool for your supervisor to understand your experimental work, track progress, assess results, give feedback, and 
guide future research directions.

It is essential that the notebook entries are clear, concise, well-structured, and accurately reflect the experimental data and your analysis.

Please meticulously follow the structure and guidelines for each experiment entry.

The current task is to document experiments in the context of this idea:
```markdown
";
     idea_text;
     "
```

We have the following experiment summaries (JSON):
```json
";
     summaries;
     "
```

We also have a script used to produce the final plots (use this to see how the plots are generated and what names are used in the legend):
```python
";
     aggregator_code;
     "
```
Please also consider which plots should naturally be grouped together as subfigures.

Available plots for the writeup (use these filenames):
```
";
     plot_list;
     "
```

We also have VLM-based figure descriptions:
```
";
     plot_descriptions;
     "
```

Your current Lab Notebook content (if this is an update to an existing notebook, this will be empty):
```markdown
";
     current_notebook;
     "
```

Return the entire lab notebook content in Markdown format, enclosed in triple backticks with `markdown` syntax highlighting, as shown below:

```markdown
<UPDATED MARKDOWN LAB NOTEBOOK CONTENT>
```
"].

(** The reflection prompt of the loop (an f-string without fields). *)
Definition reflection_prompt : string :=
  String.concat EmptyString
    ["
Now let's reflect and identify any issues (including but not limited to):
1) Is the writing clear?
2) Have we included all relevant details from the summaries without hallucinating?

Please provide a revised complete notebook or repeat the same if no changes are needed.
Return the entire file in full, with no unfilled placeholders!
Do not hallucinate any details!

If you believe you are done, simply say: ";
     String PyStr.DQUOTE "I am done";
     String PyStr.DQUOTE ".
"].

Definition DONE_SENTINEL : string := "I am done".

(** ** The collaborators *)

(** What [json.load] returns. *)
#[warnings="-register-all"]
Inductive json : Type :=
| JNull
| JBool (b : bool)
| JNumber (literal : string)
| JString (s : string)
| JArray (items : list json)
| JObject (members : list (string * json)).

(** The argument of [generate_vlm_img_review]. *)
Record img_dict : Type := {
  images : list string;
  caption : string
}.

Definition msg_history : Type := list (string * string).

(** The review a VLM call returns: [None] or a dictionary. *)
Definition review_data : Type := option (list (string * string)).

(** The imported functions the script calls.  Each takes the time of the
    call first.  Clients are opaque handles. *)
Record collaborators : Type := {
  json_load : string -> outcome json;
  json_dumps : json -> string;
  create_vlm_client : nat -> string -> outcome (nat * string);
  generate_vlm_img_review :
    nat -> img_dict -> string -> nat -> outcome review_data;
  create_client : nat -> string -> outcome (nat * string);
  get_response_from_llm :
    nat -> string -> nat -> string -> string -> msg_history ->
    outcome (string * msg_history)
}.

(** ** The script *)

Section Script.
Import PyStr.

Context (env : collaborators).

Definition call_create_vlm_client (model : string) : M (nat * string) :=
  fun w => (create_vlm_client env (now w) model, w).

Definition call_generate_vlm_img_review (d : img_dict) (model : string)
    (client : nat) : M review_data :=
  fun w =>
    (generate_vlm_img_review env (now w) d model client,
     log (EvVLM (String.concat "," (images d))) w).

Definition call_create_client (model : string) : M (nat * string) :=
  fun w => (create_client env (now w) model, w).

Definition reply_of (r : outcome (string * msg_history)) : option string :=
  match r with
  | Ok (text, _) => Some text
  | Raise _ => None
  end.

Definition call_get_response_from_llm (prompt : string) (client : nat)
    (model system_message : string) (history : msg_history)
    : M (string * msg_history) :=
  fun w =>
    let r := get_response_from_llm env (now w) prompt client model
               system_message history in
    (r, log (EvLLM prompt (reply_of r)) w).

(** *** Loading the idea text (lines 154-164) *)

Definition load_idea_text (base_folder : string) : M string :=
  let research_idea_path := Path.join base_folder "research_idea.md" in
  let* found := FS.path_exists research_idea_path in
  if found then FS.read_text research_idea_path
  else
    let idea_md_path := Path.join base_folder "idea.md" in
    let* found_md := FS.path_exists idea_md_path in
    if found_md then FS.read_text idea_md_path else ret EmptyString.

(** *** Loading the summaries (lines 166-189) *)

Definition summary_files : list (string * string) :=
  [("logs/0-run/baseline_summary.json", "BASELINE_SUMMARY");
   ("logs/0-run/research_summary.json", "RESEARCH_SUMMARY");
   ("logs/0-run/ablation_summary.json", "ABLATION_SUMMARY")].

(** [d[key] = v] on a dictionary that keeps insertion order *)
Fixpoint dict_set (key : string) (v : json) (d : list (string * json))
    : list (string * json) :=
  match d with
  | [] => [(key, v)]
  | (k, x) :: rest =>
      if String.eqb k key then (k, v) :: rest
      else (k, x) :: dict_set key v rest
  end.

Fixpoint dict_get {V} (key : string) (d : list (string * V)) : option V :=
  match d with
  | [] => None
  | (k, x) :: rest => if String.eqb k key then Some x else dict_get key rest
  end.

Definition summary_warning (fname key : string) : string :=
  "Warning: " +:+ fname +:+ " is not valid JSON. Using empty data for "
  +:+ key +:+ ".".

Definition empty_object : json := JObject [].

(** One turn of the loop over [summary_files]. *)
Definition load_summary (base_folder fname key : string)
    (loaded_summaries : list (string * json)) : M (list (string * json)) :=
  let path := Path.join base_folder fname in
  let* found := FS.path_exists path in
  if found then
    try_except
      (let* text := FS.read_text path in
       let* value := lift_outcome (json_load env text) in
       ret (dict_set key value loaded_summaries))
      is_JSONDecodeError
      (fun _ =>
         print (summary_warning fname key);;
         ret (dict_set key empty_object loaded_summaries))
  else ret (dict_set key empty_object loaded_summaries).

Fixpoint load_summaries (base_folder : string) (files : list (string * string))
    (loaded_summaries : list (string * json)) : M (list (string * json)) :=
  match files with
  | [] => ret loaded_summaries
  | (fname, key) :: rest =>
      let* loaded := load_summary base_folder fname key loaded_summaries in
      load_summaries base_folder rest loaded
  end.

(** *** The current notebook (lines 191-197) *)

Definition read_current_notebook (notebook_file : string) : M string :=
  let* found := FS.path_exists notebook_file in
  if found then FS.read_text notebook_file else ret EmptyString.

(** *** The plot names (lines 199-205) *)

Definition is_png (fplot : string) : bool := endswith (lower fplot) ".png".

Definition gather_plot_names (figures_dir : string) : M (list string) :=
  let* found := FS.path_exists figures_dir in
  if found then
    let* entries := FS.listdir figures_dir in
    ret (List.filter is_png entries)
  else ret [].

(** *** The aggregator script (lines 207-214) *)

Definition load_aggregator_code (base_folder : string) : M string :=
  let aggregator_path := Path.join base_folder "auto_plot_aggregator.py" in
  let* found := FS.path_exists aggregator_path in
  if found then FS.read_text aggregator_path
  else ret "No aggregator script found.".

(** *** The VLM descriptions (lines 216-245) *)

Definition NO_DESCRIPTION : string := "No description found".

(** [review_data.get("Img_description", "No description found")] when
    [review_data] is truthy, the default otherwise. *)
Definition description_of (review : review_data) : string :=
  match review with
  | Some (entry :: entries) =>
      default NO_DESCRIPTION (dict_get "Img_description" (entry :: entries))
  | Some [] | None => NO_DESCRIPTION
  end.

(** The loop filling [desc_map]. *)
Fixpoint describe_each (figures_dir vlm_model : string) (vlm_client : nat)
    (plot_names : list string) (desc_map : gmap string string)
    : M (gmap string string) :=
  match plot_names with
  | [] => ret desc_map
  | pf :: rest =>
      let ppath := Path.join figures_dir pf in
      let* found := FS.path_exists ppath in
      if negb found
      then describe_each figures_dir vlm_model vlm_client rest desc_map
      else
        let img := {| images := [ppath]; caption := "No direct caption" |} in
        let* review := call_generate_vlm_img_review img vlm_model vlm_client in
        describe_each figures_dir vlm_model vlm_client rest
          (<[pf := description_of review]> desc_map)
  end.

Definition description_line (desc_map : gmap string string)
    (fname : string) : string :=
  fname +:+ ": " +:+ default NO_DESCRIPTION (desc_map !! fname).

Definition NEWLINE : string := String LF EmptyString.

(** The body of the inner [try] (lines 218-241). *)
Definition generate_descriptions (figures_dir : string)
    (plot_names : list string) : M string :=
  let* (vlm_client, vlm_model) :=
    call_create_vlm_client "gpt-4o-2024-05-13" in
  let* desc_map :=
    describe_each figures_dir vlm_model vlm_client plot_names ∅ in
  ret (join NEWLINE (map (description_line desc_map) plot_names)).

Definition NO_DESCRIPTIONS : string := "No descriptions available.".

Definition describe_plots (figures_dir : string) (plot_names : list string)
    : M string :=
  try_except
    (generate_descriptions figures_dir plot_names)
    any_exception
    (fun e =>
       print "EXCEPTION in VLM figure description generation:";;
       print_traceback e;;
       ret NO_DESCRIPTIONS).

(** *** Everything the prompt is built from (lines 154-246) *)

Record prompt_inputs : Type := {
  idea_text : string;
  combined_summaries_str : string;
  current_notebook : string;
  plot_names : list string;
  aggregator_code : string;
  plot_descriptions_str : string
}.

Definition notebook_folder_of (base_folder : string) : string :=
  Path.join base_folder "notebook".

Definition notebook_file_of (base_folder : string) : string :=
  Path.join (notebook_folder_of base_folder) "lab_notebook.md".

Definition figures_dir_of (base_folder : string) : string :=
  Path.join base_folder "figures".

Definition gather_inputs (base_folder : string) : M prompt_inputs :=
  let* idea := load_idea_text base_folder in
  let* loaded_summaries := load_summaries base_folder summary_files [] in
  let summaries := json_dumps env (JObject loaded_summaries) in
  let* current := read_current_notebook (notebook_file_of base_folder) in
  let figures_dir := figures_dir_of base_folder in
  let* plots := gather_plot_names figures_dir in
  let* aggregator := load_aggregator_code base_folder in
  let* descriptions := describe_plots figures_dir plots in
  ret {| idea_text := idea;
         combined_summaries_str := summaries;
         current_notebook := current;
         plot_names := plots;
         aggregator_code := aggregator;
         plot_descriptions_str := descriptions |}.

Definition combined_prompt_of (i : prompt_inputs) : string :=
  notebook_prompt_format
    (idea_text i) (combined_summaries_str i) (aggregator_code i)
    (join ", " (plot_names i)) (plot_descriptions_str i)
    (current_notebook i).

(** *** Saving and reflecting (lines 267-329) *)

Definition save_notebook (notebook_file notebook_content : string) : M unit :=
  FS.write_text notebook_file notebook_content;;
  print "Lab notebook successfully saved".

(** How one pass of the reflection loop ends. *)
Inductive loop_exit : Type :=
| Next (history : msg_history)
| Break
| Return (b : bool).

Definition step_number (i : nat) : string :=
  NilZero.string_of_uint (Nat.to_uint (i + 1)).

Definition DONE_MESSAGE : string :=
  "LLM indicated it is done with reflections. Exiting reflection loop.".

(** The body of [for i in range(n_notebook_reflections)].  [response]
    is the answer to the first prompt, as in the source. *)
Definition reflection_pass (response notebook_file : string) (client : nat)
    (client_model : string) (i : nat) (history : msg_history)
    : M loop_exit :=
  let* current := FS.read_text notebook_file in
  let* (reflection_response, history') :=
    call_get_response_from_llm reflection_prompt client client_model
      notebook_system_message_template history in
  if contains DONE_SENTINEL reflection_response then
    print DONE_MESSAGE;;
    ret Break
  else
    match Regex.re_search response with
    | None => ret (Return false)
    | Some group1 =>
        let reflected_notebook := strip group1 in
        if negb (String.eqb reflected_notebook current) then
          save_notebook notebook_file reflected_notebook;;
          ret (Next history')
        else
          print ("No changes in reflection step " +:+ step_number i +:+ ".");;
          ret Break
    end.

(** The loop itself; [None] means that control falls through to the
    statement after the loop. *)
Fixpoint reflection_loop (response notebook_file : string) (client : nat)
    (client_model : string) (indices : list nat) (history : msg_history)
    : M (option bool) :=
  match indices with
  | [] => ret None
  | i :: rest =>
      let* exit :=
        reflection_pass response notebook_file client client_model i history in
      match exit with
      | Next history' =>
          reflection_loop response notebook_file client client_model rest
            history'
      | Break => ret None
      | Return b => ret (Some b)
      end
  end.

(** [range(n)] *)
Definition range (n : Z) : list nat := seq 0 (Z.to_nat n).

(** *** The function *)

(** Lines 141-151, before the [try]. *)
Definition setup_notebook_folder (base_folder : string) : M unit :=
  let notebook_folder := notebook_folder_of base_folder in
  let figures_dir := figures_dir_of base_folder in
  let* found := FS.path_exists notebook_folder in
  (if found then FS.rmtree notebook_folder else ret tt);;
  FS.makedirs notebook_folder;;
  let new_figures_dir := Path.join notebook_folder "figures" in
  FS.copytree figures_dir new_figures_dir.

(** From the extraction of the first answer to the final [return]
    (lines 267-329). *)
Definition save_and_reflect (base_folder : string)
    (n_notebook_reflections : Z) (client : nat) (client_model : string)
    (response : string) (history : msg_history) : M bool :=
  let notebook_file := notebook_file_of base_folder in
  match Regex.re_search response with
  | None => ret false
  | Some group1 =>
      let updated_notebook := strip group1 in
      save_notebook notebook_file updated_notebook;;
      let* returned :=
        reflection_loop response notebook_file client client_model
          (range n_notebook_reflections) history in
      match returned with
      | Some b => ret b
      | None => FS.path_exists notebook_file
      end
  end.

(** What follows the prompt inputs inside the [try] (lines 248-329). *)
Definition write_and_reflect (base_folder model : string)
    (n_notebook_reflections : Z) (inputs : prompt_inputs) : M bool :=
  let* (client, client_model) := call_create_client model in
  let combined_prompt := combined_prompt_of inputs in
  let* (response, history) :=
    call_get_response_from_llm combined_prompt client client_model
      notebook_system_message_template [] in
  save_and_reflect base_folder n_notebook_reflections client client_model
    response history.

(** The body of the [try] (lines 154-329). *)
Definition try_body (base_folder model : string)
    (n_notebook_reflections : Z) : M bool :=
  let* inputs := gather_inputs base_folder in
  write_and_reflect base_folder model n_notebook_reflections inputs.

(** The [except Exception] clause (lines 331-334). *)
Definition report_exception (e : exn) : M bool :=
  print "EXCEPTION in create_lab_notebook:";;
  print_traceback e;;
  ret false.

Definition create_lab_notebook (base_folder model : string)
    (n_notebook_reflections : Z) : M bool :=
  setup_notebook_folder base_folder;;
  try_except
    (try_body base_folder model n_notebook_reflections)
    any_exception
    report_exception.

End Script.

(** ** The command line entry point (lines 337-365) *)

(** What [parser.parse_args()] hands over: [--folder], [--model] and
    [--notebook-reflections]. *)
Record cli_args : Type := {
  args_folder : string;
  args_model : string;
  args_notebook_reflections : Z
}.

Definition FAILURE_MESSAGE : string :=
  "Writeup process did not complete successfully.".

(** The [try] of the [__main__] block. *)
Definition main (env : collaborators) (args : cli_args) : M unit :=
  try_except
    (let* success :=
       create_lab_notebook env (args_folder args) (args_model args)
         (args_notebook_reflections args) in
     if negb success then print FAILURE_MESSAGE else ret tt)
    any_exception
    (fun e =>
       print "EXCEPTION in main:";;
       print_traceback e;;
       ret tt).

(** ** A scripted environment for concrete runs *)

Module Demo.
Import PyStr.

Definition quoted (s : string) : string :=
  String DQUOTE s +:+ String DQUOTE EmptyString.

(** A compact serializer, standing in for [json.dumps]. *)
Fixpoint dumps (j : json) : string :=
  match j with
  | JNull => "null"
  | JBool true => "true"
  | JBool false => "false"
  | JNumber literal => literal
  | JString s => quoted s
  | JArray items =>
      "[" +:+ join ", " (map dumps items) +:+ "]"
  | JObject members =>
      "{"
      +:+ join ", "
            (map (fun kv => quoted kv.1 +:+ ": " +:+ dumps kv.2) members)
      +:+ "}"
  end.

(** A parser that knows two documents, standing in for [json.load]. *)
Definition loads (text : string) : outcome json :=
  if String.eqb text "{}" then Ok (JObject [])
  else if String.eqb text "null" then Ok JNull
  else Raise JSONDecodeError.

(** The LLM answers the k-th question with the k-th scripted reply and
    raises when the script has none; the VLM describes every image, or
    raises when [vlm_works] is off. *)
Definition scripted (vlm_works : bool) (replies : list (option string))
    : collaborators :=
  {| json_load := loads;
     json_dumps := dumps;
     create_vlm_client := fun _ model =>
       if vlm_works then Ok (0, model) else Raise (OtherError "no VLM");
     generate_vlm_img_review := fun _ img _ _ =>
       Ok (Some [("Img_description",
                  "figure " +:+ String.concat "," (images img))]);
     create_client := fun _ model => Ok (1, model);
     get_response_from_llm := fun _ prompt _ _ _ history =>
       match nth (length history / 2) replies None with
       | Some reply =>
           Ok (reply, history ++ [("user", prompt); ("assistant", reply)])
       | None => Raise (OtherError "LLM call failed")
       end |}.

Definition fenced (body : string) : string :=
  "Here it is: ```markdown" +:+ body +:+ "``` Done.".

(** A project folder with two plots and a stale notebook. *)
Definition project : gmap string node :=
  list_to_map
    [("run", Dir);
     ("run/idea.md", File "Study learning rates.");
     ("run/figures", Dir);
     ("run/figures/loss.png", File "PNG1");
     ("run/figures/ACC.PNG", File "PNG2");
     ("run/figures/notes.txt", File "not a plot");
     ("run/logs", Dir);
     ("run/logs/0-run", Dir);
     ("run/logs/0-run/baseline_summary.json", File "{}");
     ("run/logs/0-run/research_summary.json", File "{broken");
     ("run/notebook", Dir);
     ("run/notebook/lab_notebook.md", File "stale notebook")].

(** The same folder without its figures directory. *)
Definition project_without_figures : gmap string node :=
  list_to_map
    [("run", Dir);
     ("run/idea.md", File "Study learning rates.")].

(** An answer whose block has Windows line ends. *)
Definition CRLF : string := String CR (String LF EmptyString).

Definition crlf_block : string := "# Title" +:+ CRLF +:+ "Body".

Definition crlf_answer : string :=
  "```markdown" +:+ CRLF +:+ crlf_block +:+ CRLF +:+ "```".

(** A world in which the notebook file holds "A". *)
Definition notebook_holding_A : world :=
  init_world (list_to_map [("nb", Dir); ("nb/lab_notebook.md", File "A")]).

(** A folder that holds nothing but an empty figures directory. *)
Definition bare_project : gmap string node :=
  list_to_map [("bare", Dir); ("bare/figures", Dir)].

End Demo.

(** ** Notions the properties are stated with *)

(** [needle] occurs in [s] starting at index [i]. *)
Definition occurs_at (needle s : string) (i : nat) : Prop :=
  exists a b, s = a +:+ needle +:+ b /\ String.length a = i.

(** [s] contains some fenced block [```markdown ... ```]. *)
Definition has_fenced_block (s : string) : Prop :=
  exists pre inner post,
    s = pre +:+ Regex.FENCE_OPEN +:+ inner +:+ Regex.FENCE_CLOSE +:+ post.

Fixpoint all_space (s : string) : bool :=
  match s with
  | EmptyString => true
  | String c s' => PyStr.is_space c && all_space s'
  end.

(** The first and the last character of a string, when it has one. *)
Definition first_char (s : string) : option ascii :=
  match s with
  | EmptyString => None
  | String c _ => Some c
  end.

Fixpoint last_char (s : string) : option ascii :=
  match s with
  | EmptyString => None
  | String c EmptyString => Some c
  | String _ s' => last_char s'
  end.

Definition not_space (c : option ascii) : Prop :=
  match c with
  | Some a => PyStr.is_space a = false
  | None => True
  end.

Definition llm_call_of (e : event) : option (string * option string) :=
  match e with
  | EvLLM prompt reply => Some (prompt, reply)
  | _ => None
  end.

Definition write_of (e : event) : option (string * string) :=
  match e with
  | EvWrite path content => Some (path, content)
  | _ => None
  end.

(** The LLM calls of a run in the order they were made, each with its
    prompt and its reply ([None] when the call raised). *)
Definition llm_calls (w : world) : list (string * option string) :=
  omap llm_call_of (rev (trace w)).

(** The saves of a run in the order they were made. *)
Definition writes (w : world) : list (string * string) :=
  omap write_of (rev (trace w)).

(** [w'] comes after [w]: paths outside [writable] hold what they held,
    and the events added in between all satisfy [allowed]. *)
Definition within (writable : string -> Prop) (allowed : event -> Prop)
    (w w' : world) : Prop :=
  (forall p, ~ writable p -> fs w' !! p = fs w !! p)
  /\ exists added, trace w' = added ++ trace w /\ Forall allowed added.

(** A computation that stays [within] these bounds from every world. *)
Definition keeps (writable : string -> Prop) (allowed : event -> Prop)
    {A} (m : M A) : Prop :=
  forall w, within writable allowed w (m w).2.

Definition nowhere (p : string) : Prop := False.

Definition only (target p : string) : Prop := p = target.

Definition anywhere (p : string) : Prop := True.

Definition no_event (e : event) : Prop := False.

Definition any_event (e : event) : Prop := True.

(** Events that are neither a save nor an LLM call. *)
Definition quiet (e : event) : Prop :=
  match e with
  | EvWrite _ _ | EvLLM _ _ => False
  | _ => True
  end.

(** Any event, with saves going to [target] only. *)
Definition saves_only_to (target : string) (e : event) : Prop :=
  match e with
  | EvWrite p _ => p = target
  | _ => True
  end.

(** A map is a filesystem when every entry sits in directories: each
    path above it is present as a directory. *)
Definition is_dir (m : gmap string node) (d : string) : bool :=
  match m !! d with
  | Some Dir => true
  | _ => false
  end.

Definition well_formed (m : gmap string node) : bool :=
  forallb (fun kv : string * node => forallb (is_dir m) (Path.parents kv.1))
    (map_to_list m).

(** [base_folder] with the separator [os.path.join] puts after it. *)
Definition with_separator (a : string) : string :=
  if String.eqb a EmptyString || PyStr.endswith a "/" then a else a +:+ "/".

(** The part of a run that starts with the answer to the first prompt. *)
Definition from_first_answer (env : collaborators) (base_folder : string)
    (n : Z) (client : nat) (client_model : string)
    (answer : outcome (string * msg_history)) : M bool :=
  try_except
    (let* (response, history) := lift_outcome answer in
     save_and_reflect env base_folder n client client_model response history)
    any_exception
    report_exception.

(** What one summary file looks like to the script: absent, holding
    valid JSON, holding text that is not valid JSON, or something else (a
    directory, or a file on which [json.load] fails in another way). *)
Inductive summary_state : Type :=
| SummaryAbsent
| SummaryValid (value : json)
| SummaryInvalid
| SummaryOther.

Definition summary_state_of (env : collaborators) (files : gmap string node)
    (path : string) : summary_state :=
  match files !! path with
  | None => SummaryAbsent
  | Some Dir => SummaryOther
  | Some (File content) =>
      match json_load env (PyStr.universal_newlines content) with
      | Ok value => SummaryValid value
      | Raise JSONDecodeError => SummaryInvalid
      | Raise _ => SummaryOther
      end
  end.

(** The value recorded for a summary file that is absent, valid or invalid. *)
Definition recorded (s : summary_state) : json :=
  match s with
  | SummaryValid value => value
  | _ => empty_object
  end.

(** The image argument built for the plot [pf]. *)
Definition image_of (figures_dir pf : string) : img_dict :=
  {| images := [Path.join figures_dir pf]; caption := "No direct caption" |}.

(** [d] is what the VLM said about the plot [pf] at some time. *)
Definition reviewed (env : collaborators) (figures_dir pf d : string) : Prop :=
  exists time model client review,
    generate_vlm_img_review env time (image_of figures_dir pf) model client
    = Ok review
    /\ d = description_of review.

(** The world after a save of [content] to [p] that went through. *)
Definition saved (p content : string) (w : world) : world :=
  log (EvPrint "Lab notebook successfully saved")
    (log (EvWrite p content) (set_fs (<[p := File content]> (fs w)) w)).

(** The notebook file holds [block] and sits in the directory [folder]. *)
Definition holds_block (notebook_file folder block : string) (w : world)
    : Prop :=
  fs w !! notebook_file = Some (File block) /\ fs w !! folder = Some Dir.


(** [p] lies outside the directory [d]: it is neither [d] nor below it. *)
Definition outside (d p : string) : Prop :=
  p <> d /\ Path.below d p = None.

(** Every entry of [w] outside [d] is still there, unchanged, in [w']. *)
Definition kept_outside (d : string) (w w' : world) : Prop :=
  forall p v, outside d p -> fs w !! p = Some v -> fs w' !! p = Some v.

(** The triple backtick. *)
Definition FENCE : string := Regex.FENCE_CLOSE.

(** The images the VLM was asked about, in the order of the calls. *)
Definition vlm_calls (w : world) : list string :=
  omap (fun e => match e with
                 | EvVLM image => Some image
                 | _ => None
                 end) (rev (trace w)).

(** Two environments that differ at most in their VLM functions. *)
Definition same_but_vlm (env1 env2 : collaborators) : Prop :=
  json_load env1 = json_load env2
  /\ json_dumps env1 = json_dumps env2
  /\ create_client env1 = create_client env2
  /\ get_response_from_llm env1 = get_response_from_llm env2.

(** ** More folders and answers for concrete runs *)

Module Demo2.

(** A project folder with a trailing slash in its name and no figures. *)
Definition odd_project : gmap string node :=
  list_to_map [("data", Dir); ("data/exp 7", Dir)].

(** A figures directory with a plot and a sub-directory named like one. *)
Definition gallery : gmap string node :=
  list_to_map
    [("g", Dir);
     ("g/figures", Dir);
     ("g/figures/curve.PNG", File "PNG");
     ("g/figures/old.png", Dir);
     ("g/figures/old.png/readme.txt", File "kept for reference");
     ("g/figures/table.csv", File "a,b")].

(** A project with both idea files, and a summary path that is a
    directory. *)
Definition two_ideas : gmap string node :=
  list_to_map
    [("p", Dir);
     ("p/research_idea.md", File "the refined idea");
     ("p/idea.md", File "the first idea");
     ("p/figures", Dir);
     ("p/logs", Dir);
     ("p/logs/0-run", Dir);
     ("p/logs/0-run/research_summary.json", Dir)].

(** An answer whose notebook has a code block of its own. *)
Definition nested_answer : string :=
  "```markdown# Usage ```python print(1)``` and more.```".

End Demo2.

(** Any event, with every save going to [target] and holding no [FENCE]. *)
Definition fence_free_saves (target : string) (e : event) : Prop :=
  match e with
  | EvWrite p content => p = target /\ PyStr.contains FENCE content = false
  | _ => True
  end.

(** The images the plot loop asks the VLM about in a given filesystem:
    the paths of the plots that are present. *)
Definition images_to_review (figures_dir : string) (names : list string)
    (m : gmap string node) : list string :=
  map (Path.join figures_dir)
    (List.filter (fun pf => bool_decide (is_Some (m !! Path.join figures_dir pf)))
       names).

(** * Properties *)

(** ** Strings *)

Section StringFacts.
Import PyStr.

Lemma append_cons (x : ascii) (a b : string) :
  String x a +:+ b = String x (a +:+ b).
Proof. reflexivity. Qed.

Lemma append_nil_l (b : string) : EmptyString +:+ b = b.
Proof. reflexivity. Qed.

Lemma append_assoc (a b c : string) : (a +:+ b) +:+ c = a +:+ (b +:+ c).
Proof.
  induction a as [|x a IH]; [reflexivity|].
  rewrite !append_cons. now rewrite IH.
Qed.

Lemma append_nil_r (a : string) : a +:+ EmptyString = a.
Proof.
  induction a as [|x a IH]; [reflexivity|].
  rewrite append_cons. now rewrite IH.
Qed.

Lemma length_append (a b : string) :
  String.length (a +:+ b) = String.length a + String.length b.
Proof.
  induction a as [|x a IH]; [reflexivity|].
  rewrite append_cons. simpl. now rewrite IH.
Qed.

Lemma strip_prefix_Some (p s r : string) :
  strip_prefix p s = Some r <-> s = p +:+ r.
Proof.
  revert s. induction p as [|a p IH]; intros s.
  - rewrite append_nil_l. simpl. split; [now intros [= ->] | now intros ->].
  - rewrite append_cons. destruct s as [|b s]; simpl; [split; discriminate|].
    destruct (Ascii.eqb_spec a b) as [->|Hne].
    + rewrite IH. split; [now intros -> | now intros [= ->]].
    + split; [discriminate | intros [= E _]; congruence].
Qed.

Lemma startswith_strip_prefix (s p : string) :
  startswith s p = true <-> exists r, strip_prefix p s = Some r.
Proof.
  revert s. induction p as [|a p IH]; intros s; simpl.
  - split; eauto.
  - destruct s as [|b s]; [split; [discriminate | now intros [r ?]]|].
    destruct (Ascii.eqb_spec a b); simpl; [apply IH|].
    split; [discriminate | now intros [r ?]].
Qed.

Lemma startswith_iff (s p : string) :
  startswith s p = true <-> exists r, s = p +:+ r.
Proof.
  rewrite startswith_strip_prefix.
  split; intros [r H]; exists r; now apply strip_prefix_Some.
Qed.

Lemma startswith_append (p r : string) : startswith (p +:+ r) p = true.
Proof. apply startswith_iff. now exists r. Qed.

Lemma occurs_at_0 (needle s : string) :
  occurs_at needle s 0 <-> startswith s needle = true.
Proof.
  rewrite startswith_iff. split.
  - intros (a & b & -> & Hlen). destruct a; [|discriminate]. now exists b.
  - intros [r ->]. now exists EmptyString, r.
Qed.

Lemma occurs_at_S (needle : string) (c : ascii) (s : string) (i : nat) :
  occurs_at needle (String c s) (S i) <-> occurs_at needle s i.
Proof.
  split.
  - intros (a & b & E & Hlen). destruct a as [|x a]; [discriminate|].
    rewrite append_cons in E. simpl in Hlen. injection E as -> ->.
    exists a, b. split; [reflexivity | lia].
  - intros (a & b & -> & Hlen). exists (String c a), b.
    split; [reflexivity | simpl; lia].
Qed.

End StringFacts.

(** ** The extraction of the fenced block *)

Section RegexFacts.
Import PyStr Regex.

Lemma lazy_group_until_eq (closer s : string) :
  lazy_group_until closer s =
  if startswith s closer then Some EmptyString
  else match s with
       | EmptyString => None
       | String c s' => option_map (String c) (lazy_group_until closer s')
       end.
Proof.
  destruct s as [|c s]; simpl; [reflexivity|].
  destruct (startswith (String c s) closer); [reflexivity|].
  now destruct (lazy_group_until closer s).
Qed.

Lemma re_search_eq (s : string) :
  re_search s =
  match match_here s with
  | Some g => Some g
  | None => match s with
            | EmptyString => None
            | String _ s' => re_search s'
            end
  end.
Proof. now destruct s. Qed.

(** The lazy group stops at the first place where the closer fits. *)
Lemma lazy_group_until_first (closer inner post : string) :
  (forall i, i < String.length inner ->
             ~ occurs_at closer (inner +:+ closer +:+ post) i) ->
  lazy_group_until closer (inner +:+ closer +:+ post) = Some inner.
Proof.
  induction inner as [|c inner IH]; intros Hfirst.
  - rewrite append_nil_l, lazy_group_until_eq.
    now rewrite startswith_append.
  - rewrite append_cons in *. rewrite lazy_group_until_eq.
    destruct (startswith _ closer) eqn:Hs.
    + exfalso. apply (Hfirst 0); [simpl; lia|]. now apply occurs_at_0.
    + rewrite IH; [reflexivity|].
      intros i Hi Hocc. apply (Hfirst (S i)); [simpl; lia|].
      now apply occurs_at_S.
Qed.

Lemma lazy_group_until_Some (closer s g : string) :
  lazy_group_until closer s = Some g ->
  exists post, s = g +:+ closer +:+ post.
Proof.
  revert g. induction s as [|c s IH]; intros g; rewrite lazy_group_until_eq.
  - destruct (startswith _ closer) eqn:Hs; [|discriminate].
    intros [= <-]. apply startswith_iff in Hs as [r E]. now exists r.
  - destruct (startswith _ closer) eqn:Hs.
    + intros [= <-]. apply startswith_iff in Hs as [r E]. now exists r.
    + destruct (lazy_group_until closer s) as [g'|]; [|discriminate].
      intros [= <-]. destruct (IH g' eq_refl) as [post ->].
      now exists post.
Qed.

Lemma match_here_Some (s g : string) :
  match_here s = Some g ->
  exists post, s = FENCE_OPEN +:+ g +:+ FENCE_CLOSE +:+ post.
Proof.
  unfold match_here.
  destruct (strip_prefix FENCE_OPEN s) as [rest|] eqn:Hp; [|discriminate].
  apply strip_prefix_Some in Hp as ->.
  intros H. apply lazy_group_until_Some in H as [post ->]. now exists post.
Qed.

(** A successful search found a fenced block, and group 1 is its inside. *)
Lemma re_search_Some (s g : string) :
  re_search s = Some g ->
  exists pre post, s = pre +:+ FENCE_OPEN +:+ g +:+ FENCE_CLOSE +:+ post.
Proof.
  induction s as [|c s IH]; rewrite re_search_eq.
  - destruct (match_here _) eqn:Hm; [|discriminate].
    intros [= ->]. apply match_here_Some in Hm as [post E].
    now exists EmptyString, post.
  - destruct (match_here _) eqn:Hm.
    + intros [= ->]. apply match_here_Some in Hm as [post E].
      now exists EmptyString, post.
    + intros H. destruct (IH H) as (pre & post & ->).
      now exists (String c pre), post.
Qed.

(** The search finds the first block: the leftmost opener and, after
    it, the nearest closer. *)
Lemma re_search_first_block (pre inner post : string) :
  let s := pre +:+ FENCE_OPEN +:+ inner +:+ FENCE_CLOSE +:+ post in
  (forall i, i < String.length pre -> ~ occurs_at FENCE_OPEN s i) ->
  (forall i, i < String.length inner ->
             ~ occurs_at FENCE_CLOSE (inner +:+ FENCE_CLOSE +:+ post) i) ->
  re_search s = Some inner.
Proof.
  intros s Hopen Hclose. subst s.
  induction pre as [|c pre IH].
  - rewrite append_nil_l, re_search_eq. unfold match_here.
    destruct (strip_prefix _ _) as [rest|] eqn:Hp.
    + apply strip_prefix_Some in Hp. apply String.app_inj in Hp as <-.
      now rewrite lazy_group_until_first.
    + pose proof (startswith_append FENCE_OPEN
                    (inner +:+ FENCE_CLOSE +:+ post)) as Hs.
      apply startswith_strip_prefix in Hs as [r Hr]. congruence.
  - rewrite append_cons in *. rewrite re_search_eq.
    destruct (match_here _) as [g|] eqn:Hm.
    + exfalso. apply match_here_Some in Hm as [post' E].
      apply (Hopen 0); [simpl; lia|].
      rewrite E. now exists EmptyString, (g +:+ FENCE_CLOSE +:+ post').
    + apply IH. intros i Hi Hocc. apply (Hopen (S i)); [simpl; lia|].
      now apply occurs_at_S.
Qed.

Lemma re_search_None (s : string) :
  ~ has_fenced_block s -> re_search s = None.
Proof.
  intros Hno. destruct (re_search s) as [g|] eqn:E; [|reflexivity].
  exfalso. apply Hno. apply re_search_Some in E as (pre & post & ->).
  now exists pre, g, post.
Qed.

Lemma lazy_group_until_exists (closer inner post : string) :
  exists g, lazy_group_until closer (inner +:+ closer +:+ post) = Some g.
Proof.
  induction inner as [|c inner [g IH]].
  - exists EmptyString. rewrite append_nil_l, lazy_group_until_eq.
    now rewrite startswith_append.
  - rewrite append_cons, lazy_group_until_eq.
    destruct (startswith _ closer); [now eexists|].
    rewrite IH. now eexists.
Qed.

(** The search succeeds on every string that contains a fenced block. *)
Lemma re_search_complete (s : string) :
  has_fenced_block s -> exists g, re_search s = Some g.
Proof.
  intros (pre & inner & post & ->). induction pre as [|c pre [g IH]].
  - rewrite append_nil_l, re_search_eq. unfold match_here.
    destruct (strip_prefix FENCE_OPEN _) as [rest|] eqn:Hp.
    + apply strip_prefix_Some in Hp. apply String.app_inj in Hp as <-.
      destruct (lazy_group_until_exists FENCE_CLOSE inner post) as [g ->].
      now exists g.
    + pose proof (startswith_append FENCE_OPEN
                    (inner +:+ FENCE_CLOSE +:+ post)) as Hs.
      apply startswith_strip_prefix in Hs as [r Hr]. congruence.
  - rewrite append_cons, re_search_eq.
    destruct (match_here _) as [g'|]; [now exists g' | now exists g].
Qed.

(** *** [strip] removes exactly the surrounding whitespace *)

Lemma lstrip_spec (s : string) :
  exists l, s = l +:+ lstrip s /\ all_space l = true
            /\ not_space (first_char (lstrip s)).
Proof.
  induction s as [|c s (l & E & Hl & Hf)].
  - now exists EmptyString.
  - simpl. destruct (is_space c) eqn:Hc.
    + exists (String c l). rewrite append_cons, <- E. simpl. now rewrite Hc.
    + now exists EmptyString.
Qed.

Lemma rstrip_spec (s : string) :
  exists r, s = rstrip s +:+ r /\ all_space r = true
            /\ not_space (last_char (rstrip s)).
Proof.
  induction s as [|c s (r & E & Hr & Hl)].
  - now exists EmptyString.
  - simpl. destruct (rstrip s) as [|d t] eqn:Ht.
    + rewrite append_nil_l in E. subst r. destruct (is_space c) eqn:Hc.
      * exists (String c s). simpl. now rewrite Hc.
      * exists s. now rewrite !append_cons, append_nil_l.
    + exists r. rewrite append_cons, <- E. repeat split; assumption.
Qed.

Lemma rstrip_first_char (s : string) :
  not_space (first_char s) -> not_space (first_char (rstrip s)).
Proof.
  destruct s as [|c s]; [trivial|]. simpl. intros Hc.
  destruct (rstrip s); [now rewrite Hc | exact Hc].
Qed.

Lemma strip_spec (s : string) :
  exists l r, s = l +:+ strip s +:+ r
              /\ all_space l = true /\ all_space r = true
              /\ not_space (first_char (strip s))
              /\ not_space (last_char (strip s)).
Proof.
  destruct (lstrip_spec s) as (l & El & Hl & Hf).
  destruct (rstrip_spec (lstrip s)) as (r & Er & Hr & Hlast).
  exists l, r. unfold strip. rewrite <- Er, <- El.
  repeat split; try assumption. now apply rstrip_first_char.
Qed.

End RegexFacts.

(** ** What a computation may touch *)

Section Keeps.
Context (writable : string -> Prop) (allowed : event -> Prop).

#[local] Abbreviation within := (within writable allowed).
#[local] Abbreviation keeps := (keeps writable allowed).

Lemma within_refl (w : world) : within w w.
Proof. split; [reflexivity|]. now exists []. Qed.

Lemma within_trans (w1 w2 w3 : world) :
  within w1 w2 -> within w2 w3 -> within w1 w3.
Proof.
  intros [Hf1 (a1 & E1 & H1)] [Hf2 (a2 & E2 & H2)]. split.
  - intros p Hp. now rewrite Hf2, Hf1.
  - exists (a2 ++ a1). rewrite E2, E1, app_assoc. split; [reflexivity|].
    now apply Forall_app.
Qed.

Lemma within_log (e : event) (w : world) : allowed e -> within w (log e w).
Proof.
  intros He. split; [reflexivity|]. exists [e]. split; [reflexivity|].
  now constructor.
Qed.

Lemma keeps_ret {A} (a : A) : keeps (ret a).
Proof. intros w. apply within_refl. Qed.

Lemma keeps_raise {A} (e : exn) : keeps (@raise A e).
Proof. intros w. apply within_refl. Qed.

Lemma keeps_lift_outcome {A} (o : outcome A) : keeps (lift_outcome o).
Proof. intros w. apply within_refl. Qed.

Lemma keeps_bind {A B} (m : M A) (k : A -> M B) :
  keeps m -> (forall a, keeps (k a)) -> keeps (bind m k).
Proof.
  intros Hm Hk w. unfold bind. specialize (Hm w).
  destruct (m w) as [[a|e] w1]; simpl in *; [|exact Hm].
  eapply within_trans; [exact Hm | apply Hk].
Qed.

Lemma keeps_try_except {A} (body : M A) (catches : exn -> bool)
    (handler : exn -> M A) :
  keeps body -> (forall e, keeps (handler e)) ->
  keeps (try_except body catches handler).
Proof.
  intros Hb Hh w. unfold try_except. specialize (Hb w).
  destruct (body w) as [[a|e] w1]; simpl in *; [exact Hb|].
  destruct (catches e); [|exact Hb].
  eapply within_trans; [exact Hb | apply Hh].
Qed.

Lemma keeps_print (text : string) : allowed (EvPrint text) -> keeps (print text).
Proof. intros He w. now apply within_log. Qed.

Lemma keeps_print_traceback (e : exn) :
  allowed (EvTraceback e) -> keeps (print_traceback e).
Proof. intros He w. now apply within_log. Qed.

Lemma keeps_path_exists (p : string) : keeps (FS.path_exists p).
Proof. intros w. apply within_refl. Qed.

Lemma keeps_read_text (p : string) : keeps (FS.read_text p).
Proof.
  intros w. unfold FS.read_text.
  destruct (fs w !! p) as [[c|]|]; apply within_refl.
Qed.

Lemma keeps_listdir (d : string) : keeps (FS.listdir d).
Proof.
  intros w. unfold FS.listdir.
  destruct (fs w !! d) as [[c|]|]; apply within_refl.
Qed.

Lemma within_write (p content : string) (w : world) :
  writable p -> allowed (EvWrite p content) ->
  within w (log (EvWrite p content) (set_fs (<[p := File content]> (fs w)) w)).
Proof.
  intros Hp He. split.
  - intros q Hq. simpl. apply lookup_insert_ne. congruence.
  - exists [EvWrite p content]. split; [reflexivity|]. now constructor.
Qed.

Lemma keeps_write_text (p content : string) :
  writable p -> allowed (EvWrite p content) ->
  keeps (FS.write_text p content).
Proof.
  intros Hp He w. unfold FS.write_text.
  destruct (fs w !! p) as [[c|]|]; try apply within_refl;
    destruct (last (Path.parents p)) as [d|]; try (now apply within_write);
    destruct (fs w !! d) as [[c'|]|]; try apply within_refl;
    now apply within_write.
Qed.

Section WithCollaborators.
Context (env : collaborators).

Lemma keeps_call_create_vlm_client (model : string) :
  keeps (call_create_vlm_client env model).
Proof. intros w. apply within_refl. Qed.

Lemma keeps_call_create_client (model : string) :
  keeps (call_create_client env model).
Proof. intros w. apply within_refl. Qed.

Lemma keeps_call_generate_vlm_img_review d model client :
  (forall image, allowed (EvVLM image)) ->
  keeps (call_generate_vlm_img_review env d model client).
Proof. intros He w. now apply within_log. Qed.

Lemma keeps_call_get_response_from_llm prompt client model system history :
  (forall p r, allowed (EvLLM p r)) ->
  keeps (call_get_response_from_llm env prompt client model system history).
Proof. intros He w. now apply within_log. Qed.

End WithCollaborators.

End Keeps.

(** Nothing writable: the filesystem is the same map afterwards. *)
Lemma within_nowhere_fs (E : event -> Prop) (w w' : world) :
  within nowhere E w w' -> fs w' = fs w.
Proof. intros [Hf _]. apply map_eq. intros p. apply Hf. intros []. Qed.

(** One step of a [keeps] proof over the shape of the computation. *)
Ltac keeps_step :=
  lazymatch goal with
  | |- keeps _ _ (bind _ _) => apply keeps_bind; [|intros ?]
  | |- keeps _ _ (ret _) => apply keeps_ret
  | |- keeps _ _ (raise _) => apply keeps_raise
  | |- keeps _ _ (lift_outcome _) => apply keeps_lift_outcome
  | |- keeps _ _ (try_except _ _ _) => apply keeps_try_except; [|intros ?]
  | |- keeps _ _ (print _) => apply keeps_print; solve [exact I | auto]
  | |- keeps _ _ (print_traceback _) =>
      apply keeps_print_traceback; solve [exact I | auto]
  | |- keeps _ _ (FS.path_exists _) => apply keeps_path_exists
  | |- keeps _ _ (FS.read_text _) => apply keeps_read_text
  | |- keeps _ _ (FS.listdir _) => apply keeps_listdir
  | |- keeps _ _ (call_create_vlm_client _ _) =>
      apply keeps_call_create_vlm_client
  | |- keeps _ _ (call_create_client _ _) => apply keeps_call_create_client
  | |- keeps _ _ (call_generate_vlm_img_review _ _ _ _) =>
      apply keeps_call_generate_vlm_img_review; solve [intros; exact I | auto]
  | |- keeps _ _ (call_get_response_from_llm _ _ _ _ _ _) =>
      apply keeps_call_get_response_from_llm; solve [intros; exact I | auto]
  | |- keeps _ _ (if ?b then _ else _) => destruct b
  | |- keeps _ _ (match ?x with _ => _ end) => destruct x
  end.

(** ** Paths *)

Section PathFacts.
Import PyStr.

Lemma join_relative (a b : string) :
  startswith b "/" = false -> Path.join a b = with_separator a +:+ b.
Proof.
  intros Hb. unfold Path.join, with_separator. rewrite Hb.
  destruct (String.eqb a EmptyString || endswith a "/"); [reflexivity|].
  now rewrite append_assoc.
Qed.

Lemma last_char_append (a b : string) :
  b <> EmptyString -> last_char (a +:+ b) = last_char b.
Proof.
  intros Hb. induction a as [|c a IH]; [reflexivity|].
  rewrite append_cons. simpl. rewrite IH.
  destruct (a +:+ b) eqn:E; [|reflexivity].
  destruct a; [|discriminate]. now rewrite append_nil_l in E.
Qed.

Lemma endswith_eq (s suffix : string) :
  endswith s suffix =
  String.eqb s suffix
  || match s with
     | EmptyString => false
     | String _ s' => endswith s' suffix
     end.
Proof. now destruct s. Qed.

Lemma endswith_last_char (s : string) (c : ascii) :
  endswith s (String c EmptyString) = true -> last_char s = Some c.
Proof.
  induction s as [|x s IH]; rewrite endswith_eq; [discriminate|].
  intros H. apply orb_true_iff in H as [H|H].
  - apply String.eqb_eq in H. now injection H as -> ->.
  - simpl. rewrite (IH H). destruct s; [discriminate | reflexivity].
Qed.

(** A path that ends in a letter is not empty and has no trailing slash. *)
Lemma ends_in_letter (a b : string) (c : ascii) :
  last_char b = Some c -> c <> "/"%char ->
  String.eqb (a +:+ b) EmptyString = false /\ endswith (a +:+ b) "/" = false.
Proof.
  intros Hb Hc. assert (b <> EmptyString) as Hne by (now intros ->).
  split.
  - apply String.eqb_neq. intros E.
    pose proof (last_char_append a b Hne) as Hl. rewrite E, Hb in Hl.
    discriminate.
  - destruct (endswith (a +:+ b) "/") eqn:E; [|reflexivity].
    apply endswith_last_char in E.
    rewrite last_char_append, Hb in E by exact Hne.
    congruence.
Qed.

Lemma parents_from_append (seen a b : string) :
  Path.parents_from seen (a +:+ b) =
  Path.parents_from seen a ++ Path.parents_from (seen +:+ a) b.
Proof.
  revert seen. induction a as [|c a IH]; intros seen.
  - now rewrite append_nil_l, append_nil_r.
  - rewrite append_cons. simpl. rewrite IH, <- app_assoc.
    do 3 f_equal. now rewrite append_assoc.
Qed.

Lemma parents_from_length (seen rest d : string) :
  d ∈ Path.parents_from seen rest ->
  String.length seen <= String.length d
  /\ String.length d < String.length seen + String.length rest.
Proof.
  revert seen. induction rest as [|c rest IH]; intros seen; simpl.
  - intros H. inversion H.
  - intros H. apply elem_of_app in H as [H|H].
    + destruct (_ && _); [|inversion H].
      apply list_elem_of_singleton in H as ->. lia.
    + apply IH in H. rewrite length_append in H. simpl in H. lia.
Qed.

Lemma parents_shorter (p d : string) :
  d ∈ Path.parents p -> String.length d < String.length p.
Proof. intros H. apply parents_from_length in H. simpl in H. lia. Qed.

(** The directory above [d/name] is [d], when [d] is a proper path and
    [name] a single component. *)
Lemma parents_of_child (d name : string) :
  String.eqb d EmptyString = false -> endswith d "/" = false ->
  contains "/" name = false ->
  Path.parents (d +:+ "/" +:+ name) = Path.parents d ++ [d].
Proof.
  intros Hd Hs Hn. unfold Path.parents.
  rewrite parents_from_append. f_equal. rewrite append_nil_l.
  change ("/" +:+ name) with (String "/" name). simpl.
  rewrite Hd, Hs. simpl.
  assert (forall seen, Path.parents_from seen name = []) as Hnone.
  { clear Hd Hs. induction name as [|c name IH]; intros seen; [reflexivity|].
    simpl in Hn. simpl.
    destruct (Ascii.eqb_spec c "/") as [->|Hc]; [discriminate|].
    simpl. apply IH. destruct c as [[] [] [] [] [] [] [] []]; try exact Hn;
      now destruct Hc. }
  now rewrite Hnone.
Qed.

End PathFacts.

(** ** The filesystem operations *)

Section FSFacts.
Import PyStr.

Lemma bind_inv {A B} (m : M A) (k : A -> M B) (w w' : world) (r : outcome B) :
  bind m k w = (r, w') ->
  (exists a w1, m w = (Ok a, w1) /\ k a w1 = (r, w'))
  \/ (exists e, m w = (Raise e, w') /\ r = Raise e).
Proof.
  unfold bind. destruct (m w) as [[a|e] w1]; intros H.
  - left. now exists a, w1.
  - right. injection H as <- <-. now exists e.
Qed.

Lemma bind_Ok_inv {A B} (m : M A) (k : A -> M B) (w w' : world) (b : B) :
  bind m k w = (Ok b, w') ->
  exists a w1, m w = (Ok a, w1) /\ k a w1 = (Ok b, w').
Proof.
  intros H. apply bind_inv in H as [H|(e & _ & H)]; [exact H | discriminate].
Qed.

Lemma well_formed_parent (m : gmap string node) (k d : string) (v : node) :
  well_formed m = true -> m !! k = Some v -> d ∈ Path.parents k ->
  m !! d = Some Dir.
Proof.
  unfold well_formed. rewrite forallb_forall. intros Hwf Hk Hd.
  specialize (Hwf (k, v)). rewrite forallb_forall in Hwf.
  assert (is_dir m d = true) as H.
  { apply Hwf.
    - apply list_elem_of_In. now apply elem_of_map_to_list.
    - now apply list_elem_of_In. }
  unfold is_dir in H. now destruct (m !! d) as [[|]|].
Qed.

(** [mkdir_each] makes every listed path a directory and changes no
    path that was present. *)
Lemma mkdir_each_spec (dirs : list string) (target : string)
    (m m' : gmap string node) :
  FS.mkdir_each dirs target m = Ok m' ->
  (forall d, d ∈ dirs -> m' !! d = Some Dir)
  /\ (forall k, m' !! k = m !! k
                \/ (m !! k = None /\ m' !! k = Some Dir /\ k ∈ dirs)).
Proof.
  revert m. induction dirs as [|d rest IH]; intros m; simpl.
  - intros [= <-]. split; [intros d H; inversion H | now left].
  - destruct (m !! d) as [[c|]|] eqn:Hd; [discriminate| |]; intros H;
      apply IH in H as [Hall Hk].
    + split.
      * intros x Hx. apply elem_of_cons in Hx as [->|Hx]; [|now apply Hall].
        destruct (Hk d) as [E|(_ & E & _)]; congruence.
      * intros k. destruct (Hk k) as [E|(E1 & E2 & E3)]; [now left|].
        right. repeat split; try assumption. now apply elem_of_cons; right.
    + split.
      * intros x Hx. apply elem_of_cons in Hx as [->|Hx]; [|now apply Hall].
        destruct (Hk d) as [E|(_ & E & _)]; [|exact E].
        now rewrite E, lookup_insert_eq.
      * intros k. destruct (decide (k = d)) as [->|Hne].
        -- right. split; [exact Hd|]. split; [|now apply elem_of_cons; left].
           destruct (Hk d) as [E|(_ & E & _)]; [|exact E].
           now rewrite E, lookup_insert_eq.
        -- destruct (Hk k) as [E|(E1 & E2 & E3)].
           ++ left. now rewrite E, lookup_insert_ne.
           ++ right. rewrite lookup_insert_ne in E1 by congruence.
              repeat split; try assumption. now apply elem_of_cons; right.
Qed.

(** [copy_entries] only touches paths below the destination. *)
Lemma copy_entries_other (src dst : string) (entries : list (string * node))
    (acc : gmap string node) (k : string) :
  (forall rel, k <> dst +:+ "/" +:+ rel) ->
  FS.copy_entries src dst entries acc !! k = acc !! k.
Proof.
  intros Hk. induction entries as [|[k' v] entries IH]; simpl; [reflexivity|].
  destruct (Path.below src k') as [rel|]; [|exact IH].
  rewrite lookup_insert_ne; [exact IH | apply not_eq_sym, Hk].
Qed.

Lemma below_child (d name : string) :
  Path.below d (d +:+ "/" +:+ name) = Some name.
Proof.
  unfold Path.below. apply strip_prefix_Some. now rewrite append_assoc.
Qed.

Lemma below_Some (d k rel : string) :
  Path.below d k = Some rel <-> k = d +:+ "/" +:+ rel.
Proof.
  unfold Path.below. rewrite strip_prefix_Some. now rewrite append_assoc.
Qed.

(** The paths the function works with, spelled out. *)
Lemma notebook_paths (base_folder : string) :
  let nb := notebook_folder_of base_folder in
  notebook_file_of base_folder = nb +:+ "/" +:+ "lab_notebook.md"
  /\ Path.join nb "figures" = nb +:+ "/" +:+ "figures"
  /\ String.eqb nb EmptyString = false
  /\ endswith nb "/" = false.
Proof.
  intros nb.
  assert (String.eqb nb EmptyString = false /\ endswith nb "/" = false)
    as [Hne Hs].
  { subst nb. unfold notebook_folder_of.
    rewrite join_relative by reflexivity.
    apply (ends_in_letter _ _ "k"); [reflexivity | discriminate]. }
  unfold notebook_file_of. fold nb.
  rewrite !join_relative by reflexivity.
  unfold with_separator. rewrite Hne, Hs. simpl.
  now rewrite !append_assoc.
Qed.

Lemma notebook_file_parent (base_folder : string) :
  last (Path.parents (notebook_file_of base_folder))
  = Some (notebook_folder_of base_folder).
Proof.
  destruct (notebook_paths base_folder) as (-> & _ & Hne & Hs).
  rewrite parents_of_child by (assumption || reflexivity).
  apply last_snoc.
Qed.

End FSFacts.

(** ** The setup before the [try] *)

Section SetupFacts.
Import PyStr.

(** What the three setup steps establish when none of them raises: no
    event, the notebook folder is a directory, and it holds no
    [lab_notebook.md]. *)
Lemma setup_spec (base_folder : string) (w w1 : world) :
  well_formed (fs w) = true ->
  setup_notebook_folder base_folder w = (Ok tt, w1) ->
  trace w1 = trace w
  /\ fs w1 !! notebook_folder_of base_folder = Some Dir
  /\ fs w1 !! notebook_file_of base_folder = None.
Proof.
  intros Hwf. unfold setup_notebook_folder.
  destruct (notebook_paths base_folder) as (Efile & Edst & Hne & Hs).
  pose proof (notebook_file_parent base_folder) as Hparent.
  set (nb := notebook_folder_of base_folder) in *.
  set (nbfile := notebook_file_of base_folder) in *.
  rewrite Edst.
  intros H.
  apply bind_Ok_inv in H as (found & w0 & Hfound & H).
  injection Hfound as <- <-.
  apply bind_Ok_inv in H as ([] & wa & Hclean & H).
  apply bind_Ok_inv in H as ([] & wb & Hmk & H).
  (* after the cleanup *)
  assert (trace wa = trace w /\ fs wa !! nbfile = None) as [Ta Fa].
  { destruct (bool_decide _) eqn:Hex.
    - unfold FS.rmtree in Hclean.
      destruct (fs w !! nb) as [[c|]|]; try discriminate.
      injection Hclean as <-. split; [reflexivity|]. simpl.
      apply map_lookup_filter_None. right. intros v _ [_ Hb]. simpl in Hb.
      rewrite Efile, below_child in Hb. discriminate.
    - injection Hclean as <-. split; [reflexivity|].
      apply bool_decide_eq_false in Hex.
      destruct (fs w !! nbfile) as [v|] eqn:Hv; [|reflexivity].
      exfalso. apply Hex. exists Dir.
      apply (well_formed_parent _ nbfile nb v Hwf Hv).
      destruct (Path.parents nbfile) as [|x l] using rev_ind;
        [discriminate|].
      rewrite last_snoc in Hparent. injection Hparent as ->.
      apply elem_of_app. right. now apply list_elem_of_singleton. }
  (* after makedirs *)
  assert (trace wb = trace wa /\ fs wb !! nb = Some Dir
          /\ fs wb !! nbfile = None) as (Tb & Db & Fb).
  { unfold FS.makedirs in Hmk.
    destruct (FS.mkdir_each _ _ _) as [m|e] eqn:Hm; [|discriminate].
    injection Hmk as <-. apply mkdir_each_spec in Hm as [Hall Hk].
    split; [reflexivity|]. split.
    - apply Hall, elem_of_app. right. now apply list_elem_of_singleton.
    - simpl. destruct (Hk nbfile) as [E|(_ & _ & Hin)]; [congruence|].
      exfalso. apply elem_of_app in Hin as [Hin|Hin].
      + apply parents_shorter in Hin. rewrite Efile in Hin.
        rewrite length_append in Hin. lia.
      + apply list_elem_of_singleton in Hin.
        apply (f_equal String.length) in Hin. rewrite Efile in Hin.
        rewrite length_append in Hin. simpl in Hin. lia. }
  (* after copytree *)
  unfold FS.copytree in H.
  destruct (fs wb !! figures_dir_of base_folder) as [[c|]|]; try discriminate.
  destruct (fs wb !! (nb +:+ "/" +:+ "figures")) as [v|]; [discriminate|].
  destruct (FS.mkdir_each _ _ _) as [m|e] eqn:Hm; [|discriminate].
  injection H as <-. apply mkdir_each_spec in Hm as [_ Hk].
  split; [simpl; congruence|]. simpl. split.
  - rewrite copy_entries_other.
    + destruct (Hk nb) as [E|(E & _)]; congruence.
    + intros rel E. apply (f_equal String.length) in E.
      rewrite !length_append in E. simpl in E. lia.
  - rewrite copy_entries_other.
    + destruct (Hk nbfile) as [E|(_ & _ & Hin)]; [congruence|].
      exfalso. apply elem_of_app in Hin as [Hin|Hin].
      * apply parents_shorter in Hin. rewrite Efile in Hin.
        rewrite !length_append in Hin. simpl in Hin. lia.
      * apply list_elem_of_singleton in Hin.
        apply (f_equal String.length) in Hin. rewrite Efile in Hin.
        rewrite !length_append in Hin. simpl in Hin. lia.
    + intros rel E. rewrite Efile in E.
      rewrite <- !append_assoc in E. rewrite !append_assoc in E.
      apply String.app_inj in E. discriminate.
Qed.

Lemma silent_keeps {A} (m : M A) :
  (forall w, trace (m w).2 = trace w) -> keeps anywhere no_event m.
Proof.
  intros H w. split; [intros p Hp; now destruct Hp|].
  exists []. now rewrite H.
Qed.

Lemma rmtree_silent (p : string) : keeps anywhere no_event (FS.rmtree p).
Proof.
  apply silent_keeps. intros w. unfold FS.rmtree.
  now destruct (fs w !! p) as [[c|]|].
Qed.

Lemma makedirs_silent (p : string) : keeps anywhere no_event (FS.makedirs p).
Proof.
  apply silent_keeps. intros w. unfold FS.makedirs.
  now destruct (FS.mkdir_each _ _ _).
Qed.

Lemma copytree_silent (src dst : string) :
  keeps anywhere no_event (FS.copytree src dst).
Proof.
  apply silent_keeps. intros w. unfold FS.copytree.
  destruct (fs w !! src) as [[c|]|]; try reflexivity.
  destruct (fs w !! dst); try reflexivity.
  now destruct (FS.mkdir_each _ _ _).
Qed.

(** The setup records no event, also when it raises. *)
Lemma setup_trace (base_folder : string) (w : world) :
  trace (setup_notebook_folder base_folder w).2 = trace w.
Proof.
  assert (keeps anywhere no_event (setup_notebook_folder base_folder)) as H.
  { unfold setup_notebook_folder. repeat keeps_step;
      auto using rmtree_silent, makedirs_silent, copytree_silent. }
  destruct (H w) as [_ (added & E & Hadded)].
  destruct added as [|e added]; [exact E|]. now inversion Hadded.
Qed.

End SetupFacts.

(** ** What the parts of the script may touch *)

Section ScriptKeeps.
Import PyStr.

Context (env : collaborators).
Context (W : string -> Prop) (E : event -> Prop).
Context (Hprint : forall text, E (EvPrint text)).
Context (Htraceback : forall e, E (EvTraceback e)).
Context (Hvlm : forall image, E (EvVLM image)).

Lemma keeps_load_idea_text base_folder :
  keeps W E (load_idea_text base_folder).
Proof. unfold load_idea_text. repeat keeps_step. Qed.

Lemma keeps_load_summary base_folder fname key loaded :
  keeps W E (load_summary env base_folder fname key loaded).
Proof. unfold load_summary. repeat keeps_step. Qed.

Lemma keeps_load_summaries base_folder files loaded :
  keeps W E (load_summaries env base_folder files loaded).
Proof.
  revert loaded. induction files as [|[fname key] files IH]; intros loaded;
    simpl; [apply keeps_ret|].
  apply keeps_bind; [apply keeps_load_summary | intros a; apply IH].
Qed.

Lemma keeps_read_current_notebook notebook_file :
  keeps W E (read_current_notebook notebook_file).
Proof. unfold read_current_notebook. repeat keeps_step. Qed.

Lemma keeps_gather_plot_names figures_dir :
  keeps W E (gather_plot_names figures_dir).
Proof. unfold gather_plot_names. repeat keeps_step. Qed.

Lemma keeps_load_aggregator_code base_folder :
  keeps W E (load_aggregator_code base_folder).
Proof. unfold load_aggregator_code. repeat keeps_step. Qed.

Lemma keeps_describe_each figures_dir vlm_model vlm_client names desc_map :
  keeps W E (describe_each env figures_dir vlm_model vlm_client names desc_map).
Proof.
  revert desc_map. induction names as [|pf names IH]; intros desc_map;
    simpl; [apply keeps_ret|].
  apply keeps_bind; [apply keeps_path_exists|]. intros found.
  destruct (negb found); [apply IH|].
  apply keeps_bind; [keeps_step | intros review; apply IH].
Qed.

Lemma keeps_describe_plots figures_dir names :
  keeps W E (describe_plots env figures_dir names).
Proof.
  unfold describe_plots, generate_descriptions. apply keeps_try_except.
  - apply keeps_bind; [keeps_step|]. intros [client model].
    apply keeps_bind; [apply keeps_describe_each | intros; apply keeps_ret].
  - intros e. repeat keeps_step.
Qed.

Lemma keeps_gather_inputs base_folder :
  keeps W E (gather_inputs env base_folder).
Proof.
  unfold gather_inputs.
  apply keeps_bind; [apply keeps_load_idea_text | intros idea].
  apply keeps_bind; [apply keeps_load_summaries | intros loaded].
  apply keeps_bind; [apply keeps_read_current_notebook | intros current].
  apply keeps_bind; [apply keeps_gather_plot_names | intros plots].
  apply keeps_bind; [apply keeps_load_aggregator_code | intros aggregator].
  apply keeps_bind; [apply keeps_describe_plots | intros descriptions].
  apply keeps_ret.
Qed.

Context (Hllm : forall prompt reply, E (EvLLM prompt reply)).
Context (notebook_file : string) (Hfile : W notebook_file).

Lemma keeps_save_notebook content :
  E (EvWrite notebook_file content) ->
  keeps W E (save_notebook notebook_file content).
Proof.
  intros Hc. unfold save_notebook.
  apply keeps_bind; [now apply keeps_write_text | intros; keeps_step].
Qed.

Context (response : string).
Context (Hsave : forall group1, Regex.re_search response = Some group1 ->
                                E (EvWrite notebook_file (strip group1))).

Lemma keeps_reflection_pass client client_model i history :
  keeps W E
    (reflection_pass env response notebook_file client client_model i history).
Proof.
  unfold reflection_pass.
  apply keeps_bind; [apply keeps_read_text | intros current].
  apply keeps_bind; [keeps_step | intros [reply history']].
  destruct (contains DONE_SENTINEL reply); [repeat keeps_step|].
  destruct (Regex.re_search response) as [group1|] eqn:Hre; [|keeps_step].
  destruct (negb _).
  - apply keeps_bind; [apply keeps_save_notebook; now apply Hsave|].
    intros; keeps_step.
  - repeat keeps_step.
Qed.

Lemma keeps_reflection_loop client client_model indices history :
  keeps W E
    (reflection_loop env response notebook_file client client_model
       indices history).
Proof.
  revert history. induction indices as [|i rest IH]; intros history; simpl;
    [apply keeps_ret|].
  apply keeps_bind; [apply keeps_reflection_pass|].
  intros [history'| |b]; [apply IH | apply keeps_ret | apply keeps_ret].
Qed.

End ScriptKeeps.

(** ** Reading the trace *)

Section TraceFacts.

Lemma llm_calls_added (w w' : world) (added : list event) :
  trace w' = added ++ trace w ->
  llm_calls w' = llm_calls w ++ omap llm_call_of (rev added).
Proof.
  intros E. unfold llm_calls. now rewrite E, rev_app_distr, omap_app.
Qed.

Lemma writes_added (w w' : world) (added : list event) :
  trace w' = added ++ trace w ->
  writes w' = writes w ++ omap write_of (rev added).
Proof.
  intros E. unfold writes. now rewrite E, rev_app_distr, omap_app.
Qed.

Lemma omap_none {A B} (f : A -> option B) (l : list A) :
  Forall (fun x => f x = None) l -> omap f l = [].
Proof.
  induction 1 as [|x l Hx Hl IH]; [reflexivity|]. simpl. now rewrite Hx.
Qed.

(** Quiet steps add neither an LLM call nor a save. *)
Lemma quiet_calls (W : string -> Prop) (w w' : world) :
  within W quiet w w' ->
  llm_calls w' = llm_calls w /\ writes w' = writes w.
Proof.
  intros [_ (added & E & Hq)].
  rewrite (llm_calls_added _ _ _ E), (writes_added _ _ _ E).
  rewrite !omap_none, !app_nil_r; [easy| |];
    apply Forall_rev; (eapply Forall_impl; [exact Hq|]);
    now intros [].
Qed.

Lemma llm_calls_log (e : event) (w : world) :
  llm_calls (log e w) = llm_calls w ++ option_list (llm_call_of e).
Proof.
  rewrite (llm_calls_added w (log e w) [e]) by reflexivity.
  simpl. now destruct (llm_call_of e).
Qed.

Lemma writes_log (e : event) (w : world) :
  writes (log e w) = writes w ++ option_list (write_of e).
Proof.
  rewrite (writes_added w (log e w) [e]) by reflexivity.
  simpl. now destruct (write_of e).
Qed.

(** Later events keep the earlier LLM calls in front. *)
Lemma llm_calls_prefix (W : string -> Prop) (E : event -> Prop)
    (w w' : world) :
  within W E w w' -> exists more, llm_calls w' = llm_calls w ++ more.
Proof.
  intros [_ (added & Et & _)]. eexists. apply llm_calls_added. exact Et.
Qed.

Lemma writes_within (W : string -> Prop) (E : event -> Prop) (w w' : world) :
  within W E w w' ->
  exists more, writes w' = writes w ++ more
               /\ Forall (fun pc => E (EvWrite pc.1 pc.2)) more.
Proof.
  intros [_ (added & Et & Ha)]. eexists.
  split; [apply writes_added; exact Et|].
  apply Forall_rev in Ha. induction Ha as [|e l He Hl IH]; [constructor|].
  simpl. destruct e; simpl; try exact IH. now constructor.
Qed.

End TraceFacts.

(** ** The shape of a run *)

Section RunFacts.
Import PyStr.

Context (env : collaborators).

Lemma report_exception_run (e : exn) (w : world) :
  report_exception e w
  = (Ok false,
     log (EvTraceback e) (log (EvPrint "EXCEPTION in create_lab_notebook:") w)).
Proof. reflexivity. Qed.

Lemma create_setup_raises base_folder model n w e w1 :
  setup_notebook_folder base_folder w = (Raise e, w1) ->
  create_lab_notebook env base_folder model n w = (Raise e, w1).
Proof. intros H. unfold create_lab_notebook, bind. now rewrite H. Qed.

Lemma create_gather_raises base_folder model n w w1 e w2 :
  setup_notebook_folder base_folder w = (Ok tt, w1) ->
  gather_inputs env base_folder w1 = (Raise e, w2) ->
  create_lab_notebook env base_folder model n w = report_exception e w2.
Proof.
  intros H1 H2. unfold create_lab_notebook, bind, try_except, try_body, bind.
  now rewrite H1, H2.
Qed.

Lemma create_client_raises base_folder model n w w1 inputs w2 e :
  setup_notebook_folder base_folder w = (Ok tt, w1) ->
  gather_inputs env base_folder w1 = (Ok inputs, w2) ->
  create_client env (now w2) model = Raise e ->
  create_lab_notebook env base_folder model n w = report_exception e w2.
Proof.
  intros H1 H2 H3.
  unfold create_lab_notebook, bind, try_except, try_body, bind.
  rewrite H1, H2. unfold write_and_reflect, bind, call_create_client.
  now rewrite H3.
Qed.

Lemma create_unfold base_folder model n w w1 inputs w2 client client_model :
  setup_notebook_folder base_folder w = (Ok tt, w1) ->
  gather_inputs env base_folder w1 = (Ok inputs, w2) ->
  create_client env (now w2) model = Ok (client, client_model) ->
  let prompt := combined_prompt_of inputs in
  let answer :=
    get_response_from_llm env (now w2) prompt client client_model
      notebook_system_message_template [] in
  create_lab_notebook env base_folder model n w
  = from_first_answer env base_folder n client client_model answer
      (log (EvLLM prompt (reply_of answer)) w2).
Proof.
  intros H1 H2 H3 prompt answer.
  unfold create_lab_notebook, bind, try_except, try_body, bind.
  rewrite H1, H2.
  unfold write_and_reflect, bind, call_create_client, from_first_answer,
    try_except, bind, call_get_response_from_llm, lift_outcome.
  rewrite H3. fold prompt. fold answer.
  now destruct answer as [[response history]|e].
Qed.

Lemma keeps_from_first_answer base_folder n client client_model answer :
  keeps anywhere any_event
    (from_first_answer env base_folder n client client_model answer).
Proof.
  unfold from_first_answer. apply keeps_try_except.
  - apply keeps_bind; [keeps_step|]. intros [response history].
    unfold save_and_reflect.
    destruct (Regex.re_search response); [|keeps_step].
    apply keeps_bind; [now apply keeps_save_notebook|]. intros _.
    apply keeps_bind; [now apply keeps_reflection_loop|].
    intros [b|]; keeps_step.
  - intros e. unfold report_exception. repeat keeps_step.
Qed.

(** A run whose trace starts with an LLM call got through the setup, the
    gathering of the inputs and the client construction, and that call was
    the one made with the combined prompt. *)
Lemma first_call_inv base_folder model n files prompt reply :
  let run := create_lab_notebook env base_folder model n (init_world files) in
  head (llm_calls run.2) = Some (prompt, reply) ->
  exists w1 inputs w2 client client_model,
    setup_notebook_folder base_folder (init_world files) = (Ok tt, w1)
    /\ trace w1 = []
    /\ gather_inputs env base_folder w1 = (Ok inputs, w2)
    /\ fs w2 = fs w1 /\ llm_calls w2 = [] /\ writes w2 = []
    /\ create_client env (now w2) model = Ok (client, client_model)
    /\ prompt = combined_prompt_of inputs
    /\ (let answer :=
          get_response_from_llm env (now w2) prompt client client_model
            notebook_system_message_template [] in
        reply = reply_of answer
        /\ run = from_first_answer env base_folder n client client_model answer
                   (log (EvLLM prompt reply) w2)).
Proof.
  intros run Hhead. subst run.
  destruct (setup_notebook_folder base_folder (init_world files))
    as [[[]|e] w1] eqn:Hsetup.
  2:{ rewrite (create_setup_raises _ _ _ _ _ _ Hsetup) in Hhead.
      pose proof (setup_trace base_folder (init_world files)) as Ht.
      rewrite Hsetup in Ht. simpl in *. unfold llm_calls in Hhead.
      now rewrite Ht in Hhead. }
  assert (trace w1 = []) as Ht1.
  { pose proof (setup_trace base_folder (init_world files)) as Ht.
    now rewrite Hsetup in Ht. }
  pose proof (keeps_gather_inputs env nowhere quiet
                (fun _ => I) (fun _ => I) (fun _ => I) base_folder w1) as Hq.
  destruct (gather_inputs env base_folder w1) as [[inputs|e] w2] eqn:Hgather;
    simpl in Hq.
  2:{ rewrite (create_gather_raises _ _ _ _ _ _ _ Hsetup Hgather) in Hhead.
      rewrite report_exception_run in Hhead. simpl in Hhead.
      rewrite !llm_calls_log in Hhead. simpl in Hhead.
      apply quiet_calls in Hq as [Hq _]. rewrite Hq in Hhead.
      unfold llm_calls in Hhead. now rewrite Ht1 in Hhead. }
  pose proof (within_nowhere_fs _ _ _ Hq) as Hfs.
  apply quiet_calls in Hq as [Hc Hw].
  assert (llm_calls w2 = []) as Hc2
    by (rewrite Hc; unfold llm_calls; now rewrite Ht1).
  assert (writes w2 = []) as Hw2
    by (rewrite Hw; unfold writes; now rewrite Ht1).
  destruct (create_client env (now w2) model) as [[client cm]|e] eqn:Hclient.
  2:{ rewrite (create_client_raises _ _ _ _ _ _ _ _ Hsetup Hgather Hclient)
        in Hhead.
      rewrite report_exception_run in Hhead. simpl in Hhead.
      rewrite !llm_calls_log in Hhead. simpl in Hhead.
      now rewrite Hc2 in Hhead. }
  pose proof (create_unfold _ model n _ _ _ _ _ _ Hsetup Hgather Hclient)
    as Hrun. simpl in Hrun.
  set (answer := get_response_from_llm env (now w2) (combined_prompt_of inputs)
                   client cm notebook_system_message_template []) in *.
  rewrite Hrun in Hhead.
  destruct (llm_calls_prefix _ _ _ _
              (keeps_from_first_answer base_folder n client cm answer
                 (log (EvLLM (combined_prompt_of inputs) (reply_of answer)) w2)))
    as [more Hmore].
  rewrite Hmore, llm_calls_log, Hc2 in Hhead. simpl in Hhead.
  injection Hhead as <- <-.
  exists w1, inputs, w2, client, cm. repeat split; try assumption.
Qed.

End RunFacts.

(** ** The inputs of the prompt *)

Section GatherFacts.
Import PyStr.

Context (env : collaborators).

Lemma fs_after {A} (m : M A) (w : world) :
  keeps nowhere quiet m -> fs (m w).2 = fs w.
Proof. intros H. exact (within_nowhere_fs _ _ _ (H w)). Qed.

(** The steps of [gather_inputs] one by one; none of them changes the
    filesystem. *)
Lemma gather_inv (base_folder : string) (w w' : world) (inputs : prompt_inputs) :
  gather_inputs env base_folder w = (Ok inputs, w') ->
  exists wa wb wc wd we loaded,
    load_idea_text base_folder w = (Ok (idea_text inputs), wa)
    /\ load_summaries env base_folder summary_files [] wa = (Ok loaded, wb)
    /\ combined_summaries_str inputs = json_dumps env (JObject loaded)
    /\ read_current_notebook (notebook_file_of base_folder) wb
       = (Ok (current_notebook inputs), wc)
    /\ gather_plot_names (figures_dir_of base_folder) wc
       = (Ok (plot_names inputs), wd)
    /\ load_aggregator_code base_folder wd = (Ok (aggregator_code inputs), we)
    /\ describe_plots env (figures_dir_of base_folder) (plot_names inputs) we
       = (Ok (plot_descriptions_str inputs), w')
    /\ fs wa = fs w /\ fs wb = fs w /\ fs wc = fs w /\ fs wd = fs w
    /\ fs we = fs w.
Proof.
  unfold gather_inputs. intros H.
  apply bind_Ok_inv in H as (idea & wa & H1 & H).
  apply bind_Ok_inv in H as (loaded & wb & H2 & H).
  apply bind_Ok_inv in H as (current & wc & H3 & H).
  apply bind_Ok_inv in H as (plots & wd & H4 & H).
  apply bind_Ok_inv in H as (aggregator & we & H5 & H).
  apply bind_Ok_inv in H as (descriptions & wf & H6 & H).
  injection H as <- <-. simpl.
  exists wa, wb, wc, wd, we, loaded.
  assert (fs wa = fs w) as Fa.
  { pose proof (fs_after (load_idea_text base_folder) w) as F.
    rewrite H1 in F. apply F. now apply keeps_load_idea_text. }
  assert (fs wb = fs w) as Fb.
  { pose proof (fs_after (load_summaries env base_folder summary_files []) wa)
      as F.
    rewrite H2 in F. rewrite <- Fa. apply F. now apply keeps_load_summaries. }
  assert (fs wc = fs w) as Fc.
  { pose proof (fs_after (read_current_notebook (notebook_file_of base_folder))
                  wb) as F.
    rewrite H3 in F. rewrite <- Fb. apply F.
    now apply keeps_read_current_notebook. }
  assert (fs wd = fs w) as Fd.
  { pose proof (fs_after (gather_plot_names (figures_dir_of base_folder)) wc)
      as F.
    rewrite H4 in F. rewrite <- Fc. apply F.
    now apply keeps_gather_plot_names. }
  assert (fs we = fs w) as Fe.
  { pose proof (fs_after (load_aggregator_code base_folder) wd) as F.
    rewrite H5 in F. rewrite <- Fd. apply F.
    now apply keeps_load_aggregator_code. }
  repeat split; assumption.
Qed.

Lemma read_current_notebook_absent (notebook_file : string) (w w' : world)
    (current : string) :
  fs w !! notebook_file = None ->
  read_current_notebook notebook_file w = (Ok current, w') ->
  current = EmptyString.
Proof.
  intros Hnone. unfold read_current_notebook, bind, FS.path_exists.
  rewrite Hnone. rewrite bool_decide_eq_false_2 by (now intros [v Hv]).
  now intros [= <- _].
Qed.

Lemma load_idea_text_absent (base_folder : string) (w w' : world)
    (idea : string) :
  fs w !! Path.join base_folder "research_idea.md" = None ->
  fs w !! Path.join base_folder "idea.md" = None ->
  load_idea_text base_folder w = (Ok idea, w') ->
  idea = EmptyString.
Proof.
  intros H1 H2. unfold load_idea_text, bind, FS.path_exists.
  rewrite H1. rewrite bool_decide_eq_false_2 by (now intros [v Hv]).
  cbv beta iota. rewrite H2.
  rewrite bool_decide_eq_false_2 by (now intros [v Hv]).
  now intros [= <- _].
Qed.

Lemma load_aggregator_code_absent (base_folder : string) (w w' : world)
    (code : string) :
  fs w !! Path.join base_folder "auto_plot_aggregator.py" = None ->
  load_aggregator_code base_folder w = (Ok code, w') ->
  code = "No aggregator script found.".
Proof.
  intros H1. unfold load_aggregator_code, bind, FS.path_exists.
  rewrite H1. rewrite !bool_decide_eq_false_2 by (now intros [v Hv]).
  now intros [= <- _].
Qed.

End GatherFacts.

(** ** The summaries *)

Section SummaryFacts.
Import PyStr.

Context (env : collaborators).

(** One turn of the loop, by the state of its file. *)
Lemma load_summary_run (base_folder fname key : string)
    (loaded : list (string * json)) (w : world) :
  load_summary env base_folder fname key loaded w =
  match summary_state_of env (fs w) (Path.join base_folder fname) with
  | SummaryAbsent => (Ok (dict_set key empty_object loaded), w)
  | SummaryValid value => (Ok (dict_set key value loaded), w)
  | SummaryInvalid =>
      (Ok (dict_set key empty_object loaded),
       log (EvPrint (summary_warning fname key)) w)
  | SummaryOther =>
      match fs w !! Path.join base_folder fname with
      | Some (File content) =>
          match json_load env (universal_newlines content) with
          | Raise e => (Raise e, w)
          | Ok value => (Ok (dict_set key value loaded), w)
          end
      | _ => (Raise IsADirectoryError, w)
      end
  end.
Proof.
  unfold load_summary, summary_state_of, bind, FS.path_exists, try_except,
    FS.read_text, lift_outcome.
  destruct (fs w !! Path.join base_folder fname) as [[content|]|] eqn:Hp.
  - rewrite bool_decide_eq_true_2 by eauto. rewrite Hp.
    now destruct (json_load env (universal_newlines content)) as [v|[]].
  - rewrite bool_decide_eq_true_2 by eauto. now rewrite Hp.
  - now rewrite bool_decide_eq_false_2 by (now intros [v Hv]).
Qed.

Lemma load_summaries_run (base_folder : string) (files : list (string * string))
    (loaded : list (string * json)) (w : world) :
  Forall (fun fk => summary_state_of env (fs w) (Path.join base_folder fk.1)
                    <> SummaryOther) files ->
  exists w',
    load_summaries env base_folder files loaded w
    = (Ok (fold_left
             (fun d fk =>
                dict_set fk.2
                  (recorded (summary_state_of env (fs w)
                               (Path.join base_folder fk.1))) d)
             files loaded), w')
    /\ fs w' = fs w
    /\ (forall e, In e (trace w) -> In e (trace w'))
    /\ Forall (fun fk =>
                 summary_state_of env (fs w) (Path.join base_folder fk.1)
                 = SummaryInvalid ->
                 In (EvPrint (summary_warning fk.1 fk.2)) (trace w')) files.
Proof.
  revert loaded w. induction files as [|[fname key] files IH];
    intros loaded w Hall.
  - exists w. simpl. repeat split; auto.
  - inversion Hall as [|fk l Hhere Hrest]; subst. simpl in Hhere.
    simpl load_summaries. unfold bind. rewrite load_summary_run.
    destruct (summary_state_of env (fs w) (Path.join base_folder fname))
      eqn:Hstate; [| | |contradiction].
    + destruct (IH (dict_set key empty_object loaded) w Hrest)
        as (w' & -> & Hfs & Htr & Hwarn).
      exists w'. simpl. rewrite Hstate. repeat split; auto.
      constructor; [simpl; congruence | exact Hwarn].
    + destruct (IH (dict_set key value loaded) w Hrest)
        as (w' & -> & Hfs & Htr & Hwarn).
      exists w'. simpl. rewrite Hstate. repeat split; auto.
      constructor; [simpl; congruence | exact Hwarn].
    + destruct (IH (dict_set key empty_object loaded)
                  (log (EvPrint (summary_warning fname key)) w) Hrest)
        as (w' & E & Hfs & Htr & Hwarn).
      exists w'. simpl in *. rewrite Hstate, E.
      split; [reflexivity|]. split; [exact Hfs|]. split.
      * intros e He. apply Htr. now right.
      * constructor; [|exact Hwarn]. simpl. intros _. apply Htr. now left.
Qed.

(** A loop over the summary files that returned met no file in the
    [SummaryOther] state. *)
Lemma load_summaries_states (base_folder : string)
    (files : list (string * string)) (loaded loaded' : list (string * json))
    (w w' : world) :
  load_summaries env base_folder files loaded w = (Ok loaded', w') ->
  Forall (fun fk => summary_state_of env (fs w) (Path.join base_folder fk.1)
                    <> SummaryOther) files.
Proof.
  revert loaded w. induction files as [|[fname key] files IH];
    intros loaded w H; [constructor|].
  simpl in H. unfold bind in H. rewrite load_summary_run in H.
  destruct (summary_state_of env (fs w) (Path.join base_folder fname))
    eqn:Hstate.
  - constructor; [simpl; congruence | exact (IH _ _ H)].
  - constructor; [simpl; congruence | exact (IH _ _ H)].
  - constructor; [simpl; congruence | exact (IH _ _ H)].
  - exfalso. unfold summary_state_of in Hstate.
    destruct (fs w !! Path.join base_folder fname) as [[content|]|];
      try discriminate.
    destruct (json_load env (universal_newlines content)) as [v|e];
      discriminate.
Qed.

(** The dictionary the loop builds for the three summary files. *)
Lemma load_summaries_three (base_folder : string) (loaded : list (string * json))
    (w w' : world) :
  load_summaries env base_folder summary_files [] w = (Ok loaded, w') ->
  let value fname :=
    recorded (summary_state_of env (fs w) (Path.join base_folder fname)) in
  loaded = [("BASELINE_SUMMARY", value "logs/0-run/baseline_summary.json");
            ("RESEARCH_SUMMARY", value "logs/0-run/research_summary.json");
            ("ABLATION_SUMMARY", value "logs/0-run/ablation_summary.json")]
  /\ fs w' = fs w
  /\ forall fname key,
       In (fname, key) summary_files ->
       summary_state_of env (fs w) (Path.join base_folder fname)
       = SummaryInvalid ->
       In (EvPrint (summary_warning fname key)) (trace w').
Proof.
  intros H value. pose proof (load_summaries_states _ _ _ _ _ _ H) as Hstates.
  destruct (load_summaries_run base_folder summary_files [] w Hstates)
    as (w'' & E & Hfs & _ & Hwarn).
  rewrite H in E. injection E as -> <-.
  split; [reflexivity|]. split; [exact Hfs|].
  intros fname key Hin. rewrite Forall_forall in Hwarn.
  apply (Hwarn (fname, key)). now apply list_elem_of_In.
Qed.

End SummaryFacts.

(** ** The plots and their descriptions *)

Section PlotFacts.
Import PyStr.

Context (env : collaborators).

Lemma gather_plot_names_run (figures_dir : string) (w : world) :
  fs w !! figures_dir = Some Dir ->
  gather_plot_names figures_dir w
  = (Ok (List.filter is_png (FS.entry_names figures_dir (fs w))), w).
Proof.
  intros Hd. unfold gather_plot_names, bind, FS.path_exists, FS.listdir.
  rewrite Hd. rewrite bool_decide_eq_true_2 by eauto.
  cbv beta iota. now rewrite Hd.
Qed.

Lemma contains_eq (needle s : string) :
  contains needle s =
  startswith s needle
  || match s with
     | EmptyString => false
     | String _ s' => contains needle s'
     end.
Proof. now destruct s. Qed.

(** A listed entry is a single component and is present under the
    directory. *)
Lemma entry_names_present (d name : string) (m : gmap string node) :
  In name (FS.entry_names d m) ->
  Path.is_name name = true /\ is_Some (m !! (d +:+ "/" +:+ name)).
Proof.
  unfold FS.entry_names. intros H. apply list_elem_of_In in H.
  apply list_elem_of_omap in H as ([k v] & Hkv & H). simpl in H.
  destruct (Path.below d k) as [rel|] eqn:Hb; [|discriminate].
  destruct (Path.is_name rel) eqn:Hn; [|discriminate].
  injection H as ->. split; [exact Hn|].
  apply below_Some in Hb as ->. apply elem_of_map_to_list in Hkv. eauto.
Qed.

Lemma join_name (d name : string) :
  String.eqb d EmptyString = false -> endswith d "/" = false ->
  Path.is_name name = true ->
  Path.join d name = d +:+ "/" +:+ name.
Proof.
  intros Hd Hs Hn. unfold Path.is_name in Hn.
  apply andb_true_iff in Hn as [_ Hn]. apply negb_true_iff in Hn.
  rewrite contains_eq in Hn. apply orb_false_iff in Hn as [Hn _].
  unfold Path.join. now rewrite Hn, Hd, Hs.
Qed.

Lemma figures_dir_shape (base_folder : string) :
  String.eqb (figures_dir_of base_folder) EmptyString = false
  /\ endswith (figures_dir_of base_folder) "/" = false.
Proof.
  unfold figures_dir_of. rewrite join_relative by reflexivity.
  apply (ends_in_letter _ _ "s"); [reflexivity | discriminate].
Qed.

Lemma describe_each_spec (figures_dir model : string) (client : nat)
    (names : list string) (desc_map desc_map' : gmap string string)
    (w w' : world) :
  describe_each env figures_dir model client names desc_map w
  = (Ok desc_map', w') ->
  (forall pf d, desc_map' !! pf = Some d ->
                desc_map !! pf = Some d \/ reviewed env figures_dir pf d)
  /\ (forall pf, is_Some (desc_map !! pf) -> is_Some (desc_map' !! pf))
  /\ (forall pf, In pf names -> is_Some (fs w !! Path.join figures_dir pf) ->
                 is_Some (desc_map' !! pf)).
Proof.
  revert desc_map w. induction names as [|pf names IH]; intros desc_map w.
  - intros [= <- <-]. repeat split; [now left | easy | intros pf []].
  - simpl. unfold bind at 1. unfold FS.path_exists at 1.
    destruct (bool_decide (is_Some (fs w !! Path.join figures_dir pf)))
      eqn:Hex; simpl.
    + unfold bind at 1, call_generate_vlm_img_review at 1.
      destruct (generate_vlm_img_review env _ _ model client)
        as [review|e] eqn:Hrev; [|discriminate].
      intros H. apply IH in H as (Hold & Hkeep & Hnew). simpl in Hnew.
      assert (reviewed env figures_dir pf (description_of review)) as Hpf
        by (exists (now w), model, client, review; split;
            [exact Hrev | reflexivity]).
      repeat split.
      * intros pf' d Hd. destruct (Hold pf' d Hd) as [Hi|Hr]; [|now right].
        destruct (decide (pf = pf')) as [<-|Hne].
        -- rewrite lookup_insert_eq in Hi. injection Hi as <-. now right.
        -- rewrite lookup_insert_ne in Hi by exact Hne. now left.
      * intros pf' Hsome. apply Hkeep.
        destruct (decide (pf = pf')) as [<-|Hne].
        -- rewrite lookup_insert_eq. eauto.
        -- now rewrite lookup_insert_ne.
      * intros pf' [<-|Hin] Hsome; [|now apply Hnew].
        apply Hkeep. rewrite lookup_insert_eq. eauto.
    + intros H. apply IH in H as (Hold & Hkeep & Hnew).
      repeat split; [exact Hold | exact Hkeep |].
      intros pf' [<-|Hin] Hsome; [|now apply Hnew].
      apply bool_decide_eq_false in Hex. contradiction.
Qed.

(** What [describe_plots] returns: the fallback text when the inner
    [try] raised, and otherwise one line per plot name, in order, each
    with what the VLM said about that plot. *)
Lemma describe_plots_cases (figures_dir : string) (names : list string)
    (w w' : world) (text : string) :
  describe_plots env figures_dir names w = (Ok text, w') ->
  (forall pf, In pf names -> is_Some (fs w !! Path.join figures_dir pf)) ->
  (exists e wx,
     generate_descriptions env figures_dir names w = (Raise e, wx)
     /\ text = NO_DESCRIPTIONS)
  \/ (exists desc : string -> string,
        generate_descriptions env figures_dir names w = (Ok text, w')
        /\ text = join NEWLINE (map (fun pf => pf +:+ ": " +:+ desc pf) names)
        /\ forall pf, In pf names -> reviewed env figures_dir pf (desc pf)).
Proof.
  unfold describe_plots, try_except. intros H Hpresent.
  destruct (generate_descriptions env figures_dir names w)
    as [[text'|e] wx] eqn:Hgen.
  - injection H as -> ->. right.
    unfold generate_descriptions, bind, call_create_vlm_client in Hgen.
    destruct (create_vlm_client env (now w) "gpt-4o-2024-05-13")
      as [[client model]|e]; [|discriminate].
    destruct (describe_each env figures_dir model client names ∅ w)
      as [[desc_map|e] wy] eqn:Heach; [|discriminate].
    injection Hgen as <- <-.
    apply describe_each_spec in Heach as (Hold & _ & Hnew).
    exists (fun pf => default NO_DESCRIPTION (desc_map !! pf)).
    repeat split.
    intros pf Hin. destruct (Hnew pf Hin (Hpresent pf Hin)) as [d Hd].
    rewrite Hd. simpl. destruct (Hold pf d Hd) as [Hi|Hr]; [|exact Hr].
    now rewrite lookup_empty in Hi.
  - left. simpl in H. exists e, wx. split; [reflexivity|].
    unfold bind, print, print_traceback, ret in H. now injection H as <- _.
Qed.

End PlotFacts.

(** ** Saving *)

Section SaveFacts.
Import PyStr.

Lemma save_notebook_cases (p content : string) (w : world) :
  save_notebook p content w = (Ok tt, saved p content w)
  \/ exists e, save_notebook p content w = (Raise e, w).
Proof.
  unfold save_notebook, bind, FS.write_text, saved, print.
  destruct (fs w !! p) as [[c|]|]; eauto;
    destruct (last (Path.parents p)) as [d|]; eauto;
    destruct (fs w !! d) as [[c'|]|]; eauto.
Qed.

(** A save goes through when the target is not a directory and the
    directory above it exists. *)
Lemma save_notebook_ok (p content d : string) (w : world) :
  fs w !! p <> Some Dir -> last (Path.parents p) = Some d ->
  fs w !! d = Some Dir ->
  save_notebook p content w = (Ok tt, saved p content w).
Proof.
  intros Hp Hd Hdir. unfold save_notebook, bind, FS.write_text, saved, print.
  rewrite Hd, Hdir. now destruct (fs w !! p) as [[c|]|].
Qed.

Lemma writes_saved (p content : string) (w : world) :
  writes (saved p content w) = writes w ++ [(p, content)].
Proof.
  unfold saved. rewrite !writes_log. simpl. now rewrite app_nil_r.
Qed.

Lemma llm_calls_saved (p content : string) (w : world) :
  llm_calls (saved p content w) = llm_calls w.
Proof.
  unfold saved. rewrite !llm_calls_log. simpl. now rewrite !app_nil_r.
Qed.

End SaveFacts.

(** ** The reflection loop *)

Section LoopFacts.
Import PyStr.

Context (env : collaborators).
Context (response notebook_file : string) (client : nat) (client_model : string).

#[local] Abbreviation pass :=
  (reflection_pass env response notebook_file client client_model).
#[local] Abbreviation loop :=
  (reflection_loop env response notebook_file client client_model).
#[local] Abbreviation ask history w :=
  (get_response_from_llm env (now w) reflection_prompt client client_model
     notebook_system_message_template history).

(** One pass, branch by branch. *)
Lemma reflection_pass_run (i : nat) (history : msg_history) (w : world) :
  pass i history w =
  match FS.read_text notebook_file w with
  | (Raise e, _) => (Raise e, w)
  | (Ok current, _) =>
      let w1 := log (EvLLM reflection_prompt (reply_of (ask history w))) w in
      match ask history w with
      | Raise e => (Raise e, w1)
      | Ok (reply, history') =>
          if contains DONE_SENTINEL reply then
            (Ok Break, log (EvPrint DONE_MESSAGE) w1)
          else
            match Regex.re_search response with
            | None => (Ok (Return false), w1)
            | Some group1 =>
                if String.eqb (strip group1) current then
                  (Ok Break,
                   log (EvPrint ("No changes in reflection step "
                                 +:+ step_number i +:+ ".")) w1)
                else
                  match save_notebook notebook_file (strip group1) w1 with
                  | (Ok _, w2) => (Ok (Next history'), w2)
                  | (Raise e, w2) => (Raise e, w2)
                  end
            end
      end
  end.
Proof.
  unfold reflection_pass, bind at 1. unfold FS.read_text.
  destruct (fs w !! notebook_file) as [[content|]|]; try reflexivity.
  unfold bind at 1, call_get_response_from_llm.
  destruct (get_response_from_llm _ _ _ _ _ _ _) as [[reply history']|e];
    [|reflexivity].
  simpl. destruct (contains DONE_SENTINEL reply); [reflexivity|].
  destruct (Regex.re_search response) as [group1|]; [|reflexivity].
  destruct (String.eqb (strip group1) (universal_newlines content));
    [reflexivity|].
  simpl. unfold bind. now destruct (save_notebook _ _ _) as [[[]|e] w2].
Qed.

Lemma calls_after_save (p content : string) (w : world) :
  llm_calls (save_notebook p content w).2 = llm_calls w.
Proof.
  destruct (save_notebook_cases p content w) as [->|[e ->]]; [|reflexivity].
  cbn [snd]. unfold saved. rewrite !llm_calls_log, !app_nil_r. reflexivity.
Qed.

(** A pass sends at most one prompt. *)
Lemma pass_calls (i : nat) (history : msg_history) (w : world) :
  length (llm_calls (pass i history w).2) <= length (llm_calls w) + 1.
Proof.
  rewrite reflection_pass_run.
  destruct (FS.read_text notebook_file w) as [[current|e] w0]; [|simpl; lia].
  cbv zeta.
  set (w1 := log (EvLLM reflection_prompt (reply_of (ask history w))) w).
  assert (length (llm_calls w1) = length (llm_calls w) + 1) as Hw1.
  { subst w1. rewrite llm_calls_log, length_app. reflexivity. }
  destruct (ask history w) as [[reply history']|e]; [|simpl; lia].
  destruct (contains DONE_SENTINEL reply).
  { simpl. rewrite llm_calls_log, app_nil_r. lia. }
  destruct (Regex.re_search response) as [group1|]; [|simpl; lia].
  destruct (String.eqb (strip group1) current).
  { simpl. rewrite llm_calls_log, app_nil_r. lia. }
  pose proof (calls_after_save notebook_file (strip group1) w1) as Hs.
  destruct (save_notebook notebook_file (strip group1) w1) as [[[]|e] w2];
    simpl in *; rewrite Hs; lia.
Qed.

(** The loop sends at most one prompt per index. *)
Lemma loop_calls (indices : list nat) (history : msg_history) (w : world) :
  length (llm_calls (loop indices history w).2)
  <= length (llm_calls w) + length indices.
Proof.
  revert history w. induction indices as [|i rest IH]; intros history w;
    simpl; [lia|].
  unfold bind. pose proof (pass_calls i history w) as Hp.
  destruct (pass i history w) as [[[history'| |b]|e] w1]; simpl in *; try lia.
  specialize (IH history' w1). lia.
Qed.

(** The two early exits: the pass that sees the sentinel, or extracts
    what the file already holds, is the last one. *)
Lemma loop_exits_early (i : nat) (rest : list nat) (history history' : msg_history)
    (w : world) (current reply : string) :
  FS.read_text notebook_file w = (Ok current, w) ->
  ask history w = Ok (reply, history') ->
  contains DONE_SENTINEL reply = true
  \/ (exists group1, Regex.re_search response = Some group1
                     /\ strip group1 = current) ->
  exists w',
    loop (i :: rest) history w = (Ok None, w')
    /\ llm_calls w' = llm_calls w ++ [(reflection_prompt, Some reply)]
    /\ writes w' = writes w
    /\ fs w' = fs w.
Proof.
  intros Hread Hask Hexit. simpl. unfold bind. rewrite reflection_pass_run.
  rewrite Hread. cbv zeta. rewrite Hask.
  destruct (contains DONE_SENTINEL reply) eqn:Hdone.
  - eexists. split; [reflexivity|].
    now rewrite !llm_calls_log, !writes_log, !app_nil_r.
  - destruct Hexit as [?|(group1 & -> & ->)]; [discriminate|].
    rewrite String.eqb_refl. eexists. split; [reflexivity|].
    now rewrite !llm_calls_log, !writes_log, !app_nil_r.
Qed.

End LoopFacts.

(** ** The loop on a notebook that the first answer already fixed *)

Section StableNotebook.
Import PyStr.

Context (env : collaborators).
Context (response notebook_file folder : string) (client : nat)
        (client_model : string) (group1 : string).
Context (Hsearch : Regex.re_search response = Some group1).
Context (Hparent : last (Path.parents notebook_file) = Some folder).

#[local] Abbreviation block := (strip group1).
#[local] Abbreviation pass :=
  (reflection_pass env response notebook_file client client_model).
#[local] Abbreviation loop :=
  (reflection_loop env response notebook_file client client_model).
#[local] Abbreviation holds := (holds_block notebook_file folder block).


Lemma saved_same (w : world) :
  holds w -> fs (saved notebook_file block w) = fs w.
Proof. intros [Hf _]. simpl. now apply insert_id. Qed.

(** On such a notebook a pass leaves the filesystem as it is, saves
    nothing but the block, and never takes the [return False] branch. *)
Lemma pass_stable (i : nat) (history : msg_history) (w : world) :
  holds w ->
  fs (pass i history w).2 = fs w
  /\ (forall b, (pass i history w).1 <> Ok (Return b))
  /\ exists more, writes (pass i history w).2 = writes w ++ more
                  /\ Forall (fun pc => pc = (notebook_file, block)) more.
Proof.
  intros Hh. pose proof Hh as [Hfile Hdir]. rewrite reflection_pass_run.
  unfold FS.read_text. rewrite Hfile. cbv zeta.
  set (w1 := log (EvLLM _ _) w).
  assert (writes w1 = writes w) as Hw1
    by (subst w1; now rewrite writes_log, app_nil_r).
  assert (forall (o : outcome loop_exit) (w2 : world),
            fs w2 = fs w -> writes w2 = writes w ->
            (forall b, o <> Ok (Return b)) ->
            fs (o, w2).2 = fs w
            /\ (forall b, (o, w2).1 <> Ok (Return b))
            /\ exists more, writes (o, w2).2 = writes w ++ more
                 /\ Forall (fun pc => pc = (notebook_file, block)) more)
    as Hquiet.
  { intros o w2 Hf Hw Ho. cbn [fst snd]. repeat split; try assumption.
    exists []. now rewrite app_nil_r. }
  destruct (get_response_from_llm _ _ _ _ _ _ _) as [[reply history']|e];
    [|now apply Hquiet].
  destruct (contains DONE_SENTINEL reply).
  { apply Hquiet; [reflexivity | | easy].
    now rewrite writes_log, app_nil_r. }
  rewrite Hsearch.
  destruct (String.eqb block (universal_newlines block)).
  { apply Hquiet; [reflexivity | | easy].
    now rewrite writes_log, app_nil_r. }
  rewrite (save_notebook_ok notebook_file block folder w1);
    [|simpl; congruence | exact Hparent | exact Hdir].
  cbn [fst snd]. split; [now apply (saved_same w1)|]. split; [easy|].
  exists [(notebook_file, block)]. split; [|now repeat constructor].
  now rewrite writes_saved, Hw1.
Qed.

(** When reading the block back gives the block itself, a pass never
    asks for another one. *)
Lemma pass_clean (i : nat) (history : msg_history) (w : world) :
  holds w -> universal_newlines block = block ->
  forall history', (pass i history w).1 <> Ok (Next history').
Proof.
  intros [Hfile Hdir] Hclean history'. rewrite reflection_pass_run.
  unfold FS.read_text. rewrite Hfile. cbv zeta. rewrite Hclean.
  destruct (get_response_from_llm _ _ _ _ _ _ _) as [[reply h]|e];
    [|easy].
  destruct (contains DONE_SENTINEL reply); [easy|].
  now rewrite Hsearch, String.eqb_refl.
Qed.

Lemma loop_stable (indices : list nat) (history : msg_history) (w : world) :
  holds w ->
  fs (loop indices history w).2 = fs w
  /\ (forall b, (loop indices history w).1 <> Ok (Some b))
  /\ exists more, writes (loop indices history w).2 = writes w ++ more
                  /\ Forall (fun pc => pc = (notebook_file, block)) more.
Proof.
  revert history w. induction indices as [|i rest IH]; intros history w Hh.
  - simpl. repeat split; [easy|]. exists []. now rewrite app_nil_r.
  - simpl. unfold bind.
    destruct (pass_stable i history w Hh) as (Hfs & Hret & more & Hw & Hmore).
    destruct (pass i history w) as [[[history'| |b]|e] w1] eqn:Hp;
      simpl in *.
    + assert (holds w1) as Hh1 by (destruct Hh; split; now rewrite Hfs).
      destruct (IH history' w1 Hh1) as (Hfs' & Hret' & more' & Hw' & Hmore').
      split; [congruence|]. split; [exact Hret'|].
      exists (more ++ more'). rewrite Hw', Hw, app_assoc.
      split; [reflexivity | now apply Forall_app].
    + repeat split; [easy | easy | now exists more].
    + now destruct (Hret b).
    + repeat split; [easy | easy | now exists more].
Qed.

Lemma loop_clean (indices : list nat) (history : msg_history) (w : world) :
  holds w -> universal_newlines block = block ->
  length (llm_calls (loop indices history w).2) <= length (llm_calls w) + 1.
Proof.
  intros Hh Hclean. destruct indices as [|i rest]; simpl; [lia|].
  unfold bind. pose proof (pass_calls env response notebook_file client
                             client_model i history w) as Hc.
  pose proof (pass_clean i history w Hh Hclean) as Hn.
  destruct (pass i history w) as [[[history'| |b]|e] w1]; simpl in *;
    try exact Hc.
  now destruct (Hn history').
Qed.

End StableNotebook.

(** ** What the [try] block may touch *)

Section TryKeeps.
Import PyStr.

Context (env : collaborators).
Context (W : string -> Prop) (E : event -> Prop).
Context (Hprint : forall text, E (EvPrint text)).
Context (Htraceback : forall e, E (EvTraceback e)).
Context (Hvlm : forall image, E (EvVLM image)).
Context (Hllm : forall prompt reply, E (EvLLM prompt reply)).
Context (base_folder : string).
Context (Hfile : W (notebook_file_of base_folder)).
Context (Hwrite : forall content,
                    E (EvWrite (notebook_file_of base_folder) content)).

Lemma keeps_save_and_reflect n client client_model response history :
  keeps W E
    (save_and_reflect env base_folder n client client_model response history).
Proof.
  unfold save_and_reflect.
  destruct (Regex.re_search response); [|keeps_step].
  apply keeps_bind; [now apply keeps_save_notebook|]. intros _.
  apply keeps_bind; [now apply keeps_reflection_loop|].
  intros [b|]; keeps_step.
Qed.

Lemma keeps_try_body model n :
  keeps W E (try_body env base_folder model n).
Proof.
  unfold try_body. apply keeps_bind; [now apply keeps_gather_inputs|].
  intros inputs. unfold write_and_reflect.
  apply keeps_bind; [keeps_step|]. intros [client client_model].
  apply keeps_bind; [keeps_step|]. intros [response history].
  apply keeps_save_and_reflect.
Qed.

Lemma keeps_guarded_try_body model n :
  keeps W E
    (try_except (try_body env base_folder model n) any_exception
       report_exception).
Proof.
  apply keeps_try_except; [apply keeps_try_body|].
  intros e. unfold report_exception. repeat keeps_step.
Qed.

End TryKeeps.

(** ** Runs whose first answer carries a block *)

Section BlockRuns.
Import PyStr.

Context (env : collaborators).

Lemma notebook_folder_neq_file (base_folder : string) :
  notebook_folder_of base_folder <> notebook_file_of base_folder.
Proof.
  destruct (notebook_paths base_folder) as (E & _). intros H.
  rewrite E in H. apply (f_equal String.length) in H.
  rewrite length_append in H. simpl in H. lia.
Qed.

(** The run from the first answer on, branch by branch. *)
Lemma from_first_answer_run (base_folder : string) (n : Z) (client : nat)
    (client_model response : string) (history : msg_history) (w : world) :
  from_first_answer env base_folder n client client_model
    (Ok (response, history)) w =
  match Regex.re_search response with
  | None => (Ok false, w)
  | Some group1 =>
      match save_notebook (notebook_file_of base_folder) (strip group1) w with
      | (Raise e, w1) => report_exception e w1
      | (Ok _, w1) =>
          match reflection_loop env response (notebook_file_of base_folder)
                  client client_model (range n) history w1 with
          | (Ok (Some b), w2) => (Ok b, w2)
          | (Ok None, w2) =>
              (Ok (bool_decide
                     (is_Some (fs w2 !! notebook_file_of base_folder))), w2)
          | (Raise e, w2) => report_exception e w2
          end
      end
  end.
Proof.
  unfold from_first_answer, try_except, bind at 1, lift_outcome.
  unfold save_and_reflect.
  destruct (Regex.re_search response) as [group1|]; [|reflexivity].
  unfold bind at 1.
  destruct (save_notebook _ _ w) as [[[]|e] w1]; [|reflexivity].
  unfold bind.
  now destruct (reflection_loop _ _ _ _ _ _ _ w1) as [[[b|]|e] w2].
Qed.

(** What the rest of the run does once the first answer is in and carries
    a block: the block is saved, the loop leaves the file as it is, and the
    call returns [True], or [False] after an exception. *)
Lemma from_first_answer_with_block (base_folder : string) (n : Z)
    (client : nat) (client_model response group1 : string)
    (history : msg_history) (w : world) :
  Regex.re_search response = Some group1 ->
  fs w !! notebook_file_of base_folder = None ->
  fs w !! notebook_folder_of base_folder = Some Dir ->
  let block := strip group1 in
  let run := from_first_answer env base_folder n client client_model
               (Ok (response, history)) w in
  fs run.2 !! notebook_file_of base_folder = Some (File block)
  /\ (forall p, p <> notebook_file_of base_folder -> fs run.2 !! p = fs w !! p)
  /\ (exists more,
        writes run.2 = writes w ++ (notebook_file_of base_folder, block) :: more
        /\ Forall (fun pc => pc = (notebook_file_of base_folder, block)) more)
  /\ length (llm_calls run.2) <= length (llm_calls w) + Z.to_nat n
  /\ (universal_newlines block = block ->
      length (llm_calls run.2) <= length (llm_calls w) + 1)
  /\ (run.1 = Ok true \/ run.1 = Ok false).
Proof.
  intros Hsearch Hnone Hdir block run. subst run.
  set (nbfile := notebook_file_of base_folder) in *.
  set (nb := notebook_folder_of base_folder) in *.
  pose proof (notebook_file_parent base_folder) as Hparent.
  fold nbfile nb in Hparent.
  rewrite from_first_answer_run. fold nbfile. rewrite Hsearch. fold block.
  rewrite (save_notebook_ok nbfile block nb w);
    [|congruence | exact Hparent | exact Hdir].
  set (w1 := saved nbfile block w).
  assert (holds_block nbfile nb block w1) as Hholds.
  { split; simpl; [apply lookup_insert_eq|].
    rewrite lookup_insert_ne; [exact Hdir|].
    apply not_eq_sym, notebook_folder_neq_file. }
  assert (forall p, p <> nbfile -> fs w1 !! p = fs w !! p) as Hframe.
  { intros p Hp. simpl. apply lookup_insert_ne. congruence. }
  pose proof (writes_saved nbfile block w) as Hw1. fold w1 in Hw1.
  pose proof (llm_calls_saved nbfile block w) as Hc1. fold w1 in Hc1.
  destruct (loop_stable env response nbfile nb client client_model group1
              Hsearch Hparent (range n) history w1 Hholds)
    as (Hfs & Hret & more & Hwrites & Hmore).
  pose proof (loop_calls env response nbfile client client_model
                (range n) history w1) as Hbound.
  unfold range in Hbound at 2. rewrite length_seq in Hbound.
  pose proof (loop_clean env response nbfile nb client client_model group1
                Hsearch (range n) history w1 Hholds) as Hclean.
  destruct Hholds as [Hfile _]. rewrite Hc1 in Hbound, Hclean.
  destruct (reflection_loop env response nbfile client client_model
              (range n) history w1) as [[[b|]|e] w2]; cbn [fst snd] in *.
  - now destruct (Hret b).
  - rewrite Hfs, Hfile.
    split; [reflexivity|]. split; [intros p Hp; auto|].
    split; [exists more; now rewrite Hwrites, Hw1, <- app_assoc|].
    split; [lia|]. split; [intros H; specialize (Hclean H); lia|].
    now left.
  - rewrite report_exception_run. cbn [fst snd]. rewrite !llm_calls_log.
    rewrite !writes_log. simpl. rewrite !app_nil_r. rewrite Hfs.
    split; [exact Hfile|]. split; [intros p Hp; auto|].
    split; [exists more; now rewrite Hwrites, Hw1, <- app_assoc|].
    split; [lia|]. split; [intros H; specialize (Hclean H); lia|].
    now right.
Qed.

(** The same for a whole run, told from its trace: the first LLM call was
    answered with [response]. *)
Lemma run_with_block (base_folder model : string) (n : Z)
    (files : gmap string node) (prompt response group1 : string) :
  well_formed files = true ->
  let run := create_lab_notebook env base_folder model n (init_world files) in
  head (llm_calls run.2) = Some (prompt, Some response) ->
  Regex.re_search response = Some group1 ->
  let block := strip group1 in
  fs run.2 !! notebook_file_of base_folder = Some (File block)
  /\ (exists more,
        writes run.2 = (notebook_file_of base_folder, block) :: more
        /\ Forall (fun pc => pc = (notebook_file_of base_folder, block)) more)
  /\ length (llm_calls run.2) <= 1 + Z.to_nat n
  /\ (universal_newlines block = block -> length (llm_calls run.2) <= 2)
  /\ (run.1 = Ok true \/ run.1 = Ok false).
Proof.
  intros Hwf run Hhead Hsearch block. subst run.
  apply first_call_inv in Hhead
    as (w1 & inputs & w2 & client & cm & Hsetup & _ & Hgather & Hfs & Hc & Hw
        & Hclient & -> & Hreply & ->).
  destruct (setup_spec base_folder (init_world files) w1 Hwf Hsetup)
    as (_ & Hdir & Hnone).
  destruct (get_response_from_llm env (now w2) (combined_prompt_of inputs)
              client cm notebook_system_message_template [])
    as [[response' history]|e]; [|discriminate].
  injection Hreply as <-.
  set (w3 := log (EvLLM (combined_prompt_of inputs) (Some response)) w2).
  destruct (from_first_answer_with_block base_folder n client cm response
              group1 history w3 Hsearch)
    as (Hfile & _ & (more & Hwrites & Hmore) & Hbound & Hclean & Hresult).
  { simpl. now rewrite Hfs. }
  { simpl. now rewrite Hfs. }
  assert (llm_calls w3 = [(combined_prompt_of inputs, Some response)]) as Hc3
    by (subst w3; now rewrite llm_calls_log, Hc).
  assert (writes w3 = []) as Hw3
    by (subst w3; now rewrite writes_log, Hw).
  rewrite Hc3 in Hbound, Hclean. rewrite Hw3 in Hwrites. simpl in *.
  split; [exact Hfile|]. split; [now exists more|].
  split; [exact Hbound|]. split; [exact Hclean | exact Hresult].
Qed.

End BlockRuns.

(** The LLM calls of a run: one for the first prompt and at most one per
    index of the loop. *)
Lemma run_calls_bound (env : collaborators) (base_folder model : string)
    (n : Z) (files : gmap string node) :
  length (llm_calls (create_lab_notebook env base_folder model n
                       (init_world files)).2) <= 1 + Z.to_nat n.
Proof.
  destruct (llm_calls _) as [|[prompt reply] rest] eqn:Hcalls; [simpl; lia|].
  rewrite <- Hcalls.
  assert (head (llm_calls (create_lab_notebook env base_folder model n
                             (init_world files)).2) = Some (prompt, reply))
    as Hhead by (now rewrite Hcalls).
  apply first_call_inv in Hhead
    as (w1 & inputs & w2 & client & cm & _ & _ & _ & _ & Hc & _ & _ & -> & _
        & ->).
  set (w3 := log (EvLLM (combined_prompt_of inputs) reply) w2).
  assert (length (llm_calls w3) = 1) as Hc3
    by (subst w3; now rewrite llm_calls_log, Hc).
  destruct (get_response_from_llm env (now w2) (combined_prompt_of inputs)
              client cm notebook_system_message_template [])
    as [[response history]|e].
  - rewrite from_first_answer_run.
    destruct (Regex.re_search response) as [group1|]; [|simpl; lia].
    pose proof (calls_after_save (notebook_file_of base_folder)
                  (PyStr.strip group1) w3) as Hs.
    destruct (save_notebook _ _ w3) as [[[]|e] w4]; simpl in Hs.
    + pose proof (loop_calls env response (notebook_file_of base_folder)
                    client cm (range n) history w4) as Hl.
      unfold range in Hl at 2. rewrite length_seq, Hs, Hc3 in Hl.
      destruct (reflection_loop _ _ _ _ _ _ _ w4) as [[[b|]|e] w5];
        cbn [fst snd] in *; try lia.
      rewrite report_exception_run. cbn [fst snd].
      rewrite !llm_calls_log. simpl. rewrite !app_nil_r. lia.
    + rewrite report_exception_run. cbn [fst snd].
      rewrite !llm_calls_log. simpl. rewrite !app_nil_r, Hs. lia.
  - unfold from_first_answer, try_except, bind, lift_outcome.
    cbn [any_exception]. rewrite report_exception_run. cbn [fst snd].
    rewrite !llm_calls_log. simpl. rewrite !app_nil_r. lia.
Qed.

(** * The claims *)

Section Claims.
Import PyStr.

(** Once the setup has gone through, every exception is caught: the call
    returns a boolean. *)
Lemma create_returns_after_setup (env : collaborators)
    (base_folder model : string) (n : Z) (w w1 : world) :
  setup_notebook_folder base_folder w = (Ok tt, w1) ->
  exists b w', create_lab_notebook env base_folder model n w = (Ok b, w').
Proof.
  intros H. unfold create_lab_notebook, bind, try_except. rewrite H.
  destruct (try_body env base_folder model n w1) as [[b|e] w2]; [now eauto|].
  simpl. rewrite report_exception_run. eauto.
Qed.

(** C1 (the code departs from the claim).  The claim: whatever the
    filesystem and the collaborators do, [create_lab_notebook] returns a
    boolean and lets no exception out.  At this input it does not: the
    project folder has no [figures] directory, [shutil.copytree] on line
    151 raises [FileNotFoundError], and since lines 141-151 stand before the
    [try], the exception leaves the function, whatever the collaborators
    are. *)
Theorem create_lab_notebook_raises_without_figures
    (env : collaborators) (model : string) (n : Z) :
  (create_lab_notebook env "run" model n
     (init_world Demo.project_without_figures)).1
  = Raise FileNotFoundError.
Proof. vm_compute. reflexivity. Qed.

(** C3 (the code departs from the claim).  The claim: each reflection pass
    saves the block of its own reflection answer.  Here the first answer
    carries the block "# Notebook v1" and the answer of the one reflection
    pass carries "# Notebook v2"; line 313 searches [response], the first
    answer, again, so the pass extracts "# Notebook v1", finds the file
    unchanged and stops: "# Notebook v2" is never saved. *)
Theorem reflection_pass_ignores_its_own_answer :
  let env := Demo.scripted true [Some (Demo.fenced "# Notebook v1");
                                 Some (Demo.fenced "# Notebook v2")] in
  let run := create_lab_notebook env "run" "gpt-4o-2024-05-13" 1
               (init_world Demo.project) in
  run.1 = Ok true
  /\ map snd (llm_calls run.2)
     = [Some (Demo.fenced "# Notebook v1"); Some (Demo.fenced "# Notebook v2")]
  /\ writes run.2 = [("run/notebook/lab_notebook.md", "# Notebook v1")]
  /\ fs run.2 !! "run/notebook/lab_notebook.md" = Some (File "# Notebook v1").
Proof. vm_compute. repeat split; reflexivity. Qed.

(** The combined prompt built from the gathered inputs is the prompt of
    an LLM call of the run. *)
Lemma prompt_is_sent (env : collaborators) (base_folder model : string)
    (n : Z) (w w1 w2 : world) (inputs : prompt_inputs) (client : nat)
    (client_model : string) :
  setup_notebook_folder base_folder w = (Ok tt, w1) ->
  gather_inputs env base_folder w1 = (Ok inputs, w2) ->
  create_client env (now w2) model = Ok (client, client_model) ->
  exists reply,
    In (EvLLM (combined_prompt_of inputs) reply)
       (trace (create_lab_notebook env base_folder model n w).2).
Proof.
  intros H1 H2 H3. rewrite (create_unfold env _ model n _ _ _ _ _ _ H1 H2 H3).
  cbv zeta.
  set (answer := get_response_from_llm env (now w2) (combined_prompt_of inputs)
                   client client_model notebook_system_message_template []).
  exists (reply_of answer).
  destruct (keeps_from_first_answer env base_folder n client client_model
              answer
              (log (EvLLM (combined_prompt_of inputs) (reply_of answer)) w2))
    as [_ (added & -> & _)].
  apply in_or_app. right. now left.
Qed.

(** C2 (as stated, false).  The project folder below has a [figures]
    directory and no [auto_plot_aggregator.py]; what stands for the missing
    script in the prompt inputs is the text "No aggregator script found.",
    not the empty string. *)
Lemma missing_aggregator_is_not_empty :
  let env := Demo.scripted true [] in
  let w1 := (setup_notebook_folder "run" (init_world Demo.project)).2 in
  fs w1 !! Path.join "run" "auto_plot_aggregator.py" = None
  /\ match (gather_inputs env "run" w1).1 with
     | Ok inputs =>
         aggregator_code inputs = "No aggregator script found."
         /\ aggregator_code inputs <> EmptyString
     | Raise _ => False
     end.
Proof. vm_compute. repeat split. discriminate. Qed.

(** C2 (amended).  Once the setup has gone through, the call returns a
    boolean, and in the inputs of the prompt: the idea text is the empty
    string when neither [research_idea.md] nor [idea.md] is there; a summary
    whose file is absent is the empty object; an absent
    [auto_plot_aggregator.py] is replaced by the text "No aggregator script
    found.".  (What an absent [figures] directory does is left out here.) *)
Theorem missing_inputs_get_defaults (env : collaborators)
    (base_folder model : string) (n : Z) (w w1 w2 : world)
    (inputs : prompt_inputs) :
  setup_notebook_folder base_folder w = (Ok tt, w1) ->
  gather_inputs env base_folder w1 = (Ok inputs, w2) ->
  (exists b w', create_lab_notebook env base_folder model n w = (Ok b, w'))
  /\ (forall client client_model,
        create_client env (now w2) model = Ok (client, client_model) ->
        exists reply,
          In (EvLLM (combined_prompt_of inputs) reply)
             (trace (create_lab_notebook env base_folder model n w).2))
  /\ (fs w1 !! Path.join base_folder "research_idea.md" = None ->
      fs w1 !! Path.join base_folder "idea.md" = None ->
      idea_text inputs = EmptyString)
  /\ (fs w1 !! Path.join base_folder "auto_plot_aggregator.py" = None ->
      aggregator_code inputs = "No aggregator script found.")
  /\ exists loaded,
       combined_summaries_str inputs = json_dumps env (JObject loaded)
       /\ forall fname key,
            In (fname, key) summary_files ->
            fs w1 !! Path.join base_folder fname = None ->
            dict_get key loaded = Some empty_object.
Proof.
  intros Hsetup Hgather.
  split; [now apply (create_returns_after_setup env _ model n _ _ Hsetup)|].
  split.
  { intros client cm Hc.
    now apply (prompt_is_sent env _ model n _ _ _ _ _ _ Hsetup Hgather Hc). }
  apply gather_inv in Hgather
    as (wa & wb & wc & wd & we & loaded & Hidea & Hsum & Hstr & _ & _ & Hagg
        & _ & Fa & Fb & Fc & Fd & Fe).
  split; [intros H1 H2; now apply (load_idea_text_absent _ _ _ _ H1 H2 Hidea)|].
  split.
  { intros H. rewrite <- Fd in H.
    now apply (load_aggregator_code_absent _ _ _ _ H Hagg). }
  exists loaded. split; [exact Hstr|].
  apply load_summaries_three in Hsum as (-> & _ & _).
  intros fname key Hin Hnone. rewrite Fa.
  assert (summary_state_of env (fs w1) (Path.join base_folder fname)
          = SummaryAbsent) as Hs
    by (unfold summary_state_of; now rewrite Hnone).
  destruct Hin as [[= <- <-]|[[= <- <-]|[[= <- <-]|[]]]];
    simpl; now rewrite Hs.
Qed.

(** The amended C2 at a concrete folder: no idea file, no aggregator script
    and no summary file. *)
Lemma missing_inputs_get_defaults_witness :
  let env := Demo.scripted true [] in
  exists w1 w2 inputs,
    setup_notebook_folder "bare" (init_world Demo.bare_project) = (Ok tt, w1)
    /\ gather_inputs env "bare" w1 = (Ok inputs, w2)
    /\ idea_text inputs = EmptyString
    /\ aggregator_code inputs = "No aggregator script found."
    /\ (exists loaded,
          combined_summaries_str inputs = json_dumps env (JObject loaded)
          /\ dict_get "BASELINE_SUMMARY" loaded = Some empty_object)
    /\ (create_lab_notebook env "bare" "gpt-4o-2024-05-13" 3
          (init_world Demo.bare_project)).1 = Ok false.
Proof.
  intros env.
  eexists _, _, _.
  split; [vm_compute; reflexivity|].
  split; [vm_compute; reflexivity|].
  match goal with
  | |- idea_text ?i = _ /\ _ =>
      destruct (missing_inputs_get_defaults env "bare" "gpt-4o-2024-05-13" 3
                  (init_world Demo.bare_project) _ _ i
                  ltac:(vm_compute; reflexivity) ltac:(vm_compute; reflexivity))
        as (_ & _ & Hidea & Hagg & loaded & Hstr & Hloaded)
  end.
  split; [apply Hidea; vm_compute; reflexivity|].
  split; [apply Hagg; vm_compute; reflexivity|].
  split.
  - exists loaded. split; [exact Hstr|].
    apply (Hloaded "logs/0-run/baseline_summary.json");
      [simpl; tauto | vm_compute; reflexivity].
  - vm_compute. reflexivity.
Defined.

(** C7.  The setup removes the notebook folder when it is there and
    creates it again before the script reads anything: when it has gone
    through, the folder is a directory without [lab_notebook.md], so the
    existence check of line 193 fails and the current notebook among the
    prompt inputs is the empty string.  Hence in every run that gets as far
    as asking the LLM, the text put in the [current_notebook] field of the
    first prompt is the empty string, whatever notebook was there before.
    (The map of files is a filesystem: every entry sits in directories.) *)
Theorem initial_prompt_has_empty_notebook (env : collaborators)
    (base_folder model : string) (n : Z) (files : gmap string node) :
  well_formed files = true ->
  (forall w1,
     setup_notebook_folder base_folder (init_world files) = (Ok tt, w1) ->
     fs w1 !! notebook_folder_of base_folder = Some Dir
     /\ fs w1 !! notebook_file_of base_folder = None
     /\ forall inputs w2,
          gather_inputs env base_folder w1 = (Ok inputs, w2) ->
          current_notebook inputs = EmptyString)
  /\ (forall prompt reply,
        head (llm_calls (create_lab_notebook env base_folder model n
                           (init_world files)).2) = Some (prompt, reply) ->
        exists w1 inputs w2,
          setup_notebook_folder base_folder (init_world files) = (Ok tt, w1)
          /\ gather_inputs env base_folder w1 = (Ok inputs, w2)
          /\ prompt = notebook_prompt_format
                        (idea_text inputs) (combined_summaries_str inputs)
                        (aggregator_code inputs)
                        (join ", " (plot_names inputs))
                        (plot_descriptions_str inputs) EmptyString).
Proof.
  intros Hwf.
  assert (forall w1,
            setup_notebook_folder base_folder (init_world files) = (Ok tt, w1) ->
            fs w1 !! notebook_folder_of base_folder = Some Dir
            /\ fs w1 !! notebook_file_of base_folder = None
            /\ forall inputs w2,
                 gather_inputs env base_folder w1 = (Ok inputs, w2) ->
                 current_notebook inputs = EmptyString) as Hsetup.
  { intros w1 Hs.
    destruct (setup_spec base_folder (init_world files) w1 Hwf Hs)
      as (_ & Hdir & Hnone).
    split; [exact Hdir|]. split; [exact Hnone|].
    intros inputs w2 Hgather. apply gather_inv in Hgather
      as (wa & wb & wc & wd & we & loaded & _ & _ & _ & Hcur & _ & _ & _
          & _ & Fb & _).
    rewrite <- Fb in Hnone.
    exact (read_current_notebook_absent _ _ _ _ Hnone Hcur). }
  split; [exact Hsetup|].
  intros prompt reply Hhead.
  apply first_call_inv in Hhead
    as (w1 & inputs & w2 & client & cm & Hs & _ & Hgather & _ & _ & _ & _
        & -> & _).
  destruct (Hsetup w1 Hs) as (_ & _ & Hcurrent).
  exists w1, inputs, w2. split; [exact Hs|]. split; [exact Hgather|].
  unfold combined_prompt_of. now rewrite (Hcurrent inputs w2 Hgather).
Qed.

(** C7 at a concrete run: the project folder holds a stale
    [notebook/lab_notebook.md], and the first prompt carries none of it. *)
Lemma initial_prompt_has_empty_notebook_witness :
  let env := Demo.scripted true [Some (Demo.fenced "# Notebook v1")] in
  Demo.project !! "run/notebook/lab_notebook.md" = Some (File "stale notebook")
  /\ fs (setup_notebook_folder "run" (init_world Demo.project)).2
       !! notebook_file_of "run" = None
  /\ exists prompt inputs,
       head (llm_calls (create_lab_notebook env "run" "gpt-4o-2024-05-13" 0
                          (init_world Demo.project)).2)
       = Some (prompt, Some (Demo.fenced "# Notebook v1"))
       /\ prompt = notebook_prompt_format
                     (idea_text inputs) (combined_summaries_str inputs)
                     (aggregator_code inputs) (join ", " (plot_names inputs))
                     (plot_descriptions_str inputs) EmptyString.
Proof.
  intros env. split; [vm_compute; reflexivity|].
  destruct (initial_prompt_has_empty_notebook env "run" "gpt-4o-2024-05-13" 0
              Demo.project ltac:(vm_compute; reflexivity))
    as [Hsetup Hprompt].
  split.
  - apply (Hsetup (setup_notebook_folder "run" (init_world Demo.project)).2).
    vm_compute. reflexivity.
  - set (run := create_lab_notebook env "run" "gpt-4o-2024-05-13" 0
                  (init_world Demo.project)) in *.
    set (prompt := match head (llm_calls run.2) with
                   | Some (p, _) => p
                   | None => EmptyString
                   end).
    assert (head (llm_calls run.2)
            = Some (prompt, Some (Demo.fenced "# Notebook v1"))) as Hhead
      by (vm_compute; reflexivity).
    destruct (Hprompt prompt _ Hhead) as (w1 & inputs & w2 & _ & _ & Hp).
    exists prompt, inputs. split; [exact Hhead | exact Hp].
Defined.

(** C8.  For each of the three summary files: when the file holds text
    that is not valid JSON, its turn of the loop prints the warning, records
    the empty object and returns normally; when the file is absent, the turn
    records the empty object.  When each of the three files is absent, valid
    or invalid, the whole loop returns the dictionary of the three keys, with
    the empty object for every absent or invalid file, the parsed value for
    every valid one, and one warning for every invalid one. *)
Theorem summaries_fall_back_to_empty_object (env : collaborators)
    (base_folder : string) (w : world) :
  let state fname :=
    summary_state_of env (fs w) (Path.join base_folder fname) in
  (forall fname key loaded,
     state fname = SummaryInvalid ->
     load_summary env base_folder fname key loaded w
     = (Ok (dict_set key empty_object loaded),
        log (EvPrint (summary_warning fname key)) w))
  /\ (forall fname key loaded,
        state fname = SummaryAbsent ->
        load_summary env base_folder fname key loaded w
        = (Ok (dict_set key empty_object loaded), w))
  /\ ((forall fname key, In (fname, key) summary_files ->
                         state fname <> SummaryOther) ->
      exists loaded w',
        load_summaries env base_folder summary_files [] w = (Ok loaded, w')
        /\ fs w' = fs w
        /\ forall fname key,
             In (fname, key) summary_files ->
             (state fname = SummaryAbsent \/ state fname = SummaryInvalid ->
              dict_get key loaded = Some empty_object)
             /\ (forall value, state fname = SummaryValid value ->
                               dict_get key loaded = Some value)
             /\ (state fname = SummaryInvalid ->
                 In (EvPrint (summary_warning fname key)) (trace w'))).
Proof.
  intros state. split; [|split].
  - intros fname key loaded Hs. rewrite load_summary_run. fold (state fname).
    now rewrite Hs.
  - intros fname key loaded Hs. rewrite load_summary_run. fold (state fname).
    now rewrite Hs.
  - intros Hall.
    assert (Forall (fun fk => summary_state_of env (fs w)
                                (Path.join base_folder fk.1) <> SummaryOther)
              summary_files) as Hstates.
    { apply Forall_forall. intros [fname key] Hin. apply (Hall fname key).
      now apply list_elem_of_In. }
    destruct (load_summaries_run env base_folder summary_files [] w Hstates)
      as (w' & Hrun & Hfs & _ & _).
    eexists _, w'. split; [exact Hrun|]. split; [exact Hfs|].
    destruct (load_summaries_three env _ _ _ _ Hrun) as (Hloaded & _ & Hwarn).
    cbv zeta in Hloaded. rewrite Hloaded. unfold state.
    intros fname key Hin. split; [|split].
    + intros Hs.
      destruct Hin as [[= <- <-]|[[= <- <-]|[[= <- <-]|[]]]];
        destruct Hs as [Hs|Hs]; rewrite Hs; reflexivity.
    + intros value Hs.
      destruct Hin as [[= <- <-]|[[= <- <-]|[[= <- <-]|[]]]];
        rewrite Hs; reflexivity.
    + intros Hs. now apply Hwarn.
Qed.

(** C8 at a concrete folder: the baseline summary is valid, the research
    summary is broken, the ablation summary is absent. *)
Lemma summaries_fall_back_to_empty_object_witness :
  let env := Demo.scripted true [] in
  let w := init_world Demo.project in
  let research := "logs/0-run/research_summary.json" in
  let ablation := "logs/0-run/ablation_summary.json" in
  summary_state_of env (fs w) (Path.join "run" research) = SummaryInvalid
  /\ summary_state_of env (fs w) (Path.join "run" ablation) = SummaryAbsent
  /\ load_summary env "run" research "RESEARCH_SUMMARY" [] w
     = (Ok [("RESEARCH_SUMMARY", empty_object)],
        log (EvPrint (summary_warning research "RESEARCH_SUMMARY")) w)
  /\ load_summary env "run" ablation "ABLATION_SUMMARY" [] w
     = (Ok [("ABLATION_SUMMARY", empty_object)], w)
  /\ exists loaded w',
       load_summaries env "run" summary_files [] w = (Ok loaded, w')
       /\ dict_get "RESEARCH_SUMMARY" loaded = Some empty_object
       /\ dict_get "ABLATION_SUMMARY" loaded = Some empty_object
       /\ In (EvPrint (summary_warning research "RESEARCH_SUMMARY")) (trace w').
Proof.
  intros env w research ablation.
  assert (summary_state_of env (fs w) (Path.join "run" research)
          = SummaryInvalid) as Hinvalid by (vm_compute; reflexivity).
  assert (summary_state_of env (fs w) (Path.join "run" ablation)
          = SummaryAbsent) as Habsent by (vm_compute; reflexivity).
  split; [exact Hinvalid|]. split; [exact Habsent|].
  destruct (summaries_fall_back_to_empty_object env "run" w)
    as (Hbroken & Hmissing & Hloop).
  split; [exact (Hbroken research "RESEARCH_SUMMARY" [] Hinvalid)|].
  split; [exact (Hmissing ablation "ABLATION_SUMMARY" [] Habsent)|].
  destruct Hloop as (loaded & w' & Hrun & _ & Hkeys).
  { intros fname key [[= <- <-]|[[= <- <-]|[[= <- <-]|[]]]];
      vm_compute; discriminate. }
  exists loaded, w'. split; [exact Hrun|].
  destruct (Hkeys research "RESEARCH_SUMMARY") as (Hr & _ & Hwarn);
    [simpl; tauto|].
  destruct (Hkeys ablation "ABLATION_SUMMARY") as (Ha & _ & _);
    [simpl; tauto|].
  split; [apply Hr; right; exact Hinvalid|].
  split; [apply Ha; left; exact Habsent|].
  apply Hwarn. exact Hinvalid.
Defined.

(** C9 (as stated, false).  When the VLM cannot be reached the two plots
    of the folder are listed, but what stands for their descriptions is the
    one text "No descriptions available.": no plot name is paired with a
    description. *)
Lemma vlm_failure_leaves_plots_undescribed :
  let env := Demo.scripted false [] in
  let w1 := (setup_notebook_folder "run" (init_world Demo.project)).2 in
  match (gather_inputs env "run" w1).1 with
  | Ok inputs =>
      plot_names inputs = ["ACC.PNG"; "loss.png"]
      /\ plot_descriptions_str inputs = "No descriptions available."
      /\ ~ exists desc : string -> string,
             plot_descriptions_str inputs
             = join NEWLINE
                 (map (fun pf => pf +:+ ": " +:+ desc pf) (plot_names inputs))
  | Raise _ => False
  end.
Proof.
  vm_compute. split; [reflexivity|]. split; [reflexivity|].
  intros [desc H]. discriminate H.
Qed.

(** C9 (amended).  The plot names are exactly the entries of the figures
    directory whose lower-cased name ends in ".png", in the order of the
    listing; the prompt lists them joined by ", ".  When the description
    step raises no exception, the description text has one line per plot
    name, in the same order, pairing the name with what the VLM said about
    that plot; when it raises, the description text is "No descriptions
    available." *)
Theorem plot_list_and_descriptions (env : collaborators)
    (base_folder : string) (w w' : world) (inputs : prompt_inputs) :
  gather_inputs env base_folder w = (Ok inputs, w') ->
  fs w !! figures_dir_of base_folder = Some Dir ->
  let figures_dir := figures_dir_of base_folder in
  plot_names inputs = List.filter is_png (FS.entry_names figures_dir (fs w))
  /\ (forall name,
        In name (plot_names inputs) <->
        In name (FS.entry_names figures_dir (fs w))
        /\ endswith (lower name) ".png" = true)
  /\ combined_prompt_of inputs
     = notebook_prompt_format
         (idea_text inputs) (combined_summaries_str inputs)
         (aggregator_code inputs) (join ", " (plot_names inputs))
         (plot_descriptions_str inputs) (current_notebook inputs)
  /\ ((exists e wx wy,
         generate_descriptions env figures_dir (plot_names inputs) wx
         = (Raise e, wy)
         /\ fs wx = fs w
         /\ plot_descriptions_str inputs = NO_DESCRIPTIONS)
      \/ (exists desc : string -> string,
            plot_descriptions_str inputs
            = join NEWLINE
                (map (fun pf => pf +:+ ": " +:+ desc pf) (plot_names inputs))
            /\ forall pf, In pf (plot_names inputs) ->
                          reviewed env figures_dir pf (desc pf))).
Proof.
  intros Hgather Hdir figures_dir.
  apply gather_inv in Hgather
    as (wa & wb & wc & wd & we & loaded & _ & _ & _ & _ & Hplots & _ & Hdesc
        & _ & _ & Fc & _ & Fe).
  rewrite gather_plot_names_run in Hplots by (now rewrite Fc).
  injection Hplots as Hnames _. rewrite Fc in Hnames. symmetry in Hnames.
  split; [exact Hnames|].
  split.
  { intros name. rewrite Hnames.
    change (endswith (lower name) ".png") with (is_png name).
    apply filter_In. }
  split; [reflexivity|].
  destruct (figures_dir_shape base_folder) as [Hne Hs].
  apply describe_plots_cases in Hdesc as [(e & wx & Hgen & Htext)|Hok].
  - left. now exists e, we, wx.
  - right. destruct Hok as (desc & _ & Htext & Hrev). now exists desc.
  - intros pf Hin. rewrite Hnames in Hin. apply filter_In in Hin as [Hin _].
    apply entry_names_present in Hin as [Hname Hsome].
    rewrite Fe. fold figures_dir. rewrite join_name; assumption.
Qed.

(** The amended C9 at a concrete folder: two plots among three entries,
    each described on its own line. *)
Lemma plot_list_and_descriptions_witness :
  let env := Demo.scripted true [] in
  exists w1 w2 inputs,
    setup_notebook_folder "run" (init_world Demo.project) = (Ok tt, w1)
    /\ gather_inputs env "run" w1 = (Ok inputs, w2)
    /\ fs w1 !! "run/figures" = Some Dir
    /\ plot_names inputs = ["ACC.PNG"; "loss.png"]
    /\ forall name,
         In name (plot_names inputs) <->
         In name (FS.entry_names "run/figures" (fs w1))
         /\ endswith (lower name) ".png" = true.
Proof.
  intros env. eexists _, _, _.
  split; [vm_compute; reflexivity|].
  split; [vm_compute; reflexivity|].
  split; [vm_compute; reflexivity|].
  split; [vm_compute; reflexivity|].
  match goal with
  | |- forall name, In name (plot_names ?i) <->
                    In name (FS.entry_names _ (fs ?w)) /\ _ =>
      destruct (plot_list_and_descriptions env "run" w
                  (gather_inputs env "run" w).2 i
                  ltac:(vm_compute; reflexivity) ltac:(vm_compute; reflexivity))
        as (_ & Hiff & _)
  end.
  exact Hiff.
Defined.

(** C4.  The loop over [range(N)] sends at most [N] reflection prompts
    (one per iteration), from any world and for any [N]; a whole call makes
    at most [1 + N] LLM calls.  And an iteration is the last one as soon as
    its reflection answer contains "I am done", or the content extracted in
    it equals what it read from the notebook file: the loop is left with no
    further prompt and no save. *)
Theorem reflection_loop_is_bounded_and_exits_early (env : collaborators)
    (response notebook_file : string) (client : nat) (client_model : string) :
  (forall (n : Z) (history : msg_history) (w : world),
     length (llm_calls
               (reflection_loop env response notebook_file client client_model
                  (range n) history w).2)
     <= length (llm_calls w) + Z.to_nat n)
  /\ (forall (base_folder model : string) (n : Z) (files : gmap string node),
        length (llm_calls (create_lab_notebook env base_folder model n
                             (init_world files)).2) <= 1 + Z.to_nat n)
  /\ (forall (i : nat) (rest : list nat) (history history' : msg_history)
             (w : world) (current reply : string),
        FS.read_text notebook_file w = (Ok current, w) ->
        get_response_from_llm env (now w) reflection_prompt client client_model
          notebook_system_message_template history = Ok (reply, history') ->
        contains DONE_SENTINEL reply = true
        \/ (exists group1, Regex.re_search response = Some group1
                           /\ strip group1 = current) ->
        exists w',
          reflection_loop env response notebook_file client client_model
            (i :: rest) history w = (Ok None, w')
          /\ llm_calls w' = llm_calls w ++ [(reflection_prompt, Some reply)]
          /\ writes w' = writes w
          /\ fs w' = fs w).
Proof.
  split; [|split].
  - intros n history w.
    pose proof (loop_calls env response notebook_file client client_model
                  (range n) history w) as H.
    unfold range in H at 2. now rewrite length_seq in H.
  - intros base_folder model n files. apply run_calls_bound.
  - intros i rest history history' w current reply.
    apply loop_exits_early.
Qed.

(** C4 at concrete inputs: three iterations are allowed, the file holds "A"
    and so does the block of the first answer; the first reflection answer
    says it is done, and the loop is over after that one prompt. *)
Lemma reflection_loop_is_bounded_and_exits_early_witness :
  let env := Demo.scripted true [Some "Nothing to add. I am done."] in
  exists w',
    reflection_loop env (Demo.fenced "A") "nb/lab_notebook.md" 1
      "gpt-4o-2024-05-13" (range 3) [] Demo.notebook_holding_A = (Ok None, w')
    /\ llm_calls w' = [(reflection_prompt, Some "Nothing to add. I am done.")]
    /\ writes w' = []
    /\ fs w' = fs Demo.notebook_holding_A.
Proof.
  intros env.
  destruct (reflection_loop_is_bounded_and_exits_early env (Demo.fenced "A")
              "nb/lab_notebook.md" 1 "gpt-4o-2024-05-13") as (_ & _ & Hexit).
  eapply (Hexit 0 [1; 2] [] _ Demo.notebook_holding_A "A"
            "Nothing to add. I am done.").
  - vm_compute. reflexivity.
  - vm_compute. reflexivity.
  - left. vm_compute. reflexivity.
Defined.

(** C5.  When the answer contains a fenced block, the search returns the
    inside of the first one (leftmost opener, nearest closer), and what the
    script keeps is that inside without its leading and trailing whitespace:
    the inside is the kept text between two runs of whitespace, and the kept
    text neither starts nor ends with whitespace.  When the first answer
    contains no fenced block, [create_lab_notebook] returns [False]. *)
Theorem fenced_block_extraction :
  (forall s : string,
     has_fenced_block s <-> exists group1, Regex.re_search s = Some group1)
  /\ (forall pre inner post : string,
        let s :=
          pre +:+ Regex.FENCE_OPEN +:+ inner +:+ Regex.FENCE_CLOSE +:+ post in
        (forall i, i < String.length pre ->
                   ~ occurs_at Regex.FENCE_OPEN s i) ->
        (forall i, i < String.length inner ->
                   ~ occurs_at Regex.FENCE_CLOSE
                       (inner +:+ Regex.FENCE_CLOSE +:+ post) i) ->
        Regex.re_search s = Some inner
        /\ exists l r,
             inner = l +:+ strip inner +:+ r
             /\ all_space l = true /\ all_space r = true
             /\ not_space (first_char (strip inner))
             /\ not_space (last_char (strip inner)))
  /\ (forall (env : collaborators) (base_folder model : string) (n : Z)
             (files : gmap string node) (prompt response : string),
        head (llm_calls (create_lab_notebook env base_folder model n
                           (init_world files)).2)
        = Some (prompt, Some response) ->
        ~ has_fenced_block response ->
        (create_lab_notebook env base_folder model n (init_world files)).1
        = Ok false).
Proof.
  split; [|split].
  - intros s. split; [apply re_search_complete|].
    intros [g Hg]. apply re_search_Some in Hg as (pre & post & ->).
    now exists pre, g, post.
  - intros pre inner post s Hopen Hclose.
    split; [now apply re_search_first_block | apply strip_spec].
  - intros env base_folder model n files prompt response Hhead Hno.
    apply first_call_inv in Hhead
      as (w1 & inputs & w2 & client & cm & _ & _ & _ & _ & _ & _ & _ & ->
          & Hreply & ->).
    destruct (get_response_from_llm env (now w2) (combined_prompt_of inputs)
                client cm notebook_system_message_template [])
      as [[response' history]|e]; [|discriminate].
    injection Hreply as <-.
    rewrite from_first_answer_run. now rewrite (re_search_None _ Hno).
Qed.

(** C5 at concrete answers: of two blocks the first one is extracted, and
    an answer without a block makes the call return [False]. *)
Lemma fenced_block_extraction_witness :
  let env := Demo.scripted true [Some "I cannot write that notebook."] in
  Regex.re_search
    ("Here: ```markdown  # Notes ` one  ``` and ```markdown two```")
  = Some "  # Notes ` one  "
  /\ strip "  # Notes ` one  " = "# Notes ` one"
  /\ (create_lab_notebook env "run" "gpt-4o-2024-05-13" 3
        (init_world Demo.project)).1 = Ok false.
Proof.
  intros env. destruct fenced_block_extraction as (Hiff & Hfirst & Hnone).
  split; [|split; [vm_compute; reflexivity|]].
  - apply (Hfirst "Here: " "  # Notes ` one  " " and ```markdown two```").
    + intros i Hi Hocc.
      repeat (destruct i as [|i];
              [apply occurs_at_0 in Hocc; vm_compute in Hocc; discriminate
              |apply occurs_at_S in Hocc]); simpl in Hi; lia.
    + intros i Hi Hocc.
      repeat (destruct i as [|i];
              [apply occurs_at_0 in Hocc; vm_compute in Hocc; discriminate
              |apply occurs_at_S in Hocc]); simpl in Hi; lia.
  - eapply (Hnone env "run" "gpt-4o-2024-05-13" 3%Z Demo.project _
              "I cannot write that notebook.").
    + vm_compute. reflexivity.
    + intros Hblock. apply Hiff in Hblock as [g Hg].
      vm_compute in Hg. discriminate.
Defined.




(** C10.  The save of lines 273-279 goes through whenever the
    directory of the notebook file exists and the file's path is not itself a
    directory; the filesystem is then the old one with the notebook file
    holding exactly the new content, whatever it held before, and the save is
    recorded.  Read off any call of the save: after a return the file holds
    the new content and no other path has changed, after an exception nothing
    has changed.  Over a whole call, from the end of the setup on,
    [notebook/lab_notebook.md] is the only path whose content changes and the
    only path that is written; and when the first answer carries a block, the
    first save does happen, on that file, and the file ends up holding what
    was saved. *)
Theorem saves_overwrite_the_single_notebook_file :
  (forall (notebook_file content folder : string) (w : world),
     last (Path.parents notebook_file) = Some folder ->
     fs w !! folder = Some Dir ->
     fs w !! notebook_file <> Some Dir ->
     exists w',
       save_notebook notebook_file content w = (Ok tt, w')
       /\ fs w' = <[notebook_file := File content]> (fs w)
       /\ writes w' = writes w ++ [(notebook_file, content)])
  /\ (forall (notebook_file content : string) (w w' : world)
             (o : outcome unit),
        save_notebook notebook_file content w = (o, w') ->
        match o with
        | Ok _ =>
            fs w' !! notebook_file = Some (File content)
            /\ (forall p, p <> notebook_file -> fs w' !! p = fs w !! p)
            /\ writes w' = writes w ++ [(notebook_file, content)]
        | Raise _ => w' = w
        end)
  /\ (forall (env : collaborators) (base_folder model : string) (n : Z)
             (w w1 : world),
        setup_notebook_folder base_folder w = (Ok tt, w1) ->
        let run := create_lab_notebook env base_folder model n w in
        (forall p, p <> notebook_file_of base_folder ->
                   fs run.2 !! p = fs w1 !! p)
        /\ exists more,
             writes run.2 = writes w1 ++ more
             /\ Forall (fun pc => pc.1 = notebook_file_of base_folder) more)
  /\ (forall (env : collaborators) (base_folder model : string) (n : Z)
             (files : gmap string node) (prompt response group1 : string),
        well_formed files = true ->
        let run :=
          create_lab_notebook env base_folder model n (init_world files) in
        head (llm_calls run.2) = Some (prompt, Some response) ->
        Regex.re_search response = Some group1 ->
        exists more,
          writes run.2 = (notebook_file_of base_folder, strip group1) :: more
          /\ Forall (fun pc => pc.1 = notebook_file_of base_folder) more
          /\ exists content,
               last (writes run.2)
               = Some (notebook_file_of base_folder, content)
               /\ fs run.2 !! notebook_file_of base_folder
                  = Some (File content)).
Proof.
  split; [|split; [|split]].
  - intros notebook_file content folder w Hparent Hdir Hfile.
    exists (saved notebook_file content w).
    split; [now apply (save_notebook_ok notebook_file content folder)|].
    split; [reflexivity | apply writes_saved].
  - intros notebook_file content w w' o H.
    destruct (save_notebook_cases notebook_file content w) as [E|[e E]];
      rewrite E in H; injection H as <- <-; [|reflexivity].
    split; [simpl; apply lookup_insert_eq|].
    split; [|apply writes_saved].
    intros p Hp. simpl. apply lookup_insert_ne. congruence.
  - intros env base_folder model n w w1 Hsetup run. subst run.
    assert (create_lab_notebook env base_folder model n w
            = try_except (try_body env base_folder model n) any_exception
                report_exception w1) as ->.
    { unfold create_lab_notebook, bind. now rewrite Hsetup. }
    pose proof (keeps_guarded_try_body env
                  (only (notebook_file_of base_folder))
                  (saves_only_to (notebook_file_of base_folder))
                  (fun _ => I) (fun _ => I) (fun _ => I) (fun _ _ => I)
                  base_folder eq_refl (fun _ => eq_refl) model n w1) as Hk.
    split.
    + intros p Hp. destruct Hk as [Hf _]. now apply Hf.
    + apply writes_within in Hk as (more & Hw & Hmore). now exists more.
  - intros env base_folder model n files prompt response group1 Hwf run
      Hhead Hsearch. subst run.
    destruct (run_with_block env base_folder model n files prompt response
                group1 Hwf Hhead Hsearch)
      as (Hfile & (more & Hwrites & Hmore) & _).
    exists more. split; [exact Hwrites|].
    split; [eapply Forall_impl; [exact Hmore|]; now intros pc ->|].
    exists (strip group1). split; [|exact Hfile].
    rewrite Hwrites. clear Hwrites.
    revert Hmore. generalize (notebook_file_of base_folder, strip group1).
    intros x Hmore. induction Hmore as [|y l -> Hl IH]; [reflexivity|].
    destruct l as [|z l]; [reflexivity|]. exact IH.
Qed.

(** C10 at concrete inputs: a save over a file that holds "A" leaves it
    holding "B"; and in a run with a first save and three reflection saves
    the idea file is what it was after the setup, the saves went to the
    notebook file, and the file holds what was saved last. *)
Lemma saves_overwrite_the_single_notebook_file_witness :
  let env := Demo.scripted true [Some Demo.crlf_answer; Some "Looks fine.";
                                 Some "Looks fine."; Some "Looks fine."] in
  let w1 := (setup_notebook_folder "run" (init_world Demo.project)).2 in
  let run := create_lab_notebook env "run" "gpt-4o-2024-05-13" 3
               (init_world Demo.project) in
  (exists w',
     save_notebook "nb/lab_notebook.md" "B" Demo.notebook_holding_A
     = (Ok tt, w')
     /\ fs w' !! "nb/lab_notebook.md" = Some (File "B"))
  /\ fs run.2 !! "run/idea.md" = fs w1 !! "run/idea.md"
  /\ length (writes run.2) = 4
  /\ exists more content,
       writes run.2 = (notebook_file_of "run", Demo.crlf_block) :: more
       /\ Forall (fun pc => pc.1 = notebook_file_of "run") more
       /\ last (writes run.2) = Some (notebook_file_of "run", content)
       /\ fs run.2 !! notebook_file_of "run" = Some (File content).
Proof.
  intros env w1 run.
  destruct saves_overwrite_the_single_notebook_file
    as (Hsave & _ & Hrun & Hblock).
  split; [|split; [|split; [vm_compute; reflexivity|]]].
  - destruct (Hsave "nb/lab_notebook.md" "B" "nb" Demo.notebook_holding_A
                ltac:(vm_compute; reflexivity) ltac:(vm_compute; reflexivity)
                ltac:(vm_compute; discriminate)) as (w' & Hok & Hfs & _).
    exists w'. split; [exact Hok|]. rewrite Hfs. apply lookup_insert_eq.
  - destruct (Hrun env "run" "gpt-4o-2024-05-13" 3%Z
                (init_world Demo.project) w1
                ltac:(vm_compute; reflexivity)) as [Hframe _].
    apply Hframe. vm_compute. discriminate.
  - destruct (Hblock env "run" "gpt-4o-2024-05-13" 3%Z Demo.project
                (combined_prompt_of
                   match (gather_inputs env "run"
                            (setup_notebook_folder "run"
                               (init_world Demo.project)).2).1 with
                   | Ok inputs => inputs
                   | Raise _ =>
                       Build_prompt_inputs EmptyString EmptyString
                         EmptyString [] EmptyString EmptyString
                   end)
                Demo.crlf_answer
                (Demo.CRLF +:+ Demo.crlf_block +:+ Demo.CRLF)
                ltac:(vm_compute; reflexivity) ltac:(vm_compute; reflexivity)
                ltac:(vm_compute; reflexivity))
      as (more & Hwrites & Hmore & content & Hlast & Hfile).
    assert (strip (Demo.CRLF +:+ Demo.crlf_block +:+ Demo.CRLF)
            = Demo.crlf_block) as E by (vm_compute; reflexivity).
    rewrite E in Hwrites. exists more, content.
    split; [exact Hwrites|]. split; [exact Hmore|].
    split; [exact Hlast | exact Hfile].
Defined.

End Claims.

(** * Further properties of the code *)

(** * Further properties of the script *)

(** ** What the setup does to the filesystem *)

Section SetupEffects.
Import PyStr.

Lemma bind_steps {A B} (R : world -> world -> Prop) (m : M A) (k : A -> M B) :
  (forall w1 w2 w3, R w1 w2 -> R w2 w3 -> R w1 w3) ->
  (forall w, R w (m w).2) -> (forall a w, R w (k a w).2) ->
  forall w, R w (bind m k w).2.
Proof.
  intros Htrans Hm Hk w. unfold bind. specialize (Hm w).
  destruct (m w) as [[a|e] w1]; simpl in *; [|exact Hm].
  eapply Htrans; [exact Hm | apply Hk].
Qed.

Lemma kept_outside_refl (d : string) (w : world) : kept_outside d w w.
Proof. now intros p v _ H. Qed.

Lemma kept_outside_trans (d : string) (w1 w2 w3 : world) :
  kept_outside d w1 w2 -> kept_outside d w2 w3 -> kept_outside d w1 w3.
Proof. intros H1 H2 p v Hp Hv. apply H2, H1; assumption. Qed.

Lemma rmtree_kept_outside (d : string) (w : world) :
  kept_outside d w (FS.rmtree d w).2.
Proof.
  unfold FS.rmtree. destruct (fs w !! d) as [[c|]|];
    try apply kept_outside_refl.
  intros p v [Hne Hb] Hv. simpl. now apply map_lookup_filter_Some_2.
Qed.

Lemma mkdir_each_keeps (dirs : list string) (target : string)
    (m m' : gmap string node) (p : string) (v : node) :
  FS.mkdir_each dirs target m = Ok m' -> m !! p = Some v -> m' !! p = Some v.
Proof.
  intros H Hv. apply mkdir_each_spec in H as [_ Hk].
  destruct (Hk p) as [E|(E & _)]; congruence.
Qed.

Lemma makedirs_kept_outside (d q : string) (w : world) :
  kept_outside d w (FS.makedirs q w).2.
Proof.
  unfold FS.makedirs.
  destruct (FS.mkdir_each _ _ _) as [m|e] eqn:Hm;
    [|apply kept_outside_refl].
  intros p v _ Hv. simpl. exact (mkdir_each_keeps _ _ _ _ _ _ Hm Hv).
Qed.

(** A copy into a directory below [d] changes nothing outside [d]. *)
Lemma copytree_kept_outside (d src name : string) (w : world) :
  kept_outside d w (FS.copytree src (d +:+ "/" +:+ name) w).2.
Proof.
  unfold FS.copytree.
  destruct (fs w !! src) as [[c|]|]; try apply kept_outside_refl.
  destruct (fs w !! (d +:+ "/" +:+ name)); try apply kept_outside_refl.
  destruct (FS.mkdir_each _ _ _) as [m|e] eqn:Hm;
    [|apply kept_outside_refl].
  intros p v [Hne Hb] Hv. simpl. rewrite copy_entries_other.
  - exact (mkdir_each_keeps _ _ _ _ _ _ Hm Hv).
  - intros rel E. rewrite E in Hb. rewrite !append_assoc in Hb.
    now rewrite below_child in Hb.
Qed.

Lemma setup_kept_outside (base_folder : string) (w : world) :
  kept_outside (notebook_folder_of base_folder) w
    (setup_notebook_folder base_folder w).2.
Proof.
  unfold setup_notebook_folder.
  destruct (notebook_paths base_folder) as (_ & -> & _).
  set (nb := notebook_folder_of base_folder).
  revert w. apply bind_steps; [apply kept_outside_trans | |].
  { intros w. apply kept_outside_refl. }
  intros found. apply bind_steps; [apply kept_outside_trans | |].
  { intros w. destruct found; [apply rmtree_kept_outside|].
    apply kept_outside_refl. }
  intros _. apply bind_steps; [apply kept_outside_trans | |].
  { intros w. apply makedirs_kept_outside. }
  intros _ w. apply copytree_kept_outside.
Qed.

Lemma notebook_file_inside (base_folder : string) :
  Path.below (notebook_folder_of base_folder) (notebook_file_of base_folder)
  = Some "lab_notebook.md".
Proof.
  destruct (notebook_paths base_folder) as (-> & _). apply below_child.
Qed.

(** X3.  Whatever the call does (return or raise), every file and
    directory that existed outside the notebook folder when it started is
    still there afterwards with the same content: the function deletes and
    rewrites inside [<base_folder>/notebook] only. *)
Theorem nothing_outside_the_notebook_folder_is_lost (env : collaborators)
    (base_folder model : string) (n : Z) (w : world) (p : string) (v : node) :
  outside (notebook_folder_of base_folder) p ->
  fs w !! p = Some v ->
  fs (create_lab_notebook env base_folder model n w).2 !! p = Some v.
Proof.
  revert p v. change (kept_outside (notebook_folder_of base_folder) w
                        (create_lab_notebook env base_folder model n w).2).
  unfold create_lab_notebook. revert w.
  apply bind_steps; [apply kept_outside_trans | apply setup_kept_outside |].
  intros _ w p v [Hne Hb] Hv.
  destruct (keeps_guarded_try_body env
              (only (notebook_file_of base_folder))
              (saves_only_to (notebook_file_of base_folder))
              (fun _ => I) (fun _ => I) (fun _ => I) (fun _ _ => I)
              base_folder eq_refl (fun _ => eq_refl) model n w) as [Hf _].
  rewrite Hf; [exact Hv|]. unfold only. intros ->.
  now rewrite notebook_file_inside in Hb.
Qed.

(** X3 at a concrete run: the idea file and a plot survive a run that
    replaces a stale notebook. *)
Lemma nothing_outside_the_notebook_folder_is_lost_witness :
  let env := Demo.scripted true [Some (Demo.fenced "# Notebook v1")] in
  let run := create_lab_notebook env "run" "gpt-4o-2024-05-13" 3
               (init_world Demo.project) in
  fs run.2 !! "run/idea.md" = Some (File "Study learning rates.")
  /\ fs run.2 !! "run/figures/loss.png" = Some (File "PNG1")
  /\ fs run.2 !! "run/notebook/lab_notebook.md"
     = Some (File "# Notebook v1").
Proof.
  intros env run.
  split; [|split; [|vm_compute; reflexivity]].
  - apply nothing_outside_the_notebook_folder_is_lost;
      [split; [discriminate | vm_compute; reflexivity]
      | vm_compute; reflexivity].
  - apply nothing_outside_the_notebook_folder_is_lost;
      [split; [discriminate | vm_compute; reflexivity]
      | vm_compute; reflexivity].
Defined.

End SetupEffects.

(** ** The notebook folder after the setup *)

Section FreshFolder.
Import PyStr.

Lemma parents_from_prefix (seen rest d : string) :
  d ∈ Path.parents_from seen rest ->
  exists r, seen +:+ rest = d +:+ "/" +:+ r.
Proof.
  revert seen. induction rest as [|c rest IH]; intros seen; simpl.
  - intros H. inversion H.
  - intros H. apply elem_of_app in H as [H|H].
    + destruct (Ascii.eqb_spec c "/") as [->|Hc]; [|inversion H].
      destruct (_ && _); [|inversion H].
      apply list_elem_of_singleton in H as ->. now exists rest.
    + apply IH in H as [r E]. exists r. rewrite <- E.
      now rewrite append_assoc.
Qed.

Lemma parent_is_listed (d rel : string) :
  String.eqb d EmptyString = false -> endswith d "/" = false ->
  d ∈ Path.parents (d +:+ "/" +:+ rel).
Proof.
  intros Hd Hs. unfold Path.parents. rewrite parents_from_append.
  apply elem_of_app. right. rewrite append_nil_l.
  change ("/" +:+ rel) with (String "/" rel). simpl. rewrite Hd, Hs. simpl.
  now left.
Qed.

(** No entry below a directory that is absent from a filesystem. *)
Lemma nothing_below_absent (m : gmap string node) (d k rel : string) :
  well_formed m = true ->
  String.eqb d EmptyString = false -> endswith d "/" = false ->
  m !! d = None -> Path.below d k = Some rel -> m !! k = None.
Proof.
  intros Hwf Hd Hs Hnone Hb. apply below_Some in Hb as ->.
  destruct (m !! (d +:+ "/" +:+ rel)) as [v|] eqn:Hv; [|reflexivity].
  pose proof (well_formed_parent m _ d v Hwf Hv (parent_is_listed d rel Hd Hs)).
  congruence.
Qed.

Lemma below_shorter (d k rel : string) :
  Path.below d k = Some rel -> String.length d < String.length k.
Proof.
  intros H. apply below_Some in H as ->. rewrite length_append. simpl. lia.
Qed.

Lemma copy_entries_lookup (src dst : string) (entries : list (string * node))
    (acc : gmap string node) (k rel : string) (v : node) :
  NoDup entries.*1 -> (k, v) ∈ entries -> Path.below src k = Some rel ->
  FS.copy_entries src dst entries acc !! (dst +:+ "/" +:+ rel) = Some v.
Proof.
  intros Hnd Hin Hb. induction entries as [|[k' v'] entries IH];
    [inversion Hin|].
  simpl in Hnd. apply NoDup_cons in Hnd as [Hfresh Hnd].
  apply elem_of_cons in Hin as [[= <- <-]|Hin]; simpl.
  - rewrite Hb. apply lookup_insert_eq.
  - destruct (Path.below src k') as [rel'|] eqn:Hb'; [|now apply IH].
    rewrite lookup_insert_ne; [now apply IH|].
    intros E. apply String.app_inj, String.app_inj in E. subst rel'.
    apply below_Some in Hb, Hb'. subst k k'.
    apply Hfresh. apply list_elem_of_fmap. now exists (src +:+ "/" +:+ rel, v).
Qed.

Lemma copy_entries_lookup_inv (src dst : string)
    (entries : list (string * node)) (acc : gmap string node) (q : string)
    (v : node) :
  FS.copy_entries src dst entries acc !! q = Some v ->
  acc !! q = Some v
  \/ exists k rel, (k, v) ∈ entries /\ Path.below src k = Some rel
                   /\ q = dst +:+ "/" +:+ rel.
Proof.
  induction entries as [|[k' v'] entries IH]; simpl; [now left|].
  destruct (Path.below src k') as [rel'|] eqn:Hb'.
  - destruct (decide (dst +:+ "/" +:+ rel' = q)) as [<-|Hne].
    + rewrite lookup_insert_eq. intros [= <-]. right.
      exists k', rel'. split; [now left | easy].
    + rewrite lookup_insert_ne by exact Hne. intros H.
      destruct (IH H) as [?|(k & rel & Hin & Hb & ->)]; [now left|].
      right. exists k, rel. split; [now right | easy].
  - intros H. destruct (IH H) as [?|(k & rel & Hin & Hb & ->)]; [now left|].
    right. exists k, rel. split; [now right | easy].
Qed.

(** The figures directory and what is in it lie outside the notebook
    folder and are none of the directories above it. *)
Lemma figures_apart (base_folder rest : string) :
  let p := figures_dir_of base_folder +:+ rest in
  outside (notebook_folder_of base_folder) p
  /\ p ∉ Path.parents (notebook_folder_of base_folder)
           ++ [notebook_folder_of base_folder].
Proof.
  intros p. subst p. unfold figures_dir_of, notebook_folder_of.
  rewrite !join_relative by reflexivity.
  set (b := with_separator base_folder). rewrite (append_assoc b).
  assert (forall r, b +:+ "figures" +:+ rest <> b +:+ "notebook" +:+ r) as Hne.
  { intros r E. apply String.app_inj in E. discriminate. }
  split; [split|].
  - intros E. exact (Hne EmptyString E).
  - destruct (Path.below _ _) as [rel|] eqn:Hb; [|reflexivity].
    apply below_Some in Hb. rewrite append_assoc in Hb.
    now destruct (Hne _ Hb).
  - intros H. apply elem_of_app in H as [H|H].
    + apply parents_from_prefix in H as [r E]. rewrite append_nil_l in E.
      rewrite !append_assoc in E. apply String.app_inj in E. discriminate.
    + apply list_elem_of_singleton in H. exact (Hne EmptyString H).
Qed.

End FreshFolder.

(** ** The outcomes of the setup *)

Section SetupOutcomes.
Import PyStr.

(** The setup, stage by stage. *)
Lemma setup_run (base_folder : string) (w : world) :
  setup_notebook_folder base_folder w =
  let nb := notebook_folder_of base_folder in
  match (if bool_decide (is_Some (fs w !! nb)) then FS.rmtree nb w
         else (Ok tt, w)) with
  | (Raise e, wa) => (Raise e, wa)
  | (Ok _, wa) =>
      match FS.makedirs nb wa with
      | (Raise e, wb) => (Raise e, wb)
      | (Ok _, wb) =>
          FS.copytree (figures_dir_of base_folder)
            (nb +:+ "/" +:+ "figures") wb
      end
  end.
Proof.
  unfold setup_notebook_folder.
  destruct (notebook_paths base_folder) as (_ & -> & _). cbv zeta.
  unfold bind at 1, FS.path_exists. unfold bind at 1.
  destruct (bool_decide _).
  - destruct (FS.rmtree _ w) as [[[]|e] wa]; [|reflexivity].
    unfold bind. now destruct (FS.makedirs _ wa) as [[[]|e] wb].
  - unfold ret. unfold bind. now destruct (FS.makedirs _ w) as [[[]|e] wb].
Qed.

Lemma mkdir_each_raises (dirs : list string) (target : string)
    (m : gmap string node) (e : exn) :
  FS.mkdir_each dirs target m = Raise e ->
  e = FileExistsError \/ e = NotADirectoryError.
Proof.
  revert m. induction dirs as [|d rest IH]; intros m; simpl; [discriminate|].
  destruct (m !! d) as [[c|]|]; [|apply IH | apply IH].
  intros [= <-]. destruct (String.eqb d target); tauto.
Qed.

(** Without a [figures] directory one of the setup statements raises an
    operating-system error. *)
Lemma setup_raises_without_figures (base_folder : string) (w : world) :
  fs w !! figures_dir_of base_folder = None ->
  exists e,
    (setup_notebook_folder base_folder w).1 = Raise e
    /\ (e = FileNotFoundError \/ e = NotADirectoryError
        \/ e = FileExistsError).
Proof.
  intros Hnone. rewrite setup_run. cbv zeta.
  set (nb := notebook_folder_of base_folder).
  assert (exists oa wa,
            (if bool_decide (is_Some (fs w !! nb)) then FS.rmtree nb w
             else (Ok tt, w)) = (oa, wa)
            /\ fs wa !! figures_dir_of base_folder = None
            /\ forall e, oa = Raise e -> e = NotADirectoryError)
    as (oa & wa & -> & Ha & Hoa).
  { destruct (bool_decide _) eqn:Hex.
    - unfold FS.rmtree. apply bool_decide_eq_true in Hex as [v Hv].
      rewrite Hv. destruct v as [c|].
      + eexists _, _. split; [reflexivity|]. split; [exact Hnone|].
        now intros e [= <-].
      + eexists _, _. split; [reflexivity|].
        split; [|discriminate]. simpl.
        apply map_lookup_filter_None. now left.
    - eexists _, _. split; [reflexivity|]. split; [exact Hnone|].
      discriminate. }
  destruct oa as [[]|e]; [|exists e; split; [reflexivity|]; auto].
  unfold FS.makedirs.
  destruct (FS.mkdir_each _ _ _) as [m|e] eqn:Hm.
  2:{ exists e. split; [reflexivity|].
      apply mkdir_each_raises in Hm. tauto. }
  assert (m !! figures_dir_of base_folder = None) as Hb.
  { apply mkdir_each_spec in Hm as [_ Hk].
    destruct (Hk (figures_dir_of base_folder)) as [E|(_ & _ & Hin)];
      [congruence|].
    destruct (figures_apart base_folder EmptyString) as [_ Hout].
    rewrite append_nil_r in Hout. contradiction. }
  unfold FS.copytree. simpl. rewrite Hb.
  exists FileNotFoundError. split; [reflexivity | tauto].
Qed.

(** X1.  Without a [figures] directory in the project folder the call
    never returns a boolean, whatever the folder, the model and the
    collaborators: one of the statements before the [try] raises an
    operating-system error (at the latest [shutil.copytree], with
    [FileNotFoundError]), nothing has been printed and no model has been
    asked. *)
Theorem missing_figures_directory_always_raises (env : collaborators)
    (base_folder model : string) (n : Z) (w : world) :
  fs w !! figures_dir_of base_folder = None ->
  exists e,
    create_lab_notebook env base_folder model n w
    = (Raise e, (setup_notebook_folder base_folder w).2)
    /\ trace (setup_notebook_folder base_folder w).2 = trace w
    /\ (e = FileNotFoundError \/ e = NotADirectoryError
        \/ e = FileExistsError).
Proof.
  intros Hnone.
  destruct (setup_raises_without_figures base_folder w Hnone)
    as (e & Hraise & He).
  exists e. split; [|split; [apply setup_trace | exact He]].
  destruct (setup_notebook_folder base_folder w) as [o w1] eqn:Hs.
  simpl in Hraise. subst o. simpl.
  exact (create_setup_raises env base_folder model n w e w1 Hs).
Qed.

(** X1 at a concrete folder whose name ends in a slash. *)
Lemma missing_figures_directory_always_raises_witness :
  exists e,
    (create_lab_notebook (Demo.scripted true []) "data/exp 7/"
       "gpt-4o-2024-05-13" 3 (init_world Demo2.odd_project)).1
    = Raise e.
Proof.
  destruct (missing_figures_directory_always_raises (Demo.scripted true [])
              "data/exp 7/" "gpt-4o-2024-05-13" 3
              (init_world Demo2.odd_project)
              ltac:(vm_compute; reflexivity)) as (e & Hrun & _).
  exists e. now rewrite Hrun.
Defined.

(** X2.  The [__main__] block never lets an exception out, although
    [create_lab_notebook] can raise: it returns normally having printed
    nothing more after a [True], the failure message after a [False], and
    "EXCEPTION in main:" with the traceback after an exception; it touches
    the filesystem only through [create_lab_notebook].  In particular, for
    a project folder without a [figures] directory the script ends normally
    and its whole output is that heading and the traceback of the
    operating-system error. *)
Theorem main_reports_and_returns (env : collaborators) (args : cli_args)
    (w : world) :
  let run := create_lab_notebook env (args_folder args) (args_model args)
               (args_notebook_reflections args) w in
  (exists w',
     main env args w = (Ok tt, w')
     /\ fs w' = fs run.2
     /\ trace w'
        = match run.1 with
          | Ok true => trace run.2
          | Ok false => EvPrint FAILURE_MESSAGE :: trace run.2
          | Raise e =>
              EvTraceback e :: EvPrint "EXCEPTION in main:" :: trace run.2
          end)
  /\ (fs w !! figures_dir_of (args_folder args) = None ->
      exists e w',
        main env args w = (Ok tt, w')
        /\ trace w' = EvTraceback e :: EvPrint "EXCEPTION in main:" :: trace w).
Proof.
  intros run.
  assert (exists w',
            main env args w = (Ok tt, w')
            /\ fs w' = fs run.2
            /\ trace w'
               = match run.1 with
                 | Ok true => trace run.2
                 | Ok false => EvPrint FAILURE_MESSAGE :: trace run.2
                 | Raise e =>
                     EvTraceback e :: EvPrint "EXCEPTION in main:"
                     :: trace run.2
                 end) as Hmain.
  { subst run. unfold main, try_except, bind.
    destruct (create_lab_notebook env _ _ _ w) as [[[|]|e] w1]; simpl;
      eexists; repeat split. }
  split; [exact Hmain|]. intros Hnone.
  destruct (setup_raises_without_figures _ w Hnone) as (e & Hraise & _).
  destruct Hmain as (w' & Hmain & _ & Hout).
  exists e, w'. split; [exact Hmain|]. rewrite Hout. subst run.
  destruct (setup_notebook_folder (args_folder args) w) as [o w1] eqn:Hs.
  simpl in Hraise. subst o.
  rewrite (create_setup_raises env _ (args_model args)
             (args_notebook_reflections args) w e w1 Hs). simpl.
  pose proof (setup_trace (args_folder args) w) as Ht. rewrite Hs in Ht.
  simpl in Ht. now rewrite Ht.
Qed.

(** X2 at a concrete command line. *)
Lemma main_reports_and_returns_witness :
  let args := {| args_folder := "data/exp 7/";
                 args_model := "gpt-4o-2024-05-13";
                 args_notebook_reflections := 3 |} in
  exists w',
    main (Demo.scripted true []) args (init_world Demo2.odd_project)
    = (Ok tt, w')
    /\ trace w' = [EvTraceback FileNotFoundError;
                   EvPrint "EXCEPTION in main:"].
Proof.
  intros args.
  destruct (main_reports_and_returns (Demo.scripted true []) args
              (init_world Demo2.odd_project)) as [_ Hmissing].
  destruct (Hmissing ltac:(vm_compute; reflexivity)) as (e & w' & Hmain & Ht).
  exists w'. split; [exact Hmain|].
  assert (trace (main (Demo.scripted true []) args
                   (init_world Demo2.odd_project)).2
          = [EvTraceback FileNotFoundError; EvPrint "EXCEPTION in main:"])
    as Hc by (vm_compute; reflexivity).
  rewrite Hmain in Hc. exact Hc.
Defined.

End SetupOutcomes.

(** ** What the notebook folder holds after the setup *)

Section FreshFolderTheorem.
Import PyStr.

(** X4.  After a setup that goes through, the notebook folder holds a
    copy of the figures directory and nothing else: every entry below
    [figures] is found with the same content below [notebook/figures], and
    every entry below [notebook] is [notebook/figures] or the copy of an
    entry of [figures].  Whatever the folder held before (an older
    notebook, its PDF) is gone. *)
Theorem notebook_folder_holds_only_the_copied_figures
    (base_folder : string) (w w1 : world) :
  well_formed (fs w) = true ->
  setup_notebook_folder base_folder w = (Ok tt, w1) ->
  let nb := notebook_folder_of base_folder in
  let figures := figures_dir_of base_folder in
  let copy := Path.join nb "figures" in
  fs w1 !! copy = Some Dir
  /\ (forall rel v,
        fs w !! (figures +:+ "/" +:+ rel) = Some v ->
        fs w1 !! (copy +:+ "/" +:+ rel) = Some v)
  /\ (forall k rel v,
        Path.below nb k = Some rel -> fs w1 !! k = Some v ->
        k = copy
        \/ exists rel', k = copy +:+ "/" +:+ rel'
                        /\ fs w !! (figures +:+ "/" +:+ rel') = Some v).
Proof.
  intros Hwf Hsetup nb figures copy.
  destruct (notebook_paths base_folder) as (_ & Ecopy & Hne & Hs).
  fold nb in Ecopy, Hne, Hs. subst copy. rewrite Ecopy.
  set (copy := nb +:+ "/" +:+ "figures").
  rewrite setup_run in Hsetup. cbv zeta in Hsetup. fold nb figures in Hsetup.
  (* the cleanup *)
  assert (exists wa,
            (if bool_decide (is_Some (fs w !! nb)) then FS.rmtree nb w
             else (Ok tt, w)) = (Ok tt, wa)
            /\ kept_outside nb w wa
            /\ (forall k rel, Path.below nb k = Some rel -> fs wa !! k = None)
            /\ (forall p v, fs wa !! p = Some v -> fs w !! p = Some v))
    as (wa & Ea & A1 & A2 & A3).
  { destruct (bool_decide _) eqn:Hex.
    - pose proof (rmtree_kept_outside nb w) as Hk. unfold FS.rmtree in *.
      destruct (fs w !! nb) as [[c|]|]; try discriminate.
      eexists. split; [reflexivity|]. split; [exact Hk|]. simpl. split.
      + intros k rel Hb. apply map_lookup_filter_None. right.
        intros v _ [_ Hb']. simpl in Hb'. congruence.
      + intros p v Hp. now apply map_lookup_filter_Some_1_1 in Hp.
    - exists w. split; [reflexivity|]. split; [apply kept_outside_refl|].
      split; [|auto]. intros k rel Hb.
      apply bool_decide_eq_false in Hex.
      apply (nothing_below_absent _ nb k rel Hwf Hne Hs); [|exact Hb].
      destruct (fs w !! nb) eqn:E; [|reflexivity]. exfalso. eauto. }
  rewrite Ea in Hsetup.
  (* makedirs *)
  unfold FS.makedirs in Hsetup.
  destruct (FS.mkdir_each (Path.parents nb ++ [nb]) nb (fs wa))
    as [mb|e] eqn:Hmb; [|discriminate].
  pose proof (mkdir_each_spec _ _ _ _ Hmb) as [_ Hkb].
  assert (forall k rel, Path.below nb k = Some rel -> mb !! k = None) as B2.
  { intros k rel Hb. destruct (Hkb k) as [E|(_ & _ & Hin)];
      [rewrite E; now apply (A2 k rel)|].
    exfalso. apply below_shorter in Hb.
    apply elem_of_app in Hin as [Hin|Hin].
    - apply parents_shorter in Hin. lia.
    - apply list_elem_of_singleton in Hin. subst k. lia. }
  (* copytree *)
  unfold FS.copytree in Hsetup. simpl in Hsetup. fold copy in Hsetup.
  destruct (mb !! figures) as [[c|]|] eqn:Hfig; try discriminate.
  destruct (mb !! copy) as [v0|] eqn:Hcopy; [discriminate|].
  destruct (FS.mkdir_each (Path.parents copy ++ [copy]) copy mb)
    as [mc|e] eqn:Hmc; [|discriminate].
  injection Hsetup as <-. simpl.
  pose proof (mkdir_each_spec _ _ _ _ Hmc) as [Hallc Hkc].
  assert (forall rel, copy <> copy +:+ "/" +:+ rel) as Hcopy_ne.
  { intros rel E. apply (f_equal String.length) in E.
    rewrite length_append in E. simpl in E. lia. }
  split; [|split].
  - rewrite copy_entries_other by exact Hcopy_ne.
    apply Hallc, elem_of_app. right. now apply list_elem_of_singleton.
  - intros rel v Hv.
    apply (copy_entries_lookup figures copy _ mc (figures +:+ "/" +:+ rel)).
    + apply NoDup_fst_map_to_list.
    + apply elem_of_map_to_list.
      apply (mkdir_each_keeps _ _ _ _ _ _ Hmb). apply A1; [|exact Hv].
      destruct (figures_apart base_folder ("/" +:+ rel)) as [Hout _].
      exact Hout.
    + apply below_child.
  - intros k rel v Hb Hv.
    apply copy_entries_lookup_inv in Hv
      as [Hv|(k0 & rel' & Hin & Hb0 & ->)].
    + left. destruct (Hkc k) as [E|(_ & _ & Hin)].
      * rewrite E, (B2 k rel Hb) in Hv. discriminate.
      * apply elem_of_app in Hin as [Hin|Hin];
          [|now apply list_elem_of_singleton in Hin].
        exfalso. unfold copy in Hin.
        rewrite parents_of_child in Hin by (assumption || reflexivity).
        apply below_shorter in Hb.
        apply elem_of_app in Hin as [Hin|Hin].
        -- apply parents_shorter in Hin. lia.
        -- apply list_elem_of_singleton in Hin. subst k. lia.
    + right. exists rel'. split; [reflexivity|].
      apply elem_of_map_to_list in Hin. apply below_Some in Hb0 as ->.
      apply A3. destruct (Hkb (figures +:+ "/" +:+ rel'))
        as [E|(_ & _ & Hin')]; [congruence|].
      destruct (figures_apart base_folder ("/" +:+ rel')) as [_ Hout].
      contradiction.
Qed.

(** X4 at a concrete folder: the plots are copied and the stale notebook
    is gone. *)
Lemma notebook_folder_holds_only_the_copied_figures_witness :
  let w1 := (setup_notebook_folder "run" (init_world Demo.project)).2 in
  Demo.project !! "run/notebook/lab_notebook.md" = Some (File "stale notebook")
  /\ fs w1 !! "run/notebook/figures/loss.png" = Some (File "PNG1")
  /\ (forall v, fs w1 !! "run/notebook/lab_notebook.md" = Some v ->
                "run/notebook/lab_notebook.md" = "run/notebook/figures"
                \/ exists rel',
                     "run/notebook/lab_notebook.md"
                     = "run/notebook/figures" +:+ "/" +:+ rel'
                     /\ Demo.project !! ("run/figures" +:+ "/" +:+ rel')
                        = Some v).
Proof.
  intros w1. split; [vm_compute; reflexivity|].
  destruct (notebook_folder_holds_only_the_copied_figures "run"
              (init_world Demo.project) w1
              ltac:(vm_compute; reflexivity) ltac:(vm_compute; reflexivity))
    as (_ & Hmirror & Honly).
  split.
  - apply (Hmirror "loss.png"). vm_compute. reflexivity.
  - intros v Hv.
    apply (Honly "run/notebook/lab_notebook.md" "lab_notebook.md" v);
      [vm_compute; reflexivity | exact Hv].
Defined.

End FreshFolderTheorem.

(** ** The plot names *)

Section PlotNames.
Import PyStr.

Lemma endswith_iff (s suffix : string) :
  endswith s suffix = true <-> exists pre, s = pre +:+ suffix.
Proof.
  split.
  - induction s as [|c s IH]; rewrite endswith_eq; intros H;
      apply orb_true_iff in H as [H|H]; try discriminate.
    + apply String.eqb_eq in H as <-. now exists EmptyString.
    + apply String.eqb_eq in H as <-. now exists EmptyString.
    + destruct (IH H) as [pre ->]. now exists (String c pre).
  - intros [pre ->]. induction pre as [|c pre IH]; rewrite endswith_eq.
    + rewrite append_nil_l, String.eqb_refl. reflexivity.
    + rewrite append_cons, IH. apply orb_true_r.
Qed.

Lemma lower_append (a b : string) : lower (a +:+ b) = lower a +:+ lower b.
Proof.
  induction a as [|c a IH]; [reflexivity|].
  rewrite append_cons. simpl. now rewrite IH.
Qed.

Lemma lower_split (s a b : string) :
  lower s = a +:+ b ->
  exists s1 s2, s = s1 +:+ s2 /\ lower s1 = a /\ lower s2 = b.
Proof.
  revert s. induction a as [|c a IH]; intros s H.
  - now exists EmptyString, s.
  - destruct s as [|x s]; [discriminate|]. rewrite append_cons in H.
    simpl in H. injection H as Hx H.
    destruct (IH s H) as (s1 & s2 & -> & H1 & H2).
    exists (String x s1), s2. simpl. now rewrite Hx, H1.
Qed.

Lemma lower_char_dot (c : ascii) : lower_char c = "."%char -> c = "."%char.
Proof.
  destruct c as [[] [] [] [] [] [] [] []]; vm_compute; intros H;
    first [discriminate H | reflexivity].
Qed.

Lemma lower_char_letter (c l u : ascii) :
  (l, u) = ("p", "P")%char \/ (l, u) = ("n", "N")%char
  \/ (l, u) = ("g", "G")%char ->
  lower_char c = l -> c = l \/ c = u.
Proof.
  intros [[= -> ->]|[[= -> ->]|[= -> ->]]];
    destruct c as [[] [] [] [] [] [] [] []]; vm_compute; intros H;
    first [discriminate H | now left | now right].
Qed.

(** X5.  A file name counts as a plot exactly when it ends in a dot
    followed by p, n, g, each in either case: ".png", ".PNG", ".Png" and so
    on, the name ".png" itself included. *)
Theorem is_png_iff (fplot : string) :
  is_png fplot = true <->
  exists stem p n g,
    fplot = stem +:+ String "." (String p (String n (String g EmptyString)))
    /\ (p = "p" \/ p = "P")%char /\ (n = "n" \/ n = "N")%char
    /\ (g = "g" \/ g = "G")%char.
Proof.
  unfold is_png. rewrite endswith_iff. split.
  - intros [pre H]. apply lower_split in H as (stem & ext & -> & _ & Hext).
    destruct ext as [|d [|p [|n [|g [|x ext]]]]]; try discriminate.
    simpl in Hext. injection Hext as Hd Hp Hn Hg.
    apply lower_char_dot in Hd as ->.
    apply (lower_char_letter p "p" "P") in Hp; [|tauto].
    apply (lower_char_letter n "n" "N") in Hn; [|tauto].
    apply (lower_char_letter g "g" "G") in Hg; [|tauto].
    now exists stem, p, n, g.
  - intros (stem & p & n & g & -> & Hp & Hn & Hg).
    exists (lower stem). rewrite lower_append. f_equal.
    destruct Hp as [-> | ->], Hn as [-> | ->], Hg as [-> | ->]; reflexivity.
Qed.

Lemma entry_names_listed (d name : string) (m : gmap string node) :
  Path.is_name name = true -> is_Some (m !! (d +:+ "/" +:+ name)) ->
  In name (FS.entry_names d m).
Proof.
  intros Hn [v Hv]. apply list_elem_of_In. unfold FS.entry_names.
  apply list_elem_of_omap. exists (d +:+ "/" +:+ name, v).
  split; [now apply elem_of_map_to_list|]. simpl.
  now rewrite below_child, Hn.
Qed.

Lemma entry_names_NoDup (d : string) (m : gmap string node) :
  NoDup (FS.entry_names d m).
Proof.
  unfold FS.entry_names.
  pose proof (NoDup_fst_map_to_list m) as Hnd.
  induction (map_to_list m) as [|[k v] entries IH]; [constructor|].
  simpl in Hnd. apply NoDup_cons in Hnd as [Hfresh Hnd]. simpl.
  destruct (Path.below d k) as [rel|] eqn:Hb; [|now apply IH].
  destruct (Path.is_name rel); [|now apply IH].
  apply NoDup_cons. split; [|now apply IH].
  intros Hin. apply list_elem_of_omap in Hin as ([k' v'] & Hin & Hf).
  simpl in Hf. destruct (Path.below d k') as [rel'|] eqn:Hb'; [|discriminate].
  destruct (Path.is_name rel'); [|discriminate]. injection Hf as ->.
  apply below_Some in Hb, Hb'. subst k k'.
  apply Hfresh. apply list_elem_of_fmap. now exists (d +:+ "/" +:+ rel, v').
Qed.

(** X6.  The plot names gathered from an existing figures directory are,
    without repetition, exactly the names of its direct entries that count
    as plots; an entry is listed whether it is a file or a directory.  When
    there is no figures directory the list is empty, and when the path is a
    regular file the listing raises [NotADirectoryError]. *)
Theorem plot_names_are_the_png_entries (figures_dir : string) (w : world) :
  (fs w !! figures_dir = Some Dir ->
   exists names,
     gather_plot_names figures_dir w = (Ok names, w)
     /\ NoDup names
     /\ forall name,
          In name names <->
          Path.is_name name = true /\ is_png name = true
          /\ is_Some (fs w !! (figures_dir +:+ "/" +:+ name)))
  /\ (fs w !! figures_dir = None ->
      gather_plot_names figures_dir w = (Ok [], w))
  /\ (forall content,
        fs w !! figures_dir = Some (File content) ->
        gather_plot_names figures_dir w = (Raise NotADirectoryError, w)).
Proof.
  split; [|split].
  - intros Hd. eexists. split; [now apply gather_plot_names_run|].
    split; [apply NoDup_ListNoDup, List.NoDup_filter, NoDup_ListNoDup,
              entry_names_NoDup|].
    intros name. rewrite filter_In. split.
    + intros [Hin Hpng]. apply entry_names_present in Hin as [Hn Hs]. tauto.
    + intros (Hn & Hpng & Hs).
      split; [now apply entry_names_listed | exact Hpng].
  - intros Hnone. unfold gather_plot_names, bind, FS.path_exists.
    rewrite Hnone. now rewrite bool_decide_eq_false_2 by (now intros [v Hv]).
  - intros content Hf. unfold gather_plot_names, bind, FS.path_exists,
      FS.listdir.
    rewrite Hf. rewrite bool_decide_eq_true_2 by eauto.
    cbv beta iota. now rewrite Hf.
Qed.

(** X6 at a concrete directory: the sub-directory [old.png] is listed
    beside the plot, the table is not. *)
Lemma plot_names_are_the_png_entries_witness :
  exists names,
    gather_plot_names "g/figures" (init_world Demo2.gallery)
    = (Ok names, init_world Demo2.gallery)
    /\ In "old.png" names /\ In "curve.PNG" names /\ ~ In "table.csv" names.
Proof.
  destruct (plot_names_are_the_png_entries "g/figures"
              (init_world Demo2.gallery)) as (Hdir & _ & _).
  destruct (Hdir ltac:(vm_compute; reflexivity)) as (names & Hrun & _ & Hin).
  exists names. split; [exact Hrun|].
  split; [apply Hin; vm_compute; eauto|].
  split; [apply Hin; vm_compute; eauto|].
  intros H. apply Hin in H as (_ & Hpng & _). vm_compute in Hpng.
  discriminate.
Defined.

End PlotNames.

(** ** The idea text and the summaries *)

Section IdeaAndSummaries.
Import PyStr.

(** X7.  [research_idea.md] takes precedence over [idea.md]: when it is
    a file its text is the idea text and [idea.md] is not looked at; only
    when it is absent is [idea.md] read; and when [research_idea.md] is a
    directory the loading raises instead of falling back to [idea.md]. *)
Theorem research_idea_takes_precedence (base_folder : string) (w : world) :
  let research := Path.join base_folder "research_idea.md" in
  let idea := Path.join base_folder "idea.md" in
  (forall content,
     fs w !! research = Some (File content) ->
     load_idea_text base_folder w = (Ok (universal_newlines content), w))
  /\ (forall content,
        fs w !! research = None -> fs w !! idea = Some (File content) ->
        load_idea_text base_folder w = (Ok (universal_newlines content), w))
  /\ (fs w !! research = Some Dir ->
      load_idea_text base_folder w = (Raise IsADirectoryError, w)).
Proof.
  intros research idea. unfold load_idea_text, bind, FS.path_exists,
    FS.read_text. fold research idea.
  split; [|split].
  - intros content H. rewrite H. rewrite bool_decide_eq_true_2 by eauto.
    cbv beta iota. now rewrite H.
  - intros content H1 H2. rewrite H1.
    rewrite bool_decide_eq_false_2 by (now intros [v Hv]).
    cbv beta iota. rewrite H2. rewrite bool_decide_eq_true_2 by eauto.
    cbv beta iota. now rewrite H2.
  - intros H. rewrite H. rewrite bool_decide_eq_true_2 by eauto.
    cbv beta iota. now rewrite H.
Qed.

(** X7 at a folder that holds both files. *)
Lemma research_idea_takes_precedence_witness :
  load_idea_text "p" (init_world Demo2.two_ideas)
  = (Ok "the refined idea", init_world Demo2.two_ideas).
Proof.
  destruct (research_idea_takes_precedence "p" (init_world Demo2.two_ideas))
    as (Hfirst & _ & _).
  apply (Hfirst "the refined idea"). vm_compute. reflexivity.
Defined.

(** X8.  A summary path on which the loading fails in any way other
    than [JSONDecodeError] (the path is a directory, or [json.load] raises
    something else) is not forgiven: once the setup has gone through, the
    call returns [False] with the traceback as its last output, no model
    has been asked and nothing has been saved. *)
Theorem unreadable_summary_fails_the_call (env : collaborators)
    (base_folder model : string) (n : Z) (files : gmap string node)
    (w1 : world) (fname key : string) :
  setup_notebook_folder base_folder (init_world files) = (Ok tt, w1) ->
  In (fname, key) summary_files ->
  summary_state_of env (fs w1) (Path.join base_folder fname) = SummaryOther ->
  let run := create_lab_notebook env base_folder model n (init_world files) in
  run.1 = Ok false
  /\ llm_calls run.2 = [] /\ writes run.2 = []
  /\ fs run.2 = fs w1
  /\ exists e, head (trace run.2) = Some (EvTraceback e).
Proof.
  intros Hsetup Hin Hstate run. subst run.
  pose proof (setup_trace base_folder (init_world files)) as Ht.
  rewrite Hsetup in Ht. simpl in Ht.
  pose proof (keeps_gather_inputs env nowhere quiet
                (fun _ => I) (fun _ => I) (fun _ => I) base_folder w1) as Hq.
  destruct (gather_inputs env base_folder w1) as [[inputs|e] w2] eqn:Hgather;
    simpl in Hq.
  - exfalso. apply gather_inv in Hgather
      as (wa & wb & _ & _ & _ & loaded & _ & Hsum & _ & _ & _ & _ & _ & Fa & _).
    apply load_summaries_states in Hsum. rewrite Fa in Hsum.
    rewrite List.Forall_forall in Hsum. now apply (Hsum (fname, key)).
  - rewrite (create_gather_raises env _ model n _ _ _ _ Hsetup Hgather).
    rewrite report_exception_run. cbn [fst snd].
    pose proof (within_nowhere_fs _ _ _ Hq) as Hfs.
    apply quiet_calls in Hq as [Hc Hw].
    rewrite !llm_calls_log, !writes_log, Hc, Hw. simpl.
    unfold llm_calls, writes. rewrite Ht. simpl.
    repeat split; [exact Hfs|]. now exists e.
Qed.

(** X8 at a folder whose research summary is a directory. *)
Lemma unreadable_summary_fails_the_call_witness :
  let env := Demo.scripted true [Some (Demo.fenced "# Notebook")] in
  let run := create_lab_notebook env "p" "gpt-4o-2024-05-13" 3
               (init_world Demo2.two_ideas) in
  run.1 = Ok false /\ llm_calls run.2 = [] /\ writes run.2 = [].
Proof.
  intros env run.
  destruct (unreadable_summary_fails_the_call env "p" "gpt-4o-2024-05-13" 3
              Demo2.two_ideas
              (setup_notebook_folder "p" (init_world Demo2.two_ideas)).2
              "logs/0-run/research_summary.json" "RESEARCH_SUMMARY"
              ltac:(vm_compute; reflexivity) ltac:(simpl; tauto)
              ltac:(vm_compute; reflexivity))
    as (Hr & Hc & Hw & _).
  now repeat split.
Defined.

(** X9.  When the loop over the summary files returns, the dictionary it
    built has exactly the three keys BASELINE_SUMMARY, RESEARCH_SUMMARY and
    ABLATION_SUMMARY, in this order, whatever the files held, and the
    filesystem is as before. *)
Theorem summaries_have_three_keys (env : collaborators)
    (base_folder : string) (w w' : world) (loaded : list (string * json)) :
  load_summaries env base_folder summary_files [] w = (Ok loaded, w') ->
  map fst loaded
  = ["BASELINE_SUMMARY"; "RESEARCH_SUMMARY"; "ABLATION_SUMMARY"]
  /\ fs w' = fs w.
Proof.
  intros H. apply load_summaries_three in H as (-> & Hfs & _).
  split; [reflexivity | exact Hfs].
Qed.

(** X9 at a concrete folder. *)
Lemma summaries_have_three_keys_witness :
  exists loaded w',
    load_summaries (Demo.scripted true []) "run" summary_files []
      (init_world Demo.project) = (Ok loaded, w')
    /\ map fst loaded
       = ["BASELINE_SUMMARY"; "RESEARCH_SUMMARY"; "ABLATION_SUMMARY"].
Proof.
  eexists _, _. split; [vm_compute; reflexivity|].
  match goal with
  | |- map fst ?l = _ =>
      apply (summaries_have_three_keys (Demo.scripted true []) "run"
               (init_world Demo.project)
               (load_summaries (Demo.scripted true []) "run" summary_files []
                  (init_world Demo.project)).2 l)
  end.
  vm_compute. reflexivity.
Defined.

End IdeaAndSummaries.

(** ** The VLM step *)

Section VlmStep.
Import PyStr.

Lemma load_summaries_same (env1 env2 : collaborators) (base_folder : string)
    (files : list (string * string)) (loaded : list (string * json))
    (w : world) :
  json_load env1 = json_load env2 ->
  load_summaries env1 base_folder files loaded w
  = load_summaries env2 base_folder files loaded w.
Proof.
  intros H. revert loaded w.
  induction files as [|[fname key] files IH]; intros loaded w; simpl;
    [reflexivity|].
  unfold bind.
  assert (load_summary env1 base_folder fname key loaded w
          = load_summary env2 base_folder fname key loaded w) as ->
    by (unfold load_summary; now rewrite H).
  destruct (load_summary env2 base_folder fname key loaded w) as [[l|e] w1];
    [apply IH | reflexivity].
Qed.

(** Whatever the VLM does, the description step returns a text. *)
Lemma describe_plots_returns (env : collaborators) (figures_dir : string)
    (names : list string) (w : world) :
  exists text w', describe_plots env figures_dir names w = (Ok text, w').
Proof.
  unfold describe_plots, try_except.
  destruct (generate_descriptions env figures_dir names w) as [[t|e] w1];
    simpl; eauto.
Qed.

(** X10.  The VLM can change nothing but the plot descriptions: with two
    sets of collaborators that agree on [json.load] and [json.dumps], the
    gathering of the prompt inputs raises in both cases or in neither, with
    the same exception, and otherwise yields the same idea text, summaries,
    current notebook, plot names and aggregator code, and the same
    filesystem.  In particular no failure of the VLM makes the gathering
    raise. *)
Theorem vlm_affects_the_descriptions_only (env1 env2 : collaborators)
    (base_folder : string) (w : world) :
  same_but_vlm env1 env2 ->
  match gather_inputs env1 base_folder w, gather_inputs env2 base_folder w with
  | (Ok i1, w1), (Ok i2, w2) =>
      idea_text i1 = idea_text i2
      /\ combined_summaries_str i1 = combined_summaries_str i2
      /\ current_notebook i1 = current_notebook i2
      /\ plot_names i1 = plot_names i2
      /\ aggregator_code i1 = aggregator_code i2
      /\ fs w1 = fs w2
  | (Raise e1, w1), (Raise e2, w2) => e1 = e2 /\ w1 = w2
  | _, _ => False
  end.
Proof.
  intros (Hload & Hdumps & _). unfold gather_inputs, bind.
  rewrite Hdumps.
  destruct (load_idea_text base_folder w) as [[idea|e] wa]; [|easy].
  rewrite (load_summaries_same env1 env2 _ _ _ wa Hload).
  destruct (load_summaries env2 base_folder summary_files [] wa)
    as [[loaded|e] wb]; [|easy].
  destruct (read_current_notebook _ wb) as [[current|e] wc]; [|easy].
  destruct (gather_plot_names _ wc) as [[plots|e] wd]; [|easy].
  destruct (load_aggregator_code base_folder wd) as [[aggregator|e] we];
    [|easy].
  pose proof (keeps_describe_plots env1 nowhere quiet
                (fun _ => I) (fun _ => I) (fun _ => I)
                (figures_dir_of base_folder) plots we) as H1.
  pose proof (keeps_describe_plots env2 nowhere quiet
                (fun _ => I) (fun _ => I) (fun _ => I)
                (figures_dir_of base_folder) plots we) as H2.
  apply within_nowhere_fs in H1, H2.
  destruct (describe_plots_returns env1 (figures_dir_of base_folder) plots we)
    as (t1 & w1 & E1).
  destruct (describe_plots_returns env2 (figures_dir_of base_folder) plots we)
    as (t2 & w2 & E2).
  rewrite E1 in H1 |- *. rewrite E2 in H2 |- *. simpl in *.
  repeat split. congruence.
Qed.

(** X10 with a VLM that works and one that cannot be reached. *)
Lemma vlm_affects_the_descriptions_only_witness :
  match gather_inputs (Demo.scripted true []) "run" (init_world Demo.project),
        gather_inputs (Demo.scripted false []) "run" (init_world Demo.project)
  with
  | (Ok i1, w1), (Ok i2, w2) =>
      idea_text i1 = idea_text i2
      /\ combined_summaries_str i1 = combined_summaries_str i2
      /\ current_notebook i1 = current_notebook i2
      /\ plot_names i1 = plot_names i2
      /\ aggregator_code i1 = aggregator_code i2
      /\ fs w1 = fs w2
  | (Raise e1, w1), (Raise e2, w2) => e1 = e2 /\ w1 = w2
  | _, _ => False
  end.
Proof.
  apply (vlm_affects_the_descriptions_only
           (Demo.scripted true []) (Demo.scripted false []) "run"
           (init_world Demo.project)).
  repeat split.
Defined.

Lemma vlm_calls_log_vlm (image : string) (w : world) :
  vlm_calls (log (EvVLM image) w) = vlm_calls w ++ [image].
Proof. unfold vlm_calls. simpl. now rewrite omap_app. Qed.

Lemma vlm_calls_log_print (text : string) (w : world) :
  vlm_calls (log (EvPrint text) w) = vlm_calls w.
Proof. unfold vlm_calls. simpl. now rewrite omap_app, app_nil_r. Qed.

Lemma vlm_calls_log_traceback (e : exn) (w : world) :
  vlm_calls (log (EvTraceback e) w) = vlm_calls w.
Proof. unfold vlm_calls. simpl. now rewrite omap_app, app_nil_r. Qed.

(** The loop asks about the present plots in order, and stops at the
    first request that raises. *)
Lemma describe_each_calls (env : collaborators) (figures_dir model : string)
    (client : nat) (names : list string) (desc_map : gmap string string)
    (w w' : world) (o : outcome (gmap string string)) :
  describe_each env figures_dir model client names desc_map w = (o, w') ->
  fs w' = fs w
  /\ exists asked,
       vlm_calls w' = vlm_calls w ++ asked
       /\ asked `prefix_of` images_to_review figures_dir names (fs w)
       /\ (forall desc_map', o = Ok desc_map' ->
                             asked = images_to_review figures_dir names (fs w)).
Proof.
  revert desc_map w. induction names as [|pf names IH]; intros desc_map w.
  - intros [= <- <-]. split; [reflexivity|]. exists [].
    now rewrite app_nil_r.
  - cbn [describe_each]. unfold bind at 1, FS.path_exists at 1.
    unfold images_to_review. cbn [List.filter].
    destruct (bool_decide (is_Some (fs w !! Path.join figures_dir pf)));
      cbn [negb map].
    + unfold bind at 1, call_generate_vlm_img_review at 1.
      cbn [images String.concat].
      set (w1 := log (EvVLM (Path.join figures_dir pf)) w).
      destruct (generate_vlm_img_review env _ _ model client) as [review|e].
      * intros H. apply IH in H as (Hfs & asked & Hcalls & Hpre & Hall).
        split; [exact Hfs|].
        exists (Path.join figures_dir pf :: asked).
        rewrite Hcalls. subst w1. rewrite vlm_calls_log_vlm, <- app_assoc.
        split; [reflexivity|].
        split; [now apply prefix_cons|].
        intros d Hd. now rewrite (Hall d Hd).
      * intros [= <- <-]. split; [reflexivity|].
        exists [Path.join figures_dir pf]. subst w1.
        rewrite vlm_calls_log_vlm. split; [reflexivity|].
        split; [apply prefix_cons, prefix_nil | discriminate].
    + apply IH.
Qed.

(** X11.  The VLM is asked once for each plot that is present, about the
    path of the plot inside the figures directory, in the order of the plot
    names; plots that are no longer there are skipped.  When a request
    raises, the remaining plots are not asked about, and the handler of the
    description step asks nothing more. *)
Theorem vlm_is_asked_once_per_plot (env : collaborators)
    (figures_dir : string) (names : list string) (w : world) :
  let r := generate_descriptions env figures_dir names w in
  let expected := images_to_review figures_dir names (fs w) in
  exists asked,
    vlm_calls r.2 = vlm_calls w ++ asked
    /\ asked `prefix_of` expected
    /\ (forall text, r.1 = Ok text -> asked = expected)
    /\ vlm_calls (describe_plots env figures_dir names w).2 = vlm_calls r.2.
Proof.
  intros r expected.
  assert (vlm_calls (describe_plots env figures_dir names w).2 = vlm_calls r.2)
    as Hsame.
  { subst r. unfold describe_plots, try_except.
    destruct (generate_descriptions env figures_dir names w) as [[t|e] w1];
      [reflexivity|].
    simpl. now rewrite vlm_calls_log_traceback, vlm_calls_log_print. }
  subst r expected. unfold generate_descriptions, bind,
    call_create_vlm_client in *.
  destruct (create_vlm_client env (now w) "gpt-4o-2024-05-13")
    as [[client model]|e].
  - destruct (describe_each env figures_dir model client names ∅ w)
      as [o w1] eqn:Heach.
    apply describe_each_calls in Heach as (_ & asked & Hcalls & Hpre & Hall).
    exists asked. destruct o as [desc_map|e]; cbn [fst snd] in *.
    + repeat split; try assumption. intros text _. now apply (Hall desc_map).
    + repeat split; try assumption. discriminate.
  - exists []. cbn [fst snd] in *. rewrite app_nil_r.
    repeat split; [apply prefix_nil | discriminate | exact Hsame].
Qed.

(** X11 at three plot names of which the second is not there. *)
Lemma vlm_is_asked_once_per_plot_witness :
  vlm_calls
    (generate_descriptions (Demo.scripted true []) "run/figures"
       ["ACC.PNG"; "gone.png"; "loss.png"] (init_world Demo.project)).2
  = ["run/figures/ACC.PNG"; "run/figures/loss.png"].
Proof.
  destruct (vlm_is_asked_once_per_plot (Demo.scripted true []) "run/figures"
              ["ACC.PNG"; "gone.png"; "loss.png"] (init_world Demo.project))
    as (asked & Hcalls & _ & Hall & _).
  rewrite Hcalls.
  rewrite (Hall
             (match
                 (generate_descriptions (Demo.scripted true []) "run/figures"
                    ["ACC.PNG"; "gone.png"; "loss.png"]
                    (init_world Demo.project)).1
               with
               | Ok text => text
               | Raise _ => EmptyString
               end) ltac:(vm_compute; reflexivity)).
  vm_compute. reflexivity.
Defined.

End VlmStep.

(** ** What is saved, and what the return value tells *)

Section SavedNotebook.
Import PyStr Regex.

Lemma contains_iff (needle s : string) :
  contains needle s = true <-> exists a b, s = a +:+ needle +:+ b.
Proof.
  split.
  - induction s as [|c s IH]; rewrite contains_eq; intros H;
      apply orb_true_iff in H as [H|H]; try discriminate.
    + apply startswith_iff in H as [r ->]. now exists EmptyString, r.
    + apply startswith_iff in H as [r ->]. now exists EmptyString, r.
    + destruct (IH H) as (a & b & ->). now exists (String c a), b.
  - intros (a & b & ->). induction a as [|c a IH]; rewrite contains_eq.
    + now rewrite append_nil_l, startswith_append.
    + rewrite append_cons, IH. apply orb_true_r.
Qed.

(** The lazy group never holds the closer. *)
Lemma lazy_group_until_free (closer s g : string) :
  closer <> EmptyString ->
  lazy_group_until closer s = Some g -> contains closer g = false.
Proof.
  intros Hne. assert (contains closer EmptyString = false) as Hempty
    by (destruct closer; [congruence | reflexivity]).
  revert g. induction s as [|c s IH]; intros g; rewrite lazy_group_until_eq.
  - destruct (startswith _ closer); [|discriminate]. now intros [= <-].
  - destruct (startswith (String c s) closer) eqn:Hs; [now intros [= <-]|].
    destruct (lazy_group_until closer s) as [g'|] eqn:Hg; [|discriminate].
    intros [= <-]. rewrite contains_eq, (IH g' eq_refl), orb_false_r.
    destruct (startswith (String c g') closer) eqn:Hs2; [|reflexivity].
    apply startswith_iff in Hs2 as [r E].
    apply lazy_group_until_Some in Hg as [post ->].
    assert (startswith (String c (g' +:+ closer +:+ post)) closer = true)
      as Hs3.
    { apply startswith_iff. exists (r +:+ closer +:+ post).
      now rewrite <- append_cons, E, append_assoc. }
    congruence.
Qed.

Lemma re_search_free (s g : string) :
  re_search s = Some g -> contains FENCE g = false.
Proof.
  assert (forall t, match_here t = Some g -> contains FENCE g = false) as Hm.
  { intros t. unfold match_here.
    destruct (strip_prefix FENCE_OPEN t); [|discriminate].
    now apply lazy_group_until_free. }
  induction s as [|c s IH]; rewrite re_search_eq;
    destruct (match_here _) as [g'|] eqn:E;
    first [exact IH | intros [= ->]; eauto | discriminate].
Qed.

Lemma strip_free (needle g : string) :
  contains needle g = false -> contains needle (strip g) = false.
Proof.
  intros H. destruct (contains needle (strip g)) eqn:Hs; [|reflexivity].
  apply contains_iff in Hs as (a & b & E).
  destruct (strip_spec g) as (l & r & Eg & _).
  assert (contains needle g = true) as Hg; [|congruence].
  apply contains_iff. exists (l +:+ a), (b +:+ r).
  etransitivity; [exact Eg|]. rewrite E. now rewrite !append_assoc.
Qed.

Lemma within_weaken (W : string -> Prop) (E E' : event -> Prop)
    (w w' : world) :
  (forall e, E e -> E' e) -> within W E w w' -> within W E' w w'.
Proof.
  intros HE [Hf (added & Ht & Ha)]. split; [exact Hf|].
  exists added. split; [exact Ht|]. eapply Forall_impl; eauto.
Qed.

Lemma keeps_setup (E : event -> Prop) (base_folder : string) :
  keeps anywhere E (setup_notebook_folder base_folder).
Proof.
  intros w. apply (within_weaken anywhere no_event); [intros e []|].
  revert w. change (keeps anywhere no_event (setup_notebook_folder base_folder)).
  unfold setup_notebook_folder. repeat keeps_step;
    auto using rmtree_silent, makedirs_silent, copytree_silent.
Qed.

(** Every save of a run goes to the notebook file and holds no triple
    backtick. *)
Lemma keeps_create_fence_free (env : collaborators)
    (base_folder model : string) (n : Z) :
  keeps anywhere (fence_free_saves (notebook_file_of base_folder))
    (create_lab_notebook env base_folder model n).
Proof.
  set (E := fence_free_saves (notebook_file_of base_folder)).
  assert (forall response group1,
            re_search response = Some group1 ->
            E (EvWrite (notebook_file_of base_folder) (strip group1)))
    as Hsave.
  { intros response g Hg. split; [reflexivity|].
    now apply strip_free, (re_search_free response). }
  unfold create_lab_notebook. apply keeps_bind; [apply keeps_setup|].
  intros _. apply keeps_try_except.
  - unfold try_body.
    apply keeps_bind; [now apply keeps_gather_inputs|]. intros inputs.
    unfold write_and_reflect.
    apply keeps_bind; [keeps_step|]. intros [client client_model].
    apply keeps_bind; [keeps_step|]. intros [response history].
    unfold save_and_reflect.
    destruct (re_search response) as [group1|] eqn:Hre; [|keeps_step].
    apply keeps_bind; [apply keeps_save_notebook; eauto; easy|]. intros _.
    apply keeps_bind;
      [apply keeps_reflection_loop; eauto; easy|].
    intros [b|]; keeps_step.
  - intros e. unfold report_exception. repeat keeps_step.
Qed.

(** X12.  The notebook that is written never holds a triple backtick:
    group 1 of the search ends before the first one after the opening
    fence, so a notebook with a fenced code block of its own is cut at that
    block's opening fence.  This holds for group 1, for its stripped form,
    and for every save of every run, each of which goes to the notebook
    file. *)
Theorem saved_notebook_has_no_fence :
  (forall s group1 : string,
     re_search s = Some group1 ->
     contains FENCE group1 = false /\ contains FENCE (strip group1) = false)
  /\ (forall (env : collaborators) (base_folder model : string) (n : Z)
             (files : gmap string node),
        Forall (fun pc => pc.1 = notebook_file_of base_folder
                          /\ contains FENCE pc.2 = false)
          (writes (create_lab_notebook env base_folder model n
                     (init_world files)).2)).
Proof.
  split.
  - intros s g H. apply re_search_free in H.
    split; [exact H | now apply strip_free].
  - intros env base_folder model n files.
    destruct (writes_within _ _ _ _
                (keeps_create_fence_free env base_folder model n
                   (init_world files))) as (more & -> & Hmore).
    exact Hmore.
Qed.

(** X12 at an answer whose notebook has a code block. *)
Lemma saved_notebook_has_no_fence_witness :
  re_search Demo2.nested_answer = Some "# Usage "
  /\ contains FENCE (strip "# Usage ") = false
  /\ writes (create_lab_notebook
               (Demo.scripted true [Some Demo2.nested_answer]) "run"
               "gpt-4o-2024-05-13" 0 (init_world Demo.project)).2
     = [("run/notebook/lab_notebook.md", "# Usage")].
Proof.
  split; [vm_compute; reflexivity|].
  split; [|vm_compute; reflexivity].
  destruct saved_notebook_has_no_fence as [Hgroup _].
  apply (Hgroup Demo2.nested_answer "# Usage "). vm_compute. reflexivity.
Defined.

End SavedNotebook.

Section ReturnValue.
Import PyStr Regex.

Context (env : collaborators).

Lemma from_first_answer_raise (base_folder : string) (n : Z) (client : nat)
    (client_model : string) (e : exn) (w : world) :
  from_first_answer env base_folder n client client_model (Raise e) w
  = report_exception e w.
Proof. reflexivity. Qed.

(** A run that made no LLM call did not return [True]. *)
Lemma run_without_call (base_folder model : string) (n : Z)
    (files : gmap string node) :
  let run := create_lab_notebook env base_folder model n (init_world files) in
  llm_calls run.2 = [] -> run.1 <> Ok true.
Proof.
  intros run Hcalls. subst run.
  destruct (setup_notebook_folder base_folder (init_world files))
    as [[[]|e] w1] eqn:Hsetup.
  2:{ now rewrite (create_setup_raises _ _ _ _ _ _ _ Hsetup). }
  destruct (gather_inputs env base_folder w1) as [[inputs|e] w2] eqn:Hgather.
  2:{ now rewrite (create_gather_raises _ _ _ _ _ _ _ _ Hsetup Hgather). }
  destruct (create_client env (now w2) model) as [[client cm]|e] eqn:Hclient.
  2:{ now rewrite (create_client_raises _ _ _ _ _ _ _ _ _ Hsetup Hgather
                     Hclient). }
  rewrite (create_unfold _ _ _ _ _ _ _ _ _ _ Hsetup Hgather Hclient) in Hcalls.
  cbv zeta in Hcalls.
  match type of Hcalls with
  | llm_calls (from_first_answer _ _ _ _ _ ?a ?w).2 = _ =>
      destruct (llm_calls_prefix _ _ _ _
                  (keeps_from_first_answer env base_folder n client cm a w))
        as [more Hmore]
  end.
  rewrite Hmore, llm_calls_log in Hcalls. simpl in Hcalls.
  now destruct (llm_calls w2).
Qed.

(** X13.  What [True] tells: the call returns [True] only when the first
    LLM call was answered, the answer carried a fenced block, and the
    notebook file now holds that block, stripped. *)
Theorem true_means_the_first_block_is_on_disk (base_folder model : string)
    (n : Z) (files : gmap string node) :
  well_formed files = true ->
  let run := create_lab_notebook env base_folder model n (init_world files) in
  run.1 = Ok true ->
  exists prompt response group1,
    head (llm_calls run.2) = Some (prompt, Some response)
    /\ re_search response = Some group1
    /\ fs run.2 !! notebook_file_of base_folder = Some (File (strip group1)).
Proof.
  intros Hwf run Htrue.
  destruct (llm_calls run.2) as [|[prompt reply] rest] eqn:Hcalls.
  { now destruct (run_without_call base_folder model n files Hcalls). }
  assert (head (llm_calls run.2) = Some (prompt, reply)) as Hhead
    by (now rewrite Hcalls).
  pose proof Hhead as Hinv. apply first_call_inv in Hinv
    as (w1 & inputs & w2 & client & cm & _ & _ & _ & _ & _ & _ & _ & ->
        & Hreply & Hrun).
  fold run in Hrun. cbv zeta in Hreply, Hrun.
  destruct (get_response_from_llm env (now w2) (combined_prompt_of inputs)
              client cm notebook_system_message_template [])
    as [[response history]|e].
  2:{ rewrite Hrun, from_first_answer_raise in Htrue. discriminate. }
  simpl in Hreply. subst reply.
  destruct (re_search response) as [group1|] eqn:Hsearch.
  2:{ rewrite Hrun, from_first_answer_run, Hsearch in Htrue. discriminate. }
  exists (combined_prompt_of inputs), response, group1.
  split; [reflexivity|]. split; [exact Hsearch|].
  now destruct (run_with_block env base_folder model n files _ _ _ Hwf Hhead
                  Hsearch) as (Hfile & _).
Qed.

(** A pass adds a failed LLM call only when it raises. *)
Lemma pass_failed_call (response notebook_file : string) (client : nat)
    (client_model : string) (i : nat) (history : msg_history) (w : world)
    (p : string) :
  let r := reflection_pass env response notebook_file client client_model
             i history w in
  In (p, None) (llm_calls r.2) ->
  In (p, None) (llm_calls w) \/ exists e, r.1 = Raise e.
Proof.
  cbv zeta. rewrite reflection_pass_run.
  destruct (FS.read_text notebook_file w) as [[current|e] w0]; [|now left].
  cbv zeta.
  destruct (get_response_from_llm env (now w) reflection_prompt client
              client_model notebook_system_message_template history)
    as [[reply history']|e]; [|right; now exists e].
  assert (forall w', llm_calls w'
                     = llm_calls w ++ [(reflection_prompt, Some reply)] ->
                     In (p, None) (llm_calls w') ->
                     In (p, None) (llm_calls w)) as Hin.
  { intros w' -> H. apply in_app_or in H as [H|[H|[]]]; [exact H|].
    discriminate. }
  simpl reply_of.
  set (w1 := log (EvLLM reflection_prompt (Some reply)) w).
  assert (llm_calls w1 = llm_calls w ++ [(reflection_prompt, Some reply)])
    as Hw1 by (subst w1; now rewrite llm_calls_log).
  destruct (contains DONE_SENTINEL reply).
  { cbn [fst snd]. intros H. left. apply (fun E => Hin _ E H).
    rewrite llm_calls_log. cbn [llm_call_of option_list].
    now rewrite app_nil_r. }
  destruct (re_search response) as [group1|];
    [|cbn [fst snd]; intros H; left; eauto].
  destruct (String.eqb (strip group1) current).
  { cbn [fst snd]. intros H. left. apply (fun E => Hin _ E H).
    rewrite llm_calls_log. cbn [llm_call_of option_list].
    now rewrite app_nil_r. }
  pose proof (calls_after_save notebook_file (strip group1) w1) as Hs.
  destruct (save_notebook notebook_file (strip group1) w1) as [[[]|e] w2];
    cbn [fst snd] in *; intros H; left; apply (Hin w2); congruence.
Qed.

Lemma loop_failed_call (response notebook_file : string) (client : nat)
    (client_model : string) (indices : list nat) (history : msg_history)
    (w : world) (p : string) :
  let r := reflection_loop env response notebook_file client client_model
             indices history w in
  In (p, None) (llm_calls r.2) ->
  In (p, None) (llm_calls w) \/ exists e, r.1 = Raise e.
Proof.
  cbv zeta. revert history w.
  induction indices as [|i rest IH]; intros history w; [now left|].
  cbn [reflection_loop]. unfold bind.
  pose proof (pass_failed_call response notebook_file client client_model
                i history w p) as Hp. cbv zeta in Hp.
  destruct (reflection_pass env response notebook_file client client_model
              i history w) as [[[history'| |b]|e] w1]; cbn [fst snd] in *.
  - intros H. destruct (IH history' w1 H) as [H1|H1]; [|now right].
    destruct (Hp H1) as [H2|[e He]]; [now left | discriminate].
  - intros H. destruct (Hp H) as [H2|[e He]]; [now left | discriminate].
  - intros H. destruct (Hp H) as [H2|[e He]]; [now left | discriminate].
  - intros _. right. now exists e.
Qed.

(** X14.  A failed LLM call is never survived: when any LLM call of a
    run raised, be it the first one or one of a reflection pass, the call
    returns [False], also when the notebook had been saved before. *)
Theorem failed_llm_call_gives_false (base_folder model : string) (n : Z)
    (files : gmap string node) (p : string) :
  let run := create_lab_notebook env base_folder model n (init_world files) in
  In (p, None) (llm_calls run.2) -> run.1 = Ok false.
Proof.
  intros run Hin.
  destruct (llm_calls run.2) as [|[prompt reply] rest] eqn:Hcalls;
    [now destruct Hin|].
  assert (head (llm_calls run.2) = Some (prompt, reply)) as Hhead
    by (now rewrite Hcalls).
  rewrite <- Hcalls in Hin. clear Hcalls rest.
  apply first_call_inv in Hhead
    as (w1 & inputs & w2 & client & cm & _ & _ & _ & _ & Hc & _ & _ & ->
        & Hreply & Hrun).
  fold run in Hrun. cbv zeta in Hreply, Hrun. rewrite Hrun in Hin |- *.
  clear Hrun run.
  destruct (get_response_from_llm env (now w2) (combined_prompt_of inputs)
              client cm notebook_system_message_template [])
    as [[response history]|e]; [|reflexivity].
  simpl in Hreply. subst reply.
  set (w3 := log (EvLLM (combined_prompt_of inputs) (Some response)) w2) in *.
  assert (~ In (p, None) (llm_calls w3)) as Hw3.
  { subst w3. rewrite llm_calls_log, Hc. simpl. intros [H|[]]. discriminate. }
  rewrite from_first_answer_run in Hin |- *.
  destruct (re_search response) as [group1|]; [|reflexivity].
  pose proof (calls_after_save (notebook_file_of base_folder) (strip group1)
                w3) as Hs.
  destruct (save_notebook _ _ w3) as [[[]|e] w4]; [|reflexivity].
  simpl in Hs.
  pose proof (loop_failed_call response (notebook_file_of base_folder) client
                cm (range n) history w4 p) as Hl. cbv zeta in Hl.
  destruct (reflection_loop env response (notebook_file_of base_folder) client
              cm (range n) history w4) as [[[b|]|e] w5]; cbn [fst snd] in *;
    [| |reflexivity].
  - destruct (Hl Hin) as [H|[e He]]; [|discriminate].
    rewrite Hs in H. contradiction.
  - destruct (Hl Hin) as [H|[e He]]; [|discriminate].
    rewrite Hs in H. contradiction.
Qed.

(** X15.  A reflection count of zero or less means no reflection at all:
    the run is the same as with zero, and the LLM is asked at most once. *)
Theorem no_reflection_below_one (base_folder model : string) (n : Z)
    (w : world) (files : gmap string node) :
  (n <= 0)%Z ->
  create_lab_notebook env base_folder model n w
  = create_lab_notebook env base_folder model 0 w
  /\ length (llm_calls (create_lab_notebook env base_folder model n
                          (init_world files)).2) <= 1.
Proof.
  intros Hn. split.
  - destruct n as [|q|q]; [reflexivity | lia | reflexivity].
  - pose proof (run_calls_bound env base_folder model n files) as H.
    rewrite Z2Nat.nonpos in H by exact Hn. exact H.
Qed.

End ReturnValue.

(** X13 at a run that returns [True]. *)
Lemma true_means_the_first_block_is_on_disk_witness :
  let run := create_lab_notebook
               (Demo.scripted true [Some (Demo.fenced " # Notebook ");
                                    Some "I am done"])
               "run" "gpt-4o-2024-05-13" 3 (init_world Demo.project) in
  exists prompt response group1,
    head (llm_calls run.2) = Some (prompt, Some response)
    /\ Regex.re_search response = Some group1
    /\ fs run.2 !! notebook_file_of "run" = Some (File (PyStr.strip group1)).
Proof.
  apply (true_means_the_first_block_is_on_disk
           (Demo.scripted true [Some (Demo.fenced " # Notebook ");
                                Some "I am done"])
           "run" "gpt-4o-2024-05-13" 3 Demo.project).
  - vm_compute. reflexivity.
  - vm_compute. reflexivity.
Defined.

(** X14 at a run whose first answer is saved and whose first reflection
    call raises. *)
Lemma failed_llm_call_gives_false_witness :
  let run := create_lab_notebook
               (Demo.scripted true [Some (Demo.fenced "# Notebook")])
               "run" "gpt-4o-2024-05-13" 3 (init_world Demo.project) in
  run.1 = Ok false
  /\ fs run.2 !! "run/notebook/lab_notebook.md" = Some (File "# Notebook").
Proof.
  split; [|vm_compute; reflexivity].
  apply (failed_llm_call_gives_false
           (Demo.scripted true [Some (Demo.fenced "# Notebook")])
           "run" "gpt-4o-2024-05-13" 3 Demo.project reflection_prompt).
  vm_compute. right. left. reflexivity.
Defined.


(** X15 at a negative count. *)
Lemma no_reflection_below_one_witness :
  let env := Demo.scripted true [Some (Demo.fenced "# Notebook");
                                 Some (Demo.fenced "# Notebook v2")] in
  length (llm_calls (create_lab_notebook env "run" "gpt-4o-2024-05-13" (-2)
                       (init_world Demo.project)).2) <= 1.
Proof.
  intros env.
  apply (no_reflection_below_one env "run" "gpt-4o-2024-05-13" (-2)
           (init_world Demo.project) Demo.project).
  lia.
Defined.
